(** * alab_management: sample positions, reservation and ownership checks

    A shallow embedding of [alab_management/sample_view/sample_view.py]
    (class [SampleView]) and [alab_management/lab_view.py] (class
    [LabView]), together with the properties of the resource reservation
    and location-locking engine.

    The two MongoDB collections are lists of documents in insertion
    (natural) order; [find_one] returns the first match, [update_one]
    rewrites the first match, [insert_one] appends.  Python exceptions are
    an explicit outcome, and code that reads or writes the collections is
    written in a state-and-exception monad over the [SampleView] object. *)

From Stdlib Require Import List String Ascii Bool Arith NArith ZArith Lia.
From Stdlib Require Import DecimalString.
Import ListNotations.
Open Scope string_scope.

Set Implicit Arguments.

(** ** Identifiers and documents *)

(** [bson.ObjectId]: only equality is ever used on it. *)
Definition ObjectId := N.

(** [datetime.now()] is passed in by the caller of each operation. *)
Definition datetime := Z.

Definition eqb_oid (a b : option ObjectId) : bool :=
  match a, b with
  | Some x, Some y => N.eqb x y
  | None, None => true
  | _, _ => false
  end.

Definition eqb_ostr (a b : option string) : bool :=
  match a, b with
  | Some x, Some y => String.eqb x y
  | None, None => true
  | _, _ => false
  end.

(** A document of the [sample_positions] collection. *)
Module PositionDoc.
Record t := mk {
  name : string;
  description : string;
  task_id : option ObjectId;
  last_updated : datetime;
  parent_device : option string
}.

Definition set_task_id (v : option ObjectId) (d : t) : t :=
  mk (name d) (description d) v (last_updated d) (parent_device d).
End PositionDoc.

(** A document of the [samples] collection. *)
Module SampleDoc.
Record t := mk {
  _id : ObjectId;
  name : string;
  tags : list string;
  metadata : list (string * string);
  position : option string;
  task_id : option ObjectId;
  created_at : datetime;
  last_updated : datetime
}.

Definition set_position (p : option string) (now : datetime) (d : t) : t :=
  mk (_id d) (name d) (tags d) (metadata d) p (task_id d) (created_at d) now.

Definition set_task_id (v : option ObjectId) (now : datetime) (d : t) : t :=
  mk (_id d) (name d) (tags d) (metadata d) (position d) v (created_at d) now.
End SampleDoc.

(** The [Sample] object built by [SampleView.get_sample]. *)
Module Sample.
Record t := mk {
  sample_id : ObjectId;
  name : string;
  position : option string;
  task_id : option ObjectId;
  metadata : list (string * string);
  tags : list string
}.
End Sample.

(** [sample.SamplePosition]: the declaration of a group of positions. *)
Module SamplePosition.
Record t := mk {
  name : string;
  number : nat;
  description : string
}.
End SamplePosition.

(** [SamplePositionRequest]: a prefix and a count ([conint(ge=0)], 1 by
    default). *)
Module SamplePositionRequest.
Record t := mk {
  prefix : string;
  number : nat
}.

Definition from_str (sample_position_prefix : string) : t :=
  mk sample_position_prefix 1.

(** What a caller may pass for one item: an object, a string, or a dict
    with a prefix and possibly a number. *)
Inductive py_type :=
| Obj (r : t)
| Str (s : string)
| Dict (prefix : string) (number : option nat).

Definition from_py_type (sample_position : py_type) : t :=
  match sample_position with
  | Obj r => r
  | Str s => from_str s
  | Dict p (Some n) => mk p n
  | Dict p None => mk p 1
  end.
End SamplePositionRequest.

Inductive SamplePositionStatus := EMPTY | OCCUPIED | LOCKED.

Definition status_eqb (a b : SamplePositionStatus) : bool :=
  match a, b with
  | EMPTY, EMPTY | OCCUPIED, OCCUPIED | LOCKED, LOCKED => true
  | _, _ => false
  end.

(** One entry of the list returned by [get_available_sample_position]. *)
Module Available.
Record t := mk {
  name : string;
  need_release : bool
}.
End Available.

(** ** Exceptions *)

(** One constructor per [raise ValueError(...)] site of the two files. *)
Inductive message :=
| Unsupported_sample_position_name (name : string)
| Duplicated_sample_positions
| Not_enough_matches (prefix : string) (count number : nat)
| Invalid_sample_position (position : string)
| Cannot_find_device_with_prefix (prefix : string)
| Position_currently_occupied (position : string)
| Position_currently_locked (current_task_id : option ObjectId)
| Requested_position_not_EMPTY (position : string)
| Unsupported_sample_name (name : string)
| No_sample_found (sample_id : ObjectId)
| Cannot_find_sample (sample_id : ObjectId)
| Requested_position_not_EMPTY_or_LOCKED (position : string)
| Cannot_move_without_locking (position : string)
| Sample_not_belong_to_task.

Inductive exn :=
| ValueError (m : message)
| TypeError                          (* subscripting [None] *)
| DuplicateKeyError (k : ObjectId)   (* [insert_one] on an existing [_id] *)
| TimeoutError                       (* a request that is never granted *)
| BodyError (tag : nat).             (* raised by the caller's own code *)

Inductive outcome (A : Type) :=
| Ok (a : A)
| Raise (e : exn).
Arguments Ok {A} a.
Arguments Raise {A} e.

Definition is_raise {A} (o : outcome A) : bool :=
  match o with Ok _ => false | Raise _ => true end.

(** ** Collections *)

Section Collection.
Variable D : Type.

Definition find_one (q : D -> bool) (c : list D) : option D := List.find q c.

Definition find (q : D -> bool) (c : list D) : list D := List.filter q c.

Definition count_documents (q : D -> bool) (c : list D) : nat :=
  List.length (List.filter q c).

Fixpoint update_one (q : D -> bool) (upd : D -> D) (c : list D) : list D :=
  match c with
  | [] => []
  | d :: c' => if q d then upd d :: c' else d :: update_one q upd c'
  end.
End Collection.

(** The advisory lock of [get_lock]: what the [with] statement does to it. *)
Inductive lock_event :=
| LockEnter
| LockExit (with_exception : bool).

(** The state a [SampleView] object works on. *)
Record SampleView := mkSampleView {
  _sample_collection : list SampleDoc.t;
  _sample_positions_collection : list PositionDoc.t;
  _lock : list lock_event
}.

Definition set_samples (c : list SampleDoc.t) (v : SampleView) : SampleView :=
  mkSampleView c (_sample_positions_collection v) (_lock v).

Definition set_positions (c : list PositionDoc.t) (v : SampleView) : SampleView :=
  mkSampleView (_sample_collection v) c (_lock v).

Definition log_lock (e : lock_event) (v : SampleView) : SampleView :=
  mkSampleView (_sample_collection v) (_sample_positions_collection v)
               (_lock v ++ [e]).

(** ** The state-and-exception monad *)

Definition M (S A : Type) := S -> outcome A * S.

Definition ret {S A} (a : A) : M S A := fun s => (Ok a, s).

Definition raise {S A} (e : exn) : M S A := fun s => (Raise e, s).

Definition bind {S A B} (m : M S A) (k : A -> M S B) : M S B :=
  fun s => match m s with
           | (Ok a, s') => k a s'
           | (Raise e, s') => (Raise e, s')
           end.

(** A read-only query, which may raise. *)
Definition query {S A} (f : S -> outcome A) : M S A := fun s => (f s, s).

Definition modify {S} (f : S -> S) : M S unit := fun s => (Ok tt, f s).

Declare Scope py_scope.
Delimit Scope py_scope with py.
Notation "x <- m ;; k" := (bind m (fun x => k))
  (at level 61, m at next level, right associativity) : py_scope.
Notation "m ;;; k" := (bind m (fun _ => k))
  (at level 61, right associativity) : py_scope.
Open Scope py_scope.

(** ** Names *)

(** [re.search(r"[$.]", name) is not None] *)
Fixpoint has_reserved_char (name : string) : bool :=
  match name with
  | EmptyString => false
  | String c rest =>
      (Ascii.eqb c "$" || Ascii.eqb c ".")%char || has_reserved_char rest
  end.

(** The query [{"name": {"$regex": "^" + re.escape(prefix)}}]. *)
Definition name_matches (prefix : string) (d : PositionDoc.t) : bool :=
  String.prefix prefix (PositionDoc.name d).

Definition name_is (position : string) (d : PositionDoc.t) : bool :=
  String.eqb (PositionDoc.name d) position.

Definition sample_at (position : string) (d : SampleDoc.t) : bool :=
  eqb_ostr (SampleDoc.position d) (Some position).

Definition id_is (sample_id : ObjectId) (d : SampleDoc.t) : bool :=
  N.eqb (SampleDoc._id d) sample_id.

(** ** SampleView: read-only operations *)

Definition get_sample_position (position : string) (self : SampleView)
  : option PositionDoc.t :=
  find_one (name_is position) (_sample_positions_collection self).

Definition get_sample_position_status (position : string) (self : SampleView)
  : outcome (SamplePositionStatus * option ObjectId) :=
  match get_sample_position position self with
  | None => Raise (ValueError (Invalid_sample_position position))
  | Some sample_position =>
      match find_one (sample_at position) (_sample_collection self) with
      | Some sample => Ok (OCCUPIED, SampleDoc.task_id sample)
      | None =>
          match PositionDoc.task_id sample_position with
          | Some t => Ok (LOCKED, Some t)
          | None => Ok (EMPTY, None)
          end
      end
  end.

Definition is_unoccupied_position (position : string) (self : SampleView)
  : outcome bool :=
  match get_sample_position_status position self with
  | Ok (status, _) => Ok (negb (status_eqb status OCCUPIED))
  | Raise e => Raise e
  end.

(** ** SampleView: candidates and reservation *)

Section Loops.
Variables S A : Type.

(** [for x in l: body(x)] *)
Fixpoint for_each (l : list A) (body : A -> M S unit) : M S unit :=
  match l with
  | [] => ret tt
  | x :: rest => body x ;;; for_each rest body
  end.
End Loops.

(** The loop of [get_available_sample_position] over the documents the
    [find] returned. *)
Fixpoint collect_available (task_id : ObjectId) (self : SampleView)
  (available_sample_positions : list PositionDoc.t)
  : outcome (list Available.t) :=
  match available_sample_positions with
  | [] => Ok []
  | sample_position :: rest =>
      let name := PositionDoc.name sample_position in
      match get_sample_position_status name self with
      | Raise e => Raise e
      | Ok (status, current_task_id) =>
          if status_eqb status EMPTY || eqb_oid (Some task_id) current_task_id
          then
            match get_sample_position name self with
            | None => Raise TypeError
            | Some d =>
                let entry :=
                  Available.mk name
                    (negb (eqb_oid (PositionDoc.task_id d) (Some task_id))) in
                match collect_available task_id self rest with
                | Ok l => Ok (entry :: l)
                | Raise e => Raise e
                end
            end
          else collect_available task_id self rest
      end
  end.

(** The filter of the [find] in [get_available_sample_position]: the name
    starts with the prefix and the owner is unset or the task. *)
Definition free_or_mine (task_id : ObjectId) (position_prefix : string)
  (d : PositionDoc.t) : bool :=
  name_matches position_prefix d
  && (eqb_oid (PositionDoc.task_id d) None
      || eqb_oid (PositionDoc.task_id d) (Some task_id)).

Definition get_available_sample_position (task_id : ObjectId)
  (position_prefix : string) (self : SampleView)
  : outcome (list Available.t) :=
  match find_one (name_matches position_prefix)
                 (_sample_positions_collection self) with
  | None => Raise (ValueError (Cannot_find_device_with_prefix position_prefix))
  | Some _ =>
      collect_available task_id self
        (find (free_or_mine task_id position_prefix)
              (_sample_positions_collection self))
  end.

(** Python's [sorted(l, key=...)]: a stable sort on an integer key. *)
Section Sorted.
Variable A : Type.
Variable key : A -> nat.

Fixpoint insert_by_key (x : A) (l : list A) : list A :=
  match l with
  | [] => [x]
  | y :: ys => if (key x <=? key y)%nat then x :: y :: ys
               else y :: insert_by_key x ys
  end.

Fixpoint sorted (l : list A) : list A :=
  match l with
  | [] => []
  | x :: xs => insert_by_key x (sorted xs)
  end.
End Sorted.

(** A Python [dict] with string keys, in insertion order. *)
Section PyDict.
Variable V : Type.

Fixpoint dict_set (k : string) (v : V) (d : list (string * V))
  : list (string * V) :=
  match d with
  | [] => [(k, v)]
  | (k', v') :: rest =>
      if String.eqb k' k then (k', v) :: rest
      else (k', v') :: dict_set k v rest
  end.

Fixpoint dict_get (k : string) (d : list (string * V)) : option V :=
  match d with
  | [] => None
  | (k', v') :: rest => if String.eqb k' k then Some v' else dict_get k rest
  end.
End PyDict.

(** The value [request_sample_positions] returns on success. *)
Definition grant := list (string * list Available.t).

(** [with self._lock(): body] *)
Definition with_lock {A} (body : M SampleView A) : M SampleView A :=
  fun self =>
    let '(r, self') := body (log_lock LockEnter self) in
    (r, log_lock (LockExit (is_raise r)) self').

(** The loop "check if there are enough positions". *)
Fixpoint check_enough_positions
  (sample_positions_request : list SamplePositionRequest.t)
  : M SampleView unit :=
  match sample_positions_request with
  | [] => ret tt
  | sample_position :: rest =>
      let prefix := SamplePositionRequest.prefix sample_position in
      let number := SamplePositionRequest.number sample_position in
      count <- query (fun self =>
                 Ok (count_documents (name_matches prefix)
                       (_sample_positions_collection self))) ;;
      if (count <? number)%nat
      then raise (ValueError (Not_enough_matches prefix count number))
      else check_enough_positions rest
  end.

(** The loop under the lock; [None] is an early [return None]. *)
Fixpoint choose_positions (task_id : ObjectId)
  (sample_positions_request : list SamplePositionRequest.t)
  (available_positions : grant) : M SampleView (option grant) :=
  match sample_positions_request with
  | [] => ret (Some available_positions)
  | sample_position :: rest =>
      let prefix := SamplePositionRequest.prefix sample_position in
      let number := SamplePositionRequest.number sample_position in
      result <- query (get_available_sample_position task_id prefix) ;;
      if (match result with [] => true | _ => false end)
         || (List.length result <? number)%nat
      then ret None
      else
        choose_positions task_id rest
          (dict_set prefix
             (firstn number
                (sorted (fun task => Nat.b2n (Available.need_release task))
                        result))
             available_positions)
  end.

Definition request_sample_positions (task_id : ObjectId)
  (sample_positions : list SamplePositionRequest.py_type)
  : M SampleView (option grant) :=
  let sample_positions_request :=
    List.map SamplePositionRequest.from_py_type sample_positions in
  if negb (List.length sample_positions_request
           =? List.length
                (nodup string_dec
                   (List.map SamplePositionRequest.prefix
                             sample_positions_request)))%nat
  then raise (ValueError Duplicated_sample_positions)
  else
    check_enough_positions sample_positions_request ;;;
    with_lock (choose_positions task_id sample_positions_request []).

(** ** SampleView: locking one position *)

Definition lock_sample_position (task_id : ObjectId) (position : string)
  : M SampleView unit :=
  r <- query (get_sample_position_status position) ;;
  let '(sample_status, current_task_id) := r in
  (if negb (eqb_oid current_task_id (Some task_id))
   then match sample_status with
        | OCCUPIED => raise (ValueError (Position_currently_occupied position))
        | LOCKED =>
            raise (ValueError (Position_currently_locked current_task_id))
        | EMPTY => ret tt
        end
   else ret tt) ;;;
  modify (fun self =>
    set_positions
      (update_one (name_is position) (PositionDoc.set_task_id (Some task_id))
                  (_sample_positions_collection self)) self).

Definition release_sample_position (position : string) : M SampleView unit :=
  p <- query (fun self => Ok (get_sample_position position self)) ;;
  match p with
  | None => raise (ValueError (Invalid_sample_position position))
  | Some _ =>
      modify (fun self =>
        set_positions
          (update_one (name_is position) (PositionDoc.set_task_id None)
                      (_sample_positions_collection self)) self)
  end.

Definition get_sample_positions_by_task (task_id : option ObjectId)
  (self : SampleView) : list string :=
  List.map PositionDoc.name
    (find (fun d => eqb_oid (PositionDoc.task_id d) task_id)
          (_sample_positions_collection self)).

(** ** SampleView: creating positions *)

(** Python truthiness of an [Optional[str]]. *)
Definition truthy (s : option string) : bool :=
  match s with
  | Some (String _ _) => true
  | _ => false
  end.

(** [str(n)] for a natural number. *)
Definition str (n : nat) : string := NilZero.string_of_uint (Nat.to_uint n).

Section AddSamplePositions.
(** [SamplePosition.SEPARATOR], a class constant of [sample.py]. *)
Variable SEPARATOR : string.

(** The name given to position number [i] (from 0) of a declaration. *)
Definition position_name (sample_pos : SamplePosition.t)
  (parent_device_name : option string) (i : nat) : string :=
  let name :=
    if negb (SamplePosition.number sample_pos =? 1)%nat
    then SamplePosition.name sample_pos ++ SEPARATOR ++ str (i + 1)
    else SamplePosition.name sample_pos in
  match parent_device_name with
  | Some p => if truthy parent_device_name then p ++ SEPARATOR ++ name else name
  | None => name
  end.

(** The body of the inner loop. *)
Definition add_one_position (sample_pos : SamplePosition.t)
  (parent_device_name : option string) (now : datetime) (i : nat)
  : M SampleView unit :=
  let name := position_name sample_pos parent_device_name i in
  if has_reserved_char name
  then raise (ValueError (Unsupported_sample_position_name name))
  else
    sample_pos_ <- query (fun self => Ok (get_sample_position name self)) ;;
    match sample_pos_ with
    | None =>
        let new_entry :=
          PositionDoc.mk name (SamplePosition.description sample_pos) None now
            (if truthy parent_device_name then parent_device_name else None) in
        modify (fun self =>
          set_positions (_sample_positions_collection self ++ [new_entry]) self)
    | Some _ => ret tt
    end.

Definition add_sample_positions_to_db
  (sample_positions : list SamplePosition.t)
  (parent_device_name : option string) (now : datetime) : M SampleView unit :=
  for_each sample_positions (fun sample_pos =>
    for_each (seq 0 (SamplePosition.number sample_pos))
      (add_one_position sample_pos parent_device_name now)).
End AddSamplePositions.

Definition clean_up_sample_position_collection : M SampleView unit :=
  modify (set_positions []).

(** ** SampleView: samples *)

(** The [_id] the driver gives a document inserted without one: any id not
    yet in the collection; here the successor of the largest. *)
Definition generate_id (c : list SampleDoc.t) : ObjectId :=
  N.succ (fold_right N.max 0%N (List.map SampleDoc._id c)).

(** [insert_one(entry)]: [_id] is unique in a collection. *)
Definition insert_sample (entry : ObjectId -> SampleDoc.t)
  (sample_id : option ObjectId) : M SampleView ObjectId :=
  fun self =>
    let c := _sample_collection self in
    let inserted_id :=
      match sample_id with
      | Some i => i
      | None => generate_id c
      end in
    if existsb (id_is inserted_id) c
    then (Raise (DuplicateKeyError inserted_id), self)
    else (Ok inserted_id, set_samples (c ++ [entry inserted_id]) self).

Definition or_default {A} (v : option A) (d : A) : A :=
  match v with Some x => x | None => d end.

Definition create_sample (name : string) (position : option string)
  (sample_id : option ObjectId) (tags : option (list string))
  (metadata : option (list (string * string))) (now : datetime)
  : M SampleView ObjectId :=
  match position with
  | Some p =>
      unoccupied <- query (is_unoccupied_position p) ;;
      if negb unoccupied
      then raise (ValueError (Requested_position_not_EMPTY p))
      else ret tt
  | None => ret tt
  end ;;;
  if has_reserved_char name
  then raise (ValueError (Unsupported_sample_name name))
  else
    insert_sample
      (fun i => SampleDoc.mk i name (or_default tags []) (or_default metadata [])
                  position None now now)
      sample_id.

Definition get_sample (sample_id : ObjectId) (self : SampleView)
  : outcome Sample.t :=
  match find_one (id_is sample_id) (_sample_collection self) with
  | None => Raise (ValueError (No_sample_found sample_id))
  | Some result =>
      Ok (Sample.mk (SampleDoc._id result) (SampleDoc.name result)
            (SampleDoc.position result) (SampleDoc.task_id result)
            (SampleDoc.metadata result) (SampleDoc.tags result))
  end.

Definition update_sample_task_id (sample_id : ObjectId)
  (task_id : option ObjectId) (now : datetime) : M SampleView unit :=
  result <- query (fun self =>
              Ok (find_one (id_is sample_id) (_sample_collection self))) ;;
  match result with
  | None => raise (ValueError (Cannot_find_sample sample_id))
  | Some _ =>
      modify (fun self =>
        set_samples
          (update_one (id_is sample_id) (SampleDoc.set_task_id task_id now)
                      (_sample_collection self)) self)
  end.

Definition move_sample (sample_id : ObjectId) (position : option string)
  (now : datetime) : M SampleView unit :=
  result <- query (fun self =>
              Ok (find_one (id_is sample_id) (_sample_collection self))) ;;
  match result with
  | None => raise (ValueError (Cannot_find_sample sample_id))
  | Some result =>
      if eqb_ostr (SampleDoc.position result) position
      then ret tt
      else
        match position with
        | Some p =>
            unoccupied <- query (is_unoccupied_position p) ;;
            if negb unoccupied
            then raise (ValueError (Requested_position_not_EMPTY_or_LOCKED p))
            else ret tt
        | None => ret tt
        end ;;;
        modify (fun self =>
          set_samples
            (update_one (id_is sample_id) (SampleDoc.set_position position now)
                        (_sample_collection self)) self)
  end.

(** What [exists] may be given: an [ObjectId] or a string. *)
Inductive ObjectId_or_str :=
| Oid (i : ObjectId)
| OidStr (s : string).

(** [bson.errors.InvalidId]: the string does not write an id. *)
Inductive InvalidId := Invalid_id (s : string).

Section Exists.
(** [ObjectId(s)] of the bson package on a string: the id the string
    writes (24 hexadecimal digits), if it writes one. *)
Variable ObjectId_of_str : string -> option ObjectId.

(** [ObjectId(sample_id)] *)
Definition to_ObjectId (sample_id : ObjectId_or_str) : InvalidId + ObjectId :=
  match sample_id with
  | Oid i => inr i
  | OidStr s =>
      match ObjectId_of_str s with
      | Some i => inr i
      | None => inl (Invalid_id s)
      end
  end.

Definition exists_ (sample_id : ObjectId_or_str) (self : SampleView)
  : InvalidId + bool :=
  match to_ObjectId sample_id with
  | inl e => inl e
  | inr i =>
      inr (0 <? count_documents (id_is i) (_sample_collection self))%nat
  end.
End Exists.

(** ** Generator-based context managers

    A function decorated with [contextlib.contextmanager] runs up to its
    [yield] and stays suspended there.  When the [with] body ends normally
    the generator is resumed ([next]); when the body raises, the exception
    is thrown into the generator at the [yield] ([gen.throw]), where only an
    enclosing [try] of the generator could catch it. *)

Record suspended (S Y : Type) := Suspended {
  yielded : Y;
  on_next : M S unit;
  on_throw : exn -> M S unit
}.

(** [with gen as y: body(y)] *)
Definition with_contextmanager {S Y} (gen : M S (suspended S Y))
  (body : Y -> M S unit) : M S unit :=
  g <- gen ;;
  fun s =>
    match body (yielded g) s with
    | (Ok _, s') => on_next g s'
    | (Raise e, s') => on_throw g e s'
    end.

Section MapM.
Variables S A B : Type.

Fixpoint map_M (f : A -> M S B) (l : list A) : M S (list B) :=
  match l with
  | [] => ret []
  | x :: rest => y <- f x ;; ys <- map_M f rest ;; ret (y :: ys)
  end.
End MapM.

(** ** LabView *)

(** The two values of [TaskStatus] that [lab_view.py] uses. *)
Inductive TaskStatus := REQUESTING_RESOURCES | RUNNING.

Module LabView.

Record t := mk { _task_id : ObjectId }.

Definition task_id (self : t) : ObjectId := _task_id self.

(** What [ResourceRequester.request_resources] returns. *)
Record request_result (DeviceType SamplePositions : Type) := mk_result {
  devices : list (DeviceType * string);
  sample_positions : SamplePositions;
  request_id : ObjectId
}.

Section RequestResources.
(** The lab the collaborators of a [LabView] act on, and their operations:
    [TaskView.update_status], [ResourceRequester.request_resources] and
    [release_resources], [DevicesClient.create_device_wrapper]. *)
Variables W ResourceRequest DeviceType DeviceWrapper SamplePositions : Type.
Variable update_status : ObjectId -> TaskStatus -> M W unit.
Variable requester_request_resources :
  ObjectId -> ResourceRequest -> option Z -> option Z ->
  M W (request_result DeviceType SamplePositions).
Variable requester_release_resources : ObjectId -> M W unit.
Variable create_device_wrapper : string -> M W DeviceWrapper.

(** The generator: everything up to the [yield], then what is left of it.
    The [yield] is in no [try], so a thrown exception leaves at once. *)
Definition request_resources (self : t) (resource_request : ResourceRequest)
  (priority : option Z) (timeout : option Z)
  : M W (suspended W (list (DeviceType * DeviceWrapper) * SamplePositions)) :=
  update_status (task_id self) REQUESTING_RESOURCES ;;;
  result <- requester_request_resources (task_id self) resource_request
              timeout priority ;;
  devices <- map_M (fun d =>
               w <- create_device_wrapper (snd d) ;; ret (fst d, w))
               (devices result) ;;
  update_status (task_id self) RUNNING ;;;
  ret (Suspended (devices, sample_positions result)
         (requester_release_resources (request_id result))
         (fun e => raise e)).
End RequestResources.

Definition get_sample (self : t) (sample_id : ObjectId) (v : SampleView)
  : outcome Sample.t :=
  get_sample sample_id v.

Definition move_sample (self : t) (sample_id : ObjectId)
  (position : option string) (now : datetime) : M SampleView unit :=
  match position with
  | Some p =>
      r <- query (get_sample_position_status p) ;;
      if negb (eqb_oid (snd r) (Some (_task_id self)))
      then raise (ValueError (Cannot_move_without_locking p))
      else ret tt
  | None => ret tt
  end ;;;
  sample <- query (get_sample self sample_id) ;;
  (* [get_sample] returns a [Sample] or raises: [sample is not None] holds *)
  (if negb (eqb_oid (Sample.task_id sample) (Some (_task_id self)))
   then raise (ValueError Sample_not_belong_to_task)
   else ret tt) ;;;
  move_sample sample_id position now.

Definition get_locked_sample_positions (self : t) (v : SampleView)
  : list string :=
  get_sample_positions_by_task (Some (_task_id self)) v.

End LabView.

(** ** The collaborators of a LabView

    [task_view], [task_manager] and [device_manager] are outside the two
    files above.  A lab holds the sample view, the status of each task and
    the grants the resource requester has handed out. *)

Record Lab := mkLab {
  lab_sample_view : SampleView;
  lab_task_status : list (ObjectId * TaskStatus);
  lab_requests : list (ObjectId * grant)
}.

(** Run a [SampleView] operation inside the lab. *)
Definition on_sample_view {A} (m : M SampleView A) : M Lab A :=
  fun w =>
    let '(r, v) := m (lab_sample_view w) in
    (r, mkLab v (lab_task_status w) (lab_requests w)).

(** The names of all the positions of a grant. *)
Definition granted_names (g : grant) : list string :=
  flat_map (fun kv => List.map Available.name (snd kv)) g.

(** Write [owner] into the owner field of each named position. *)
Definition set_owner (owner : option ObjectId) (names : list string)
  : M SampleView unit :=
  for_each names (fun position =>
    modify (fun self =>
      set_positions
        (update_one (name_is position) (PositionDoc.set_task_id owner)
                    (_sample_positions_collection self)) self)).

Module TaskView.
(** Modelled from the spec: [TaskView.update_status] of task_view.py, the
    Task Status Coordinator's [updateStatus(taskId, status)]. *)
Definition update_status (task_id : ObjectId) (status : TaskStatus)
  : M Lab unit :=
  modify (fun w =>
    mkLab (lab_sample_view w) ((task_id, status) :: lab_task_status w)
          (lab_requests w)).
End TaskView.

Module DevicesClient.
(** Modelled from the spec: [DevicesClient.create_device_wrapper] of
    device_manager.py, [wrapperFor(deviceName) -> deviceHandle]; the handle
    is the device name. *)
Definition create_device_wrapper (device_name : string) : M Lab string :=
  ret device_name.
End DevicesClient.

Module ResourceRequester.
(** Modelled from the spec: [ResourceRequester.request_resources] of
    task_manager.py.  It attempts a [reserve]; on success it sets
    owner = task id on every chosen position and returns the request id
    with the grant.  A request that cannot be served now waits in the
    broker's queue until a release or the timeout; with no other task
    running it ends as a timeout failure.  Devices are not requested. *)
Definition request_resources (task_id : ObjectId)
  (resource_request : list SamplePositionRequest.py_type)
  (timeout priority : option Z)
  : M Lab (LabView.request_result unit grant) :=
  r <- on_sample_view (request_sample_positions task_id resource_request) ;;
  match r with
  | None => raise TimeoutError
  | Some g =>
      on_sample_view (set_owner (Some task_id) (granted_names g)) ;;;
      fun w =>
        let request_id := N.of_nat (List.length (lab_requests w)) in
        (Ok (LabView.mk_result [] g request_id),
         mkLab (lab_sample_view w) (lab_task_status w)
               (lab_requests w ++ [(request_id, g)]))
  end.

(** Modelled from the spec: [ResourceRequester.release_resources] of
    task_manager.py, [release(grant)]: it clears the owner on every
    position in the grant, whatever its current value. *)
Definition release_resources (request_id : ObjectId) : M Lab unit :=
  fun w =>
    match List.find (fun e => N.eqb (fst e) request_id) (lab_requests w) with
    | None => (Ok tt, w)
    | Some (_, g) => on_sample_view (set_owner None (granted_names g)) w
    end.
End ResourceRequester.

(** [with lab_view.request_resources(resource_request) as (devices,
    sample_positions): body] *)
Definition with_request_resources (self : LabView.t)
  (resource_request : list SamplePositionRequest.py_type)
  (body : list (unit * string) * grant -> M Lab unit) : M Lab unit :=
  with_contextmanager
    (LabView.request_resources TaskView.update_status
       ResourceRequester.request_resources
       ResourceRequester.release_resources
       DevicesClient.create_device_wrapper self resource_request None None)
    body.

(** The owners of the named positions, as stored. *)
Definition stored_owner (position : string) (self : SampleView)
  : option (option ObjectId) :=
  option_map PositionDoc.task_id (get_sample_position position self).


(** ** SampleView: the parent device of a prefix *)

Definition ostr_dec (a b : option string) : {a = b} + {a <> b}.
Proof. decide equality. apply string_dec. Defined.

(** What [get_sample_position_parent_device] raises: a [ValueError] when
    nothing matches, an [Exception] when the devices differ. *)
Inductive parent_device_error :=
| No_sample_positions_beginning_with (position : string)
| Multiple_parent_devices (parent_devices : list (option string)).

Section ParentDevice.
(** The store's match of a name against [{"$regex": "^" + position}]: here
    the position is handed over as a pattern, without [re.escape]. *)
Variable regex_from_start : string -> string -> bool.

Definition get_sample_position_parent_device (position : string)
  (self : SampleView) : parent_device_error + option string :=
  let sample_positions :=
    find (fun d => regex_from_start position (PositionDoc.name d))
         (_sample_positions_collection self) in
  let parent_devices :=
    nodup ostr_dec (List.map PositionDoc.parent_device sample_positions) in
  match parent_devices with
  | [] => inl (No_sample_positions_beginning_with position)
  | [parent_device] => inr parent_device
  | _ :: _ :: _ => inl (Multiple_parent_devices parent_devices)
  end.
End ParentDevice.

(** ** ResourcesRequest *)

Module ResourcesRequest.
Section Preprocess.
(** The keys of a request: a device type or [None]. *)
Variable K : Type.

(** The [root_validator]: a bare string becomes a request for one position;
    anything else is kept. *)
Definition preprocess
  (values : list (K * list SamplePositionRequest.py_type))
  : list (K * list SamplePositionRequest.py_type) :=
  List.map
    (fun kv =>
       (fst kv,
        List.map
          (fun v_ =>
             match v_ with
             | SamplePositionRequest.Str s =>
                 SamplePositionRequest.Obj (SamplePositionRequest.from_str s)
             | _ => v_
             end)
          (snd kv)))
    values.
End Preprocess.
End ResourcesRequest.

(** ** config.py *)

(** What [toml.load] can return and what freezing turns it into: scalars,
    lists and dicts, tuples and frozen dicts ([MappingProxyType]). *)
#[warnings="-register-all"]
Inductive config_value :=
| Scalar (s : string)
| PyList (elements : list config_value)
| PyDict (items : list (string * config_value))
| PyTuple (elements : list config_value)
| FrozenDict (items : list (string * config_value)).

Fixpoint _froze_collection (collection_or_element : config_value)
  : config_value :=
  match collection_or_element with
  | PyList elements => PyTuple (List.map _froze_collection elements)
  | PyDict items =>
      FrozenDict
        (List.map (fun kv => let '(k, v) := kv in (k, _froze_collection v))
                  items)
  | _ => collection_or_element
  end.

Definition froze_config (config_ : list (string * config_value))
  : config_value :=
  _froze_collection (PyDict config_).

Module AlabConfig.
Record t := mk { _config : config_value }.

(** [__init__], given what [toml.load] read from the file. *)
Definition init (loaded : list (string * config_value)) : t :=
  mk (froze_config loaded).

(** [__getitem__]: [None] is a [KeyError] (or a value that has no items). *)
Definition getitem (self : t) (item : string) : option config_value :=
  match _config self with
  | FrozenDict items | PyDict items => dict_get item items
  | _ => None
  end.
End AlabConfig.
(** ** Notions used in the statements *)

(** The state [lock_sample_position] leaves when it does not raise. *)
Definition locked_for (task_id : ObjectId) (position : string)
  (self : SampleView) : SampleView :=
  set_positions
    (update_one (name_is position) (PositionDoc.set_task_id (Some task_id))
                (_sample_positions_collection self)) self.

(** The number of stored positions whose name starts with [prefix]. *)
Definition population (prefix : string) (self : SampleView) : nat :=
  count_documents (name_matches prefix) (_sample_positions_collection self).

(** The prefixes of a request, in order. *)
Definition prefixes (sample_positions : list SamplePositionRequest.py_type)
  : list string :=
  List.map SamplePositionRequest.prefix
    (List.map SamplePositionRequest.from_py_type sample_positions).

(** The iterations of the two nested loops of [add_sample_positions_to_db],
    in order: a declaration and an index below its number. *)
Definition iterations (sample_positions : list SamplePosition.t)
  : list (SamplePosition.t * nat) :=
  flat_map (fun sample_pos =>
              List.map (pair sample_pos)
                       (seq 0 (SamplePosition.number sample_pos)))
           sample_positions.

(** The position names the call generates, in order. *)
Definition generated_names (SEPARATOR : string)
  (sample_positions : list SamplePosition.t)
  (parent_device_name : option string) : list string :=
  List.map (fun it => position_name SEPARATOR (fst it) parent_device_name (snd it))
           (iterations sample_positions).

(** What makes an entry a candidate for a task: the occupancy resolver
    says EMPTY or names the task, and [need_release] tells whether the
    stored owner differs from the task. *)
Definition candidate_for (task_id : ObjectId) (self : SampleView)
  (a : Available.t) : Prop :=
  exists d st c,
    get_sample_position (Available.name a) self = Some d
    /\ Available.need_release a
       = negb (eqb_oid (PositionDoc.task_id d) (Some task_id))
    /\ get_sample_position_status (Available.name a) self = Ok (st, c)
    /\ (st = EMPTY \/ c = Some task_id).

(** The state on leaving [with self._lock()] when nothing was written. *)
Definition after_lock (with_exception : bool) (self : SampleView)
  : SampleView :=
  log_lock (LockExit with_exception) (log_lock LockEnter self).

(** The sort key of [request_sample_positions]. *)
Definition need_release_key (task : Available.t) : nat :=
  Nat.b2n (Available.need_release task).

(** The destination check of [LabView.move_sample] lets the call go on:
    no destination, or a destination the occupancy resolver attributes to
    the task. *)
Definition destination_held (task_id : ObjectId) (position : option string)
  (self : SampleView) : Prop :=
  position = None
  \/ exists p st,
       position = Some p
       /\ get_sample_position_status p self = Ok (st, Some task_id).

(** The entry [get_available_sample_position] builds for a document. *)
Definition entry_for (task_id : ObjectId) (d : PositionDoc.t) : Available.t :=
  Available.mk (PositionDoc.name d)
    (negb (eqb_oid (PositionDoc.task_id d) (Some task_id))).

(** The test of the loop of [get_available_sample_position]. *)
Definition available_for (task_id : ObjectId) (self : SampleView)
  (d : PositionDoc.t) : bool :=
  match get_sample_position_status (PositionDoc.name d) self with
  | Ok (status, current_task_id) =>
      status_eqb status EMPTY || eqb_oid (Some task_id) current_task_id
  | Raise _ => false
  end.

(** A document after the named positions have been locked for a task. *)
Definition mark (task_id : ObjectId) (names : list string) (d : PositionDoc.t)
  : PositionDoc.t :=
  if existsb (String.eqb (PositionDoc.name d)) names
  then PositionDoc.set_task_id (Some task_id) d
  else d.

(** A grant entry with a given [need_release] flag. *)
Definition flagged (need_release : bool) (d : PositionDoc.t) : Available.t :=
  Available.mk (PositionDoc.name d) need_release.

(** The stored positions whose name starts with [prefix], in order. *)
Definition matching (prefix : string) (self : SampleView)
  : list PositionDoc.t :=
  find (name_matches prefix) (_sample_positions_collection self).

(** Every position carrying the prefix is EMPTY: no owner, no sample. *)
Definition all_empty (prefix : string) (self : SampleView) : Prop :=
  forall d, In d (_sample_positions_collection self) ->
    name_matches prefix d = true ->
    PositionDoc.task_id d = None
    /\ forall s, In s (_sample_collection self) ->
                 SampleDoc.position s <> Some (PositionDoc.name d).

(** Every position carrying the prefix holds no sample and has no owner
    other than the task. *)
Definition free_for (task_id : ObjectId) (prefix : string) (self : SampleView)
  : Prop :=
  forall d, In d (_sample_positions_collection self) ->
    name_matches prefix d = true ->
    (PositionDoc.task_id d = None \/ PositionDoc.task_id d = Some task_id)
    /\ forall s, In s (_sample_collection self) ->
                 SampleDoc.position s <> Some (PositionDoc.name d).

(** No position is referenced by two samples. *)
Definition one_sample_per_position (self : SampleView) : Prop :=
  forall p, count_documents (sample_at p) (_sample_collection self) <= 1.

(** The document [create_sample] inserts. *)
Definition new_sample (i : ObjectId) (name : string)
  (position : option string) (tags : option (list string))
  (metadata : option (list (string * string))) (now : datetime)
  : SampleDoc.t :=
  SampleDoc.mk i name (or_default tags []) (or_default metadata [])
    position None now now.

(** A value as [toml.load] gives it: scalars, lists and dicts only. *)
Fixpoint plain (v : config_value) : bool :=
  match v with
  | Scalar _ => true
  | PyList elements => forallb plain elements
  | PyDict items => forallb (fun kv => let '(_, x) := kv in plain x) items
  | PyTuple _ | FrozenDict _ => false
  end.

(** A value with no list and no dict at any depth. *)
Fixpoint deeply_frozen (v : config_value) : bool :=
  match v with
  | Scalar _ => true
  | PyList _ | PyDict _ => false
  | PyTuple elements => forallb deeply_frozen elements
  | FrozenDict items =>
      forallb (fun kv => let '(_, x) := kv in deeply_frozen x) items
  end.

Unset Implicit Arguments.

(** Induction on a configuration value and all the values inside it. *)
Fixpoint config_value_induction (P : config_value -> Prop)
  (HScalar : forall s, P (Scalar s))
  (HList : forall l, Forall P l -> P (PyList l))
  (HDict : forall d, Forall (fun kv => P (snd kv)) d -> P (PyDict d))
  (HTuple : forall l, Forall P l -> P (PyTuple l))
  (HFrozen : forall d, Forall (fun kv => P (snd kv)) d -> P (FrozenDict d))
  (v : config_value) : P v :=
  let rec := config_value_induction P HScalar HList HDict HTuple HFrozen in
  let all :=
    fix all (l : list config_value) : Forall P l :=
      match l with
      | [] => @Forall_nil _ P
      | x :: r => @Forall_cons _ P x r (rec x) (all r)
      end in
  let all_items :=
    fix all_items (d : list (string * config_value))
      : Forall (fun kv => P (snd kv)) d :=
      match d with
      | [] => @Forall_nil _ (fun kv => P (snd kv))
      | (k, x) :: r =>
          @Forall_cons _ (fun kv => P (snd kv)) (k, x) r (rec x) (all_items r)
      end in
  match v with
  | Scalar s => HScalar s
  | PyList l => HList l (all l)
  | PyDict d => HDict d (all_items d)
  | PyTuple l => HTuple l (all l)
  | FrozenDict d => HFrozen d (all_items d)
  end.

(** ** Example ledgers *)

Module Ex.
Definition pos (n : string) (o : option ObjectId) : PositionDoc.t :=
  PositionDoc.mk n "" o 0%Z None.

Definition smp (i : ObjectId) (p : option string) (t : option ObjectId)
  : SampleDoc.t :=
  SampleDoc.mk i "sample" [] [] p t 0%Z 0%Z.

(** One free position. *)
Definition one_free : SampleView := mkSampleView [] [pos "A1" None] [].

(** One position, held by task 2. *)
Definition held_by_2 : SampleView := mkSampleView [] [pos "A1" (Some 2%N)] [].

(** A sample of task 1 sitting on a position nobody owns. *)
Definition own_sample_on_P1 : SampleView :=
  mkSampleView [smp 7%N (Some "P1") (Some 1%N)] [pos "P1" None] [].

(** Four free trays of an oven. *)
Definition oven : SampleView :=
  mkSampleView []
    [pos "oven/tray/1" None; pos "oven/tray/2" None;
     pos "oven/tray/3" None; pos "oven/tray/4" None] [].

Definition empty_view : SampleView := mkSampleView [] [] [].

Definition lab_one_free : Lab := mkLab one_free [] [].
End Ex.

(** * Properties *)

Unset Implicit Arguments.

(** ** Equality tests *)

Lemma eqb_oid_spec a b : reflect (a = b) (eqb_oid a b).
Proof.
  destruct a as [x|], b as [y|]; simpl; try (constructor; congruence).
  destruct (N.eqb_spec x y); constructor; congruence.
Qed.

Lemma eqb_oid_refl a : eqb_oid a a = true.
Proof. destruct (eqb_oid_spec a a); congruence. Qed.

Lemma eqb_oid_true a b : eqb_oid a b = true <-> a = b.
Proof. destruct (eqb_oid_spec a b); split; congruence. Qed.

Lemma eqb_oid_false a b : eqb_oid a b = false <-> a <> b.
Proof. destruct (eqb_oid_spec a b); split; congruence. Qed.

Lemma eqb_ostr_spec a b : reflect (a = b) (eqb_ostr a b).
Proof.
  destruct a as [x|], b as [y|]; simpl; try (constructor; congruence).
  destruct (String.eqb_spec x y); constructor; congruence.
Qed.

Lemma name_is_true position d :
  name_is position d = true <-> PositionDoc.name d = position.
Proof. unfold name_is. apply String.eqb_eq. Qed.

Lemma sample_at_true position s :
  sample_at position s = true <-> SampleDoc.position s = Some position.
Proof. unfold sample_at. destruct (eqb_ostr_spec (SampleDoc.position s) (Some position)); split; congruence. Qed.

Lemma id_is_true i s : id_is i s = true <-> SampleDoc._id s = i.
Proof. unfold id_is. apply N.eqb_eq. Qed.

(** ** Looking documents up *)

Lemma find_one_none_iff {D} (q : D -> bool) c :
  find_one q c = None <-> forall d, In d c -> q d = false.
Proof.
  unfold find_one. split.
  - intros H d Hd. exact (find_none q c H d Hd).
  - induction c as [|x c IH]; simpl; intros H; [reflexivity|].
    rewrite (H x (or_introl eq_refl)). apply IH. intros d Hd. apply H. now right.
Qed.

Lemma find_one_some {D} (q : D -> bool) c d :
  find_one q c = Some d -> In d c /\ q d = true.
Proof. apply find_some. Qed.

Lemma find_one_exists {D} (q : D -> bool) c d :
  In d c -> q d = true -> exists d', find_one q c = Some d'.
Proof.
  intros Hin Hq. destruct (find_one q c) as [d'|] eqn:E; [eauto|].
  rewrite find_one_none_iff in E. rewrite (E d Hin) in Hq. discriminate.
Qed.

Lemma get_sample_position_some position self d :
  get_sample_position position self = Some d ->
  In d (_sample_positions_collection self) /\ PositionDoc.name d = position.
Proof.
  unfold get_sample_position. intros H. apply find_one_some in H.
  now rewrite name_is_true in H.
Qed.

Lemma get_sample_position_known position self d0 :
  In d0 (_sample_positions_collection self) -> PositionDoc.name d0 = position ->
  exists d, get_sample_position position self = Some d.
Proof.
  intros Hin Hn. apply (find_one_exists (name_is position) _ d0 Hin).
  now apply name_is_true.
Qed.

(** ** The occupancy resolver *)

(** C3. For a position name no stored position carries,
    [get_sample_position_status] raises "Invalid sample position".  For a
    known name it answers OCCUPIED with the task id of a sample that
    references the position as soon as one does, whatever the owner field
    of the position; with no such sample it answers LOCKED with the owner
    when the owner field is set, and EMPTY with no task id otherwise. *)
Theorem status_occupied_then_locked_then_empty
  (self : SampleView) (position : string) :
  ((forall d, In d (_sample_positions_collection self) ->
              PositionDoc.name d <> position) ->
   get_sample_position_status position self
   = Raise (ValueError (Invalid_sample_position position)))
  /\
  ((exists d, In d (_sample_positions_collection self)
              /\ PositionDoc.name d = position) ->
   exists d,
     get_sample_position position self = Some d
     /\ PositionDoc.name d = position
     /\ ((exists s, In s (_sample_collection self)
                    /\ SampleDoc.position s = Some position) ->
         exists s, In s (_sample_collection self)
                   /\ SampleDoc.position s = Some position
                   /\ get_sample_position_status position self
                      = Ok (OCCUPIED, SampleDoc.task_id s))
     /\ ((forall s, In s (_sample_collection self) ->
                    SampleDoc.position s <> Some position) ->
         get_sample_position_status position self
         = Ok (match PositionDoc.task_id d with
               | Some t => (LOCKED, Some t)
               | None => (EMPTY, None)
               end))).
Proof.
  split.
  - intros Hunknown. unfold get_sample_position_status, get_sample_position.
    replace (find_one (name_is position) (_sample_positions_collection self))
      with (@None PositionDoc.t); [reflexivity|].
    symmetry. apply find_one_none_iff. intros d Hd.
    destruct (name_is position d) eqn:E; [|reflexivity].
    apply name_is_true in E. now apply Hunknown in Hd.
  - intros [d0 [Hin Hname]].
    destruct (get_sample_position_known position self d0 Hin Hname) as [d Hd].
    exists d. split; [exact Hd|].
    split; [apply (get_sample_position_some _ _ _ Hd)|].
    unfold get_sample_position_status. rewrite Hd. split.
    + intros [s0 [Hs0 Hp0]].
      destruct (find_one_exists (sample_at position) _ s0 Hs0) as [s Hs].
      { now apply sample_at_true. }
      exists s. rewrite Hs. apply find_one_some in Hs.
      rewrite sample_at_true in Hs. intuition.
    + intros Hnone.
      replace (find_one (sample_at position) (_sample_collection self))
        with (@None SampleDoc.t).
      * now destruct (PositionDoc.task_id d).
      * symmetry. apply find_one_none_iff. intros s Hs.
        destruct (sample_at position s) eqn:E; [|reflexivity].
        apply sample_at_true in E. now apply Hnone in Hs.
Qed.

Lemma status_occupied_then_locked_then_empty_witness :
  get_sample_position_status "A1" Ex.held_by_2 = Ok (LOCKED, Some 2%N).
Proof.
  destruct (proj2 (status_occupied_then_locked_then_empty Ex.held_by_2 "A1"))
    as [d [Hd [_ [_ Hfree]]]].
  - exists (Ex.pos "A1" (Some 2%N)). split; [now left|reflexivity].
  - rewrite Hfree by (intros s []).
    injection Hd as <-. reflexivity.
Defined.

(** ** Writing one document *)

Lemma update_one_unchanged {D} (q : D -> bool) (upd : D -> D) c :
  (forall d, In d c -> q d = true -> upd d = d) -> update_one q upd c = c.
Proof.
  induction c as [|x c IH]; simpl; intros H; [reflexivity|].
  destruct (q x) eqn:E.
  - now rewrite (H x (or_introl eq_refl) E).
  - f_equal. apply IH. intros d Hd. apply H. now right.
Qed.

Lemma update_one_first {D} (q : D -> bool) (upd : D -> D) c d :
  find_one q c = Some d -> upd d = d -> update_one q upd c = c.
Proof.
  unfold find_one. induction c as [|x c IH]; simpl; [discriminate|].
  destruct (q x) eqn:E; intros H Hu.
  - injection H as ->. now rewrite Hu.
  - f_equal. now apply IH.
Qed.

Lemma find_one_update_one {D} (q : D -> bool) (upd : D -> D) c d :
  (forall x, q x = true -> q (upd x) = true) ->
  find_one q c = Some d -> find_one q (update_one q upd c) = Some (upd d).
Proof.
  intros Hq. unfold find_one.
  induction c as [|x c IH]; simpl; [discriminate|].
  destruct (q x) eqn:E; intros H; simpl.
  - injection H as ->. now rewrite (Hq _ E).
  - rewrite E. now apply IH.
Qed.

Lemma set_task_id_same v d :
  PositionDoc.task_id d = v -> PositionDoc.set_task_id v d = d.
Proof. destruct d; simpl; intros ->; reflexivity. Qed.

Lemma set_positions_same self :
  set_positions (_sample_positions_collection self) self = self.
Proof. now destruct self. Qed.

Lemma stored_owner_locked_for task_id position self d :
  get_sample_position position self = Some d ->
  stored_owner position (locked_for task_id position self)
  = Some (Some task_id).
Proof.
  intros Hd. unfold stored_owner, get_sample_position, locked_for. simpl.
  rewrite (find_one_update_one _ _ _ d); [reflexivity| |exact Hd].
  intros x Hx. exact Hx.
Qed.

Lemma status_known position self r :
  get_sample_position_status position self = Ok r ->
  exists d, get_sample_position position self = Some d.
Proof.
  unfold get_sample_position_status.
  destruct (get_sample_position position self) as [d|]; [eauto|discriminate].
Qed.

Lemma lock_sample_position_run task_id position self :
  lock_sample_position task_id position self
  = match get_sample_position_status position self with
    | Raise e => (Raise e, self)
    | Ok (OCCUPIED, c) =>
        if eqb_oid c (Some task_id)
        then (Ok tt, locked_for task_id position self)
        else (Raise (ValueError (Position_currently_occupied position)), self)
    | Ok (LOCKED, c) =>
        if eqb_oid c (Some task_id)
        then (Ok tt, locked_for task_id position self)
        else (Raise (ValueError (Position_currently_locked c)), self)
    | Ok (EMPTY, c) => (Ok tt, locked_for task_id position self)
    end.
Proof.
  unfold lock_sample_position, bind, query, modify, ret, raise.
  destruct (get_sample_position_status position self) as [[st c]|e];
    [|reflexivity].
  destruct (eqb_oid c (Some task_id)), st; reflexivity.
Qed.

(** C5, as the code has it.  [lock_sample_position] raises "Invalid sample
    position" for an unknown name; it raises "currently occupied" when the
    position is OCCUPIED by a sample whose task is not the caller's, and
    "currently locked" when it is LOCKED by another task; in every other
    case (EMPTY, LOCKED by the caller, or OCCUPIED by a sample of the
    caller's task) it writes the caller's task id into the owner field.
    When the stored owner already is the caller's task and the call does
    not raise, the ledger is left as it was. *)
Theorem lock_sample_position_cases
  (task_id : ObjectId) (position : string) (self : SampleView) :
  (forall c, get_sample_position_status position self = Ok (OCCUPIED, c) ->
             c <> Some task_id ->
             lock_sample_position task_id position self
             = (Raise (ValueError (Position_currently_occupied position)),
                self))
  /\ (forall c, get_sample_position_status position self = Ok (LOCKED, c) ->
                c <> Some task_id ->
                lock_sample_position task_id position self
                = (Raise (ValueError (Position_currently_locked c)), self))
  /\ (forall st c, get_sample_position_status position self = Ok (st, c) ->
                   st = EMPTY \/ c = Some task_id ->
                   lock_sample_position task_id position self
                   = (Ok tt, locked_for task_id position self)
                   /\ stored_owner position (locked_for task_id position self)
                      = Some (Some task_id))
  /\ (forall d, get_sample_position position self = Some d ->
                PositionDoc.task_id d = Some task_id ->
                locked_for task_id position self = self)
  /\ (forall e, get_sample_position_status position self = Raise e ->
                lock_sample_position task_id position self = (Raise e, self)).
Proof.
  rewrite lock_sample_position_run.
  split; [|split; [|split; [|split]]].
  - intros c -> Hc. apply eqb_oid_false in Hc. now rewrite Hc.
  - intros c -> Hc. apply eqb_oid_false in Hc. now rewrite Hc.
  - intros st c Hst Hav. split.
    + rewrite Hst. destruct Hav as [-> | ->]; [reflexivity|].
      rewrite eqb_oid_refl. now destruct st.
    + destruct (status_known _ _ _ Hst) as [d Hd].
      exact (stored_owner_locked_for _ _ _ _ Hd).
  - intros d Hd Ht. unfold locked_for.
    rewrite (update_one_first _ _ _ d Hd (set_task_id_same _ _ Ht)).
    apply set_positions_same.
  - intros e ->. reflexivity.
Qed.

Lemma lock_sample_position_cases_witness :
  lock_sample_position 1%N "A1" Ex.held_by_2
  = (Raise (ValueError (Position_currently_locked (Some 2%N))), Ex.held_by_2).
Proof.
  apply (proj1 (proj2 (lock_sample_position_cases 1%N "A1" Ex.held_by_2))).
  - reflexivity.
  - discriminate.
Defined.

(** C5 as stated fails: a position OCCUPIED by a sample of the caller's own
    task is locked without any error. *)
Lemma lock_occupied_by_own_sample :
  get_sample_position_status "P1" Ex.own_sample_on_P1
  = Ok (OCCUPIED, Some 1%N)
  /\ fst (lock_sample_position 1%N "P1" Ex.own_sample_on_P1) = Ok tt
  /\ stored_owner "P1" (snd (lock_sample_position 1%N "P1" Ex.own_sample_on_P1))
     = Some (Some 1%N).
Proof. repeat split. Qed.

(** ** Scoped acquisition *)

Lemma with_contextmanager_normal {S Y} (gen : M S (suspended S Y)) body s g s1 s2 :
  gen s = (Ok g, s1) -> body (yielded g) s1 = (Ok tt, s2) ->
  with_contextmanager gen body s = on_next g s2.
Proof.
  intros Hg Hb. unfold with_contextmanager, bind. now rewrite Hg, Hb.
Qed.

Lemma with_contextmanager_raises {S Y} (gen : M S (suspended S Y)) body s g s1 e s2 :
  gen s = (Ok g, s1) -> body (yielded g) s1 = (Raise e, s2) ->
  with_contextmanager gen body s = on_throw g e s2.
Proof.
  intros Hg Hb. unfold with_contextmanager, bind. now rewrite Hg, Hb.
Qed.

Section ScopeExit.
Variables W ResourceRequest DeviceType DeviceWrapper SamplePositions : Type.
Variable update_status : ObjectId -> TaskStatus -> M W unit.
Variable requester_request_resources :
  ObjectId -> ResourceRequest -> option Z -> option Z ->
  M W (LabView.request_result DeviceType SamplePositions).
Variable requester_release_resources : ObjectId -> M W unit.
Variable create_device_wrapper : string -> M W DeviceWrapper.

Let gen self resource_request priority timeout :=
  LabView.request_resources update_status requester_request_resources
    requester_release_resources create_device_wrapper
    self resource_request priority timeout.

(** Whatever the collaborators do, the generator suspended at its [yield]
    releases on [next] and does nothing but re-raise on [throw]. *)
Lemma request_resources_suspended self resource_request priority timeout s g s1 :
  gen self resource_request priority timeout s = (Ok g, s1) ->
  (exists request_id, on_next g = requester_release_resources request_id)
  /\ forall e s', on_throw g e s' = (Raise e, s').
Proof.
  unfold gen, LabView.request_resources, bind, ret.
  destruct (update_status _ _ s) as [[[]|e0] s0]; [|discriminate].
  destruct (requester_request_resources _ _ _ _ s0) as [[result|e0] s0'];
    [|discriminate].
  destruct (map_M _ _ s0') as [[ds|e0] s0'']; [|discriminate].
  destruct (update_status _ _ s0'') as [[[]|e0] s0''']; [|discriminate].
  intros H. injection H as <- <-. simpl. split; [eauto|reflexivity].
Qed.

(** When the body raises, the [with] statement ends in the state the body
    left: nothing of the generator runs any more, no release is issued. *)
Lemma scope_exit_on_exception self resource_request priority timeout
  body s g s1 e s2 :
  gen self resource_request priority timeout s = (Ok g, s1) ->
  body (yielded g) s1 = (Raise e, s2) ->
  with_contextmanager (gen self resource_request priority timeout) body s
  = (Raise e, s2).
Proof.
  intros Hg Hb. rewrite (with_contextmanager_raises _ _ _ _ _ _ _ Hg Hb).
  apply (request_resources_suspended _ _ _ _ _ _ _ Hg).
Qed.

(** When the body ends normally, the release is what runs next. *)
Lemma scope_exit_on_completion self resource_request priority timeout
  body s g s1 s2 :
  gen self resource_request priority timeout s = (Ok g, s1) ->
  body (yielded g) s1 = (Ok tt, s2) ->
  exists request_id,
    with_contextmanager (gen self resource_request priority timeout) body s
    = requester_release_resources request_id s2.
Proof.
  intros Hg Hb. rewrite (with_contextmanager_normal _ _ _ _ _ _ Hg Hb).
  destruct (request_resources_suspended _ _ _ _ _ _ _ Hg) as [[r Hr] _].
  exists r. now rewrite Hr.
Qed.
End ScopeExit.

(** C1 at its failing input.  Task 1 acquires the free position "A1"
    through [with lab_view.request_resources(...)] and its body raises: the
    exception leaves the [with] statement and "A1" is still owned by task
    1, no release having been issued.  With a body that ends normally the
    same call leaves "A1" without owner. *)
Theorem request_resources_leaks_on_exception :
  let scope body :=
    with_request_resources (LabView.mk 1%N) [SamplePositionRequest.Str "A"]
      body Ex.lab_one_free in
  fst (scope (fun _ => raise (BodyError 0))) = Raise (BodyError 0)
  /\ stored_owner "A1"
       (lab_sample_view (snd (scope (fun _ => raise (BodyError 0)))))
     = Some (Some 1%N)
  /\ fst (scope (fun _ => ret tt)) = Ok tt
  /\ stored_owner "A1" (lab_sample_view (snd (scope (fun _ => ret tt))))
     = Some None.
Proof. repeat split. Qed.

(** ** Creating samples *)

Lemma generate_id_above c s :
  In s c -> (SampleDoc._id s < generate_id c)%N.
Proof.
  unfold generate_id. induction c as [|x c IH]; simpl; [tauto|].
  intros [->|Hin]; [lia|]. specialize (IH Hin). lia.
Qed.

Lemma generate_id_fresh c : existsb (id_is (generate_id c)) c = false.
Proof.
  destruct (existsb (id_is (generate_id c)) c) eqn:E; [|reflexivity].
  apply existsb_exists in E. destruct E as [s [Hin Hs]].
  apply id_is_true in Hs. pose proof (generate_id_above c s Hin). lia.
Qed.

Lemma find_one_app_last {D} (q : D -> bool) c d :
  (forall x, In x c -> q x = false) -> q d = true ->
  find_one q (c ++ [d]) = Some d.
Proof.
  unfold find_one. induction c as [|x c IH]; simpl; intros Hc Hd.
  - now rewrite Hd.
  - rewrite (Hc x (or_introl eq_refl)). apply IH; [|exact Hd].
    intros y Hy. apply Hc. now right.
Qed.

Lemma is_unoccupied_when_no_sample p self d :
  get_sample_position p self = Some d ->
  (forall s, In s (_sample_collection self) -> SampleDoc.position s <> Some p) ->
  is_unoccupied_position p self = Ok true.
Proof.
  intros Hd Hnone. unfold is_unoccupied_position, get_sample_position_status.
  rewrite Hd.
  replace (find_one (sample_at p) (_sample_collection self))
    with (@None SampleDoc.t).
  - now destruct (PositionDoc.task_id d).
  - symmetry. apply find_one_none_iff. intros s Hs.
    destruct (sample_at p s) eqn:E; [|reflexivity].
    apply sample_at_true in E. now apply Hnone in Hs.
Qed.

(** C10. For an existing position [p] that no sample references,
    [create_sample name (position = p)] succeeds whatever the owner field of
    [p] holds (unset, the caller's task or any other task), provided the
    name has no reserved character and a caller-supplied id is not already
    used.  The sample is appended with position [p] and owning task id
    none, and the ledger of positions is untouched. *)
Theorem create_sample_ignores_position_owner
  (name p : string) (sample_id : option ObjectId) (tags : option (list string))
  (metadata : option (list (string * string))) (now : datetime)
  (self : SampleView) (d : PositionDoc.t) :
  get_sample_position p self = Some d ->
  (forall s, In s (_sample_collection self) -> SampleDoc.position s <> Some p) ->
  has_reserved_char name = false ->
  (forall i s, sample_id = Some i -> In s (_sample_collection self) ->
               SampleDoc._id s <> i) ->
  exists i self',
    create_sample name (Some p) sample_id tags metadata now self = (Ok i, self')
    /\ (forall j, sample_id = Some j -> i = j)
    /\ _sample_positions_collection self' = _sample_positions_collection self
    /\ _sample_collection self'
       = (_sample_collection self
          ++ [SampleDoc.mk i name (or_default tags []) (or_default metadata [])
                (Some p) None now now])%list
    /\ exists sample,
         get_sample i self' = Ok sample
         /\ Sample.task_id sample = None
         /\ Sample.position sample = Some p.
Proof.
  intros Hd Hnone Hname Hid.
  set (i := match sample_id with Some j => j | None => generate_id (_sample_collection self) end).
  assert (Hfresh : existsb (id_is i) (_sample_collection self) = false).
  { subst i. destruct sample_id as [j|]; [|apply generate_id_fresh].
    destruct (existsb (id_is j) (_sample_collection self)) eqn:E; [|reflexivity].
    apply existsb_exists in E. destruct E as [s [Hin Hs]].
    apply id_is_true in Hs. now elim (Hid j s eq_refl Hin). }
  exists i.
  unfold create_sample, bind, query, ret, raise, insert_sample.
  rewrite (is_unoccupied_when_no_sample p self d Hd Hnone). simpl.
  rewrite Hname. fold i. rewrite Hfresh.
  eexists. split; [reflexivity|]. simpl.
  split; [intros j ->; reflexivity|].
  split; [reflexivity|]. split; [reflexivity|].
  unfold get_sample. simpl. rewrite find_one_app_last.
  - eexists. split; [reflexivity|]. simpl. split; reflexivity.
  - intros x Hx. destruct (id_is i x) eqn:E; [|reflexivity].
    assert (existsb (id_is i) (_sample_collection self) = true) as Hc.
    { apply existsb_exists. eauto. }
    congruence.
  - apply id_is_true. reflexivity.
Qed.

Lemma create_sample_ignores_position_owner_witness :
  exists i self',
    create_sample "pellet" (Some "A1") None None None 5%Z Ex.held_by_2
    = (Ok i, self')
    /\ stored_owner "A1" self' = Some (Some 2%N)
    /\ exists sample, get_sample i self' = Ok sample
                      /\ Sample.task_id sample = None.
Proof.
  destruct (create_sample_ignores_position_owner "pellet" "A1" None None None
              5%Z Ex.held_by_2 (Ex.pos "A1" (Some 2%N)))
    as [i [self' [Hrun [_ [Hpos [_ [sample [Hget [Htask _]]]]]]]]].
  - reflexivity.
  - intros s [].
  - reflexivity.
  - discriminate.
  - exists i, self'. split; [exact Hrun|]. split.
    + unfold stored_owner, get_sample_position. rewrite Hpos. reflexivity.
    + exists sample. split; assumption.
Defined.

Lemma status_raises_only_invalid position self e :
  get_sample_position_status position self = Raise e ->
  e = ValueError (Invalid_sample_position position).
Proof.
  unfold get_sample_position_status.
  destruct (get_sample_position position self); [|congruence].
  destruct (find_one _ _); [discriminate|].
  destruct (PositionDoc.task_id _); discriminate.
Qed.

Lemma create_sample_reserved_name_run name position sample_id tags metadata
  now self :
  has_reserved_char name = true ->
  create_sample name position sample_id tags metadata now self
  = match position with
    | None => (Raise (ValueError (Unsupported_sample_name name)), self)
    | Some p =>
        match is_unoccupied_position p self with
        | Ok true => (Raise (ValueError (Unsupported_sample_name name)), self)
        | Ok false => (Raise (ValueError (Requested_position_not_EMPTY p)), self)
        | Raise e => (Raise e, self)
        end
    end.
Proof.
  intros Hname. unfold create_sample, bind, query, ret, raise.
  destruct position as [p|]; simpl; [|now rewrite Hname].
  destruct (is_unoccupied_position p self) as [[|]|e]; simpl;
    rewrite ?Hname; reflexivity.
Qed.

(** [create_sample] with a reserved character in the name raises a
    [ValueError] before it writes anything; the error is the one about the
    name unless the position check fails first. *)
Lemma create_sample_rejects_reserved_name name position sample_id tags
  metadata now self :
  has_reserved_char name = true ->
  (exists m, fst (create_sample name position sample_id tags metadata now self)
             = Raise (ValueError m))
  /\ snd (create_sample name position sample_id tags metadata now self) = self
  /\ (position = None \/
      (exists p, position = Some p /\ is_unoccupied_position p self = Ok true) ->
      fst (create_sample name position sample_id tags metadata now self)
      = Raise (ValueError (Unsupported_sample_name name))).
Proof.
  intros Hname. rewrite (create_sample_reserved_name_run _ _ _ _ _ _ _ Hname).
  destruct position as [p|].
  - destruct (is_unoccupied_position p self) as [[|]|e] eqn:E; simpl.
    + split; [eauto|]. split; [reflexivity|]. reflexivity.
    + split; [eauto|]. split; [reflexivity|].
      intros [H|[p' [H1 H2]]]; [discriminate|]. injection H1 as <-. congruence.
    + split.
      * unfold is_unoccupied_position in E.
        destruct (get_sample_position_status p self) as [[st c]|e'] eqn:Est;
          [discriminate|].
        injection E as <-. apply status_raises_only_invalid in Est.
        subst e'. simpl. eauto.
      * split; [reflexivity|].
        intros [H|[p' [H1 H2]]]; [discriminate|]. injection H1 as <-. congruence.
  - simpl. split; [eauto|]. split; [reflexivity|]. reflexivity.
Qed.

(** ** Creating positions *)

Lemma for_each_app {S A} (l1 l2 : list A) (body : A -> M S unit) s :
  for_each (l1 ++ l2) body s
  = match for_each l1 body s with
    | (Ok _, s') => for_each l2 body s'
    | (Raise e, s') => (Raise e, s')
    end.
Proof.
  revert s. induction l1 as [|x l1 IH]; intros s; simpl; [reflexivity|].
  unfold bind. destruct (body x s) as [[[]|e] s']; [apply IH|reflexivity].
Qed.

Lemma for_each_map {S A B} (g : A -> B) (l : list A) (body : B -> M S unit) s :
  for_each (List.map g l) body s = for_each l (fun x => body (g x)) s.
Proof.
  revert s. induction l as [|x l IH]; intros s; simpl; [reflexivity|].
  unfold bind. destruct (body (g x) s) as [[[]|e] s']; [apply IH|reflexivity].
Qed.

Section AddSamplePositionsFacts.
Variable SEPARATOR : string.
Variable parent_device_name : option string.
Variable now : datetime.

Let name_of (it : SamplePosition.t * nat) : string :=
  position_name SEPARATOR (fst it) parent_device_name (snd it).

Let step (it : SamplePosition.t * nat) : M SampleView unit :=
  add_one_position SEPARATOR (fst it) parent_device_name now (snd it).

(** The nested loops run the iterations one after the other. *)
Lemma add_sample_positions_to_db_flat sample_positions self :
  add_sample_positions_to_db SEPARATOR sample_positions parent_device_name
    now self
  = for_each (iterations sample_positions) step self.
Proof.
  unfold add_sample_positions_to_db, iterations.
  revert self. induction sample_positions as [|sp sps IH]; intros self;
    simpl; [reflexivity|].
  rewrite for_each_app, for_each_map. unfold bind, step. simpl.
  destruct (for_each (seq 0 (SamplePosition.number sp)) _ self)
    as [[[]|e] self']; [apply IH|reflexivity].
Qed.

Lemma step_reserved it self :
  has_reserved_char (name_of it) = true ->
  step it self
  = (Raise (ValueError (Unsupported_sample_position_name (name_of it))), self).
Proof.
  intros H. unfold step, add_one_position. fold (name_of it). now rewrite H.
Qed.

Lemma step_clean it self :
  has_reserved_char (name_of it) = false ->
  exists added,
    step it self
    = (Ok tt, set_positions (_sample_positions_collection self ++ added) self)
    /\ forall d, In d added -> PositionDoc.name d = name_of it.
Proof.
  intros H. unfold step, add_one_position. fold (name_of it). rewrite H.
  unfold bind, query, modify, ret.
  destruct (get_sample_position (name_of it) self).
  - exists []. rewrite app_nil_r, set_positions_same. split; [reflexivity|].
    intros d [].
  - eexists [_]. split; [reflexivity|]. intros d [<-|[]]. reflexivity.
Qed.

(** What a run of the loop leaves behind: the samples are untouched, the
    positions only grow, by documents with clean generated names; the run
    succeeds when every name is clean and stops at the first name that is
    not, having written the documents of the names before it. *)
Lemma add_iterations_spec its self :
  let r := for_each its step self in
  _sample_collection (snd r) = _sample_collection self
  /\ _lock (snd r) = _lock self
  /\ (exists added,
        _sample_positions_collection (snd r)
        = (_sample_positions_collection self ++ added)%list
        /\ forall d, In d added ->
             has_reserved_char (PositionDoc.name d) = false
             /\ In (PositionDoc.name d) (List.map name_of its))
  /\ ((forall it, In it its -> has_reserved_char (name_of it) = false) ->
      fst r = Ok tt)
  /\ (forall before it after,
        its = (before ++ it :: after)%list ->
        (forall x, In x before -> has_reserved_char (name_of x) = false) ->
        has_reserved_char (name_of it) = true ->
        fst r = Raise (ValueError (Unsupported_sample_position_name (name_of it)))
        /\ snd r = snd (for_each before step self)).
Proof.
  revert self. induction its as [|x its IH]; intros self; simpl.
  - repeat split; try reflexivity.
    + exists []. rewrite app_nil_r. split; [reflexivity|]. intros d [].
    + destruct before; discriminate.
    + destruct before; discriminate.
  - unfold bind. destruct (has_reserved_char (name_of x)) eqn:Hx.
    + rewrite (step_reserved x self Hx). simpl.
      split; [reflexivity|]. split; [reflexivity|]. split.
      { exists []. rewrite app_nil_r. split; [reflexivity|]. intros d []. }
      split.
      { intros H. rewrite (H x (or_introl eq_refl)) in Hx. discriminate. }
      intros before it after Hsplit Hbefore Hit.
      destruct before as [|b before]; simpl in Hsplit.
      * injection Hsplit as <- _. split; reflexivity.
      * injection Hsplit as <- _.
        rewrite (Hbefore x (or_introl eq_refl)) in Hx. discriminate.
    + destruct (step_clean x self Hx) as [added [Hstep Hadded]].
      rewrite Hstep.
      set (self1 := set_positions (_sample_positions_collection self ++ added) self).
      destruct (IH self1) as [Hs [Hl [[added' [Hp Hnames]] [Hok Hbad]]]].
      split; [exact Hs|]. split; [exact Hl|]. split.
      { exists (added ++ added')%list. rewrite Hp. simpl.
        rewrite app_assoc. split; [reflexivity|].
        intros d Hd. apply in_app_or in Hd. destruct Hd as [Hd|Hd].
        - rewrite (Hadded d Hd). split; [exact Hx|]. now left.
        - destruct (Hnames d Hd) as [Hc Hin]. split; [exact Hc|]. now right. }
      split.
      { intros H. apply Hok. intros it Hit. apply H. now right. }
      intros before it after Hsplit Hbefore Hit.
      destruct before as [|b before]; simpl in Hsplit.
      * injection Hsplit as <- _. congruence.
      * injection Hsplit as <- Hrest. simpl. unfold bind. rewrite Hstep.
        apply (Hbad before it after Hrest); [|exact Hit].
        intros y Hy. apply Hbefore. now right.
Qed.
End AddSamplePositionsFacts.

(** ** Reservation: the checks before the lock *)

Lemma nodup_length_le (l : list string) :
  List.length (nodup string_dec l) <= List.length l.
Proof.
  induction l as [|a l IH]; simpl; [lia|].
  destruct (in_dec string_dec a l); simpl; lia.
Qed.

Lemma distinct_count_NoDup (l : list string) :
  (List.length l =? List.length (nodup string_dec l))%nat = true <-> NoDup l.
Proof.
  rewrite Nat.eqb_eq. split.
  - induction l as [|a l IH]; simpl; intros H; [constructor|].
    destruct (in_dec string_dec a l) as [Hin|Hnin].
    + pose proof (nodup_length_le l). lia.
    + simpl in H. constructor; [exact Hnin|]. apply IH. lia.
  - intros H. now rewrite (nodup_fixed_point string_dec H).
Qed.

Lemma check_enough_positions_pass req self :
  (forall x, In x req ->
     SamplePositionRequest.number x
     <= population (SamplePositionRequest.prefix x) self) ->
  check_enough_positions req self = (Ok tt, self).
Proof.
  induction req as [|x req IH]; simpl; intros H; [reflexivity|].
  unfold bind, query. fold (population (SamplePositionRequest.prefix x) self).
  pose proof (H x (or_introl eq_refl)) as Hx.
  apply Nat.ltb_ge in Hx. rewrite Hx. apply IH. intros y Hy. apply H. now right.
Qed.

Lemma check_enough_positions_fail req self :
  (exists x, In x req /\
     population (SamplePositionRequest.prefix x) self
     < SamplePositionRequest.number x) ->
  exists x,
    In x req
    /\ population (SamplePositionRequest.prefix x) self
       < SamplePositionRequest.number x
    /\ check_enough_positions req self
       = (Raise (ValueError
                   (Not_enough_matches (SamplePositionRequest.prefix x)
                      (population (SamplePositionRequest.prefix x) self)
                      (SamplePositionRequest.number x))), self).
Proof.
  induction req as [|y req IH]; intros [x [Hin Hx]]; [destruct Hin|].
  simpl. unfold bind, query.
  fold (population (SamplePositionRequest.prefix y) self).
  destruct (population (SamplePositionRequest.prefix y) self
            <? SamplePositionRequest.number y)%nat eqn:E.
  - apply Nat.ltb_lt in E. exists y. split; [now left|]. split; [exact E|].
    reflexivity.
  - destruct Hin as [->|Hin].
    + apply Nat.ltb_ge in E. lia.
    + destruct IH as [z [Hz [Hlt Hrun]]]; [eauto|].
      exists z. split; [now right|]. split; [exact Hlt|exact Hrun].
Qed.

(** How [request_sample_positions] is put together. *)
Lemma request_sample_positions_run task_id sample_positions self :
  request_sample_positions task_id sample_positions self
  = let req := List.map SamplePositionRequest.from_py_type sample_positions in
    if (List.length (prefixes sample_positions)
        =? List.length (nodup string_dec (prefixes sample_positions)))%nat
    then match check_enough_positions req self with
         | (Ok _, self') => with_lock (choose_positions task_id req []) self'
         | (Raise e, self') => (Raise e, self')
         end
    else (Raise (ValueError Duplicated_sample_positions), self).
Proof.
  unfold request_sample_positions, prefixes. rewrite !length_map.
  destruct (_ =? _)%nat; simpl; [|reflexivity].
  unfold bind. now destruct (check_enough_positions _ self) as [[[]|e] s'].
Qed.

(** ** Reservation: the candidates *)

Lemma choose_positions_reads_only task_id req acc self :
  snd (choose_positions task_id req acc self) = self.
Proof.
  revert acc. induction req as [|x req IH]; intros acc; simpl; [reflexivity|].
  unfold bind, query.
  destruct (get_available_sample_position _ _ self) as [result|e];
    [|reflexivity].
  destruct (_ || _); [reflexivity|apply IH].
Qed.

Lemma status_of_stored d self :
  In d (_sample_positions_collection self) ->
  exists d' r,
    get_sample_position (PositionDoc.name d) self = Some d'
    /\ get_sample_position_status (PositionDoc.name d) self = Ok r.
Proof.
  intros Hin.
  destruct (get_sample_position_known (PositionDoc.name d) self d Hin eq_refl)
    as [d' Hd'].
  exists d'. unfold get_sample_position_status. rewrite Hd'.
  destruct (find_one _ _); [eauto|]. destruct (PositionDoc.task_id d'); eauto.
Qed.

Lemma collect_available_total task_id self docs :
  (forall d, In d docs -> In d (_sample_positions_collection self)) ->
  exists l, collect_available task_id self docs = Ok l.
Proof.
  induction docs as [|d docs IH]; intros Hsub; simpl; [eauto|].
  destruct (status_of_stored d self (Hsub d (or_introl eq_refl)))
    as [d' [[st c] [Hd' Hst]]].
  rewrite Hst, Hd'.
  destruct IH as [l Hl]; [intros x Hx; apply Hsub; now right|].
  rewrite Hl. destruct (_ || _); eauto.
Qed.

Lemma collect_available_candidates task_id self docs l :
  collect_available task_id self docs = Ok l ->
  forall a, In a l ->
    candidate_for task_id self a
    /\ exists d, In d docs /\ Available.name a = PositionDoc.name d.
Proof.
  revert l. induction docs as [|d docs IH]; intros l; cbn [collect_available].
  - intros H. injection H as <-. intros a [].
  - destruct (get_sample_position_status (PositionDoc.name d) self)
      as [[st c]|e] eqn:Est; [|discriminate].
    destruct (status_eqb st EMPTY || eqb_oid (Some task_id) c) eqn:Eav.
    + destruct (get_sample_position (PositionDoc.name d) self) as [d'|] eqn:Ed';
        [|discriminate].
      destruct (collect_available task_id self docs) as [l'|e] eqn:El';
        [|discriminate].
      intros H. injection H as <-. intros a [<-|Ha].
      * split; [|exists d; split; [now left|reflexivity]].
        exists d', st, c. simpl. repeat split; try assumption.
        apply orb_true_iff in Eav. destruct Eav as [E|E].
        -- left. now destruct st.
        -- right. apply eqb_oid_true in E. now symmetry.
      * destruct (IH l' eq_refl a Ha) as [Hc [x [Hx Hn]]].
        split; [exact Hc|]. exists x. split; [now right|exact Hn].
    + intros H a Ha. destruct (IH l H a Ha) as [Hc [x [Hx Hn]]].
      split; [exact Hc|]. exists x. split; [now right|exact Hn].
Qed.

Lemma population_positive prefix self :
  0 < population prefix self <->
  exists d, In d (_sample_positions_collection self)
            /\ name_matches prefix d = true.
Proof.
  unfold population, count_documents. split.
  - destruct (filter _ _) as [|d l] eqn:E; simpl; [lia|]. intros _.
    exists d. apply filter_In. rewrite E. now left.
  - intros [d Hd]. apply filter_In in Hd.
    destruct (filter _ _); [destruct Hd|simpl; lia].
Qed.

Lemma get_available_total task_id prefix self :
  0 < population prefix self ->
  exists l, get_available_sample_position task_id prefix self = Ok l.
Proof.
  intros Hpop. apply population_positive in Hpop. destruct Hpop as [d [Hin Hd]].
  unfold get_available_sample_position.
  destruct (find_one_exists (name_matches prefix) _ d Hin Hd) as [d' ->].
  apply collect_available_total. intros x Hx. unfold find in Hx.
  now apply filter_In in Hx.
Qed.

Lemma get_available_unmatched task_id prefix self :
  population prefix self = 0 ->
  get_available_sample_position task_id prefix self
  = Raise (ValueError (Cannot_find_device_with_prefix prefix)).
Proof.
  intros Hpop. unfold get_available_sample_position.
  replace (find_one (name_matches prefix) (_sample_positions_collection self))
    with (@None PositionDoc.t); [reflexivity|].
  symmetry. apply find_one_none_iff. intros d Hd.
  destruct (name_matches prefix d) eqn:E; [|reflexivity].
  assert (0 < population prefix self) by (apply population_positive; eauto).
  lia.
Qed.

Lemma get_available_candidates task_id prefix self l :
  get_available_sample_position task_id prefix self = Ok l ->
  forall a, In a l ->
    candidate_for task_id self a
    /\ String.prefix prefix (Available.name a) = true.
Proof.
  unfold get_available_sample_position.
  destruct (find_one _ _); [|discriminate]. intros H a Ha.
  destruct (collect_available_candidates _ _ _ _ H a Ha) as [Hc [d [Hd Hn]]].
  split; [exact Hc|]. unfold find in Hd. apply filter_In in Hd.
  destruct Hd as [_ Hd]. unfold free_or_mine in Hd.
  apply andb_true_iff in Hd. rewrite Hn. apply Hd.
Qed.

(** ** Reservation: the loop under the lock *)

(** An item whose candidates are too few makes the loop return [None],
    provided the loop gets to it: the prefixes before it all match some
    position. *)
Lemma choose_positions_unsatisfiable task_id before x after acc self l :
  (forall y, In y before ->
     0 < population (SamplePositionRequest.prefix y) self) ->
  get_available_sample_position task_id (SamplePositionRequest.prefix x) self
  = Ok l ->
  List.length l < SamplePositionRequest.number x ->
  choose_positions task_id (before ++ x :: after) acc self = (Ok None, self).
Proof.
  intros Hbefore Hl Hlt. revert acc.
  induction before as [|y before IH]; intros acc; simpl; unfold bind, query.
  - rewrite Hl. apply Nat.ltb_lt in Hlt. rewrite Hlt, orb_true_r. reflexivity.
  - destruct (get_available_total task_id _ self (Hbefore y (or_introl eq_refl)))
      as [ly ->].
    destruct (_ || _); [reflexivity|].
    apply IH. intros z Hz. apply Hbefore. now right.
Qed.

(** An item whose prefix matches no position makes the loop raise,
    provided the loop gets to it: the items before it are all served. *)
Lemma choose_positions_unmatched task_id before x after acc self :
  (forall y, In y before ->
     exists l,
       get_available_sample_position task_id
         (SamplePositionRequest.prefix y) self = Ok l
       /\ l <> [] /\ SamplePositionRequest.number y <= List.length l) ->
  population (SamplePositionRequest.prefix x) self = 0 ->
  choose_positions task_id (before ++ x :: after) acc self
  = (Raise (ValueError (Cannot_find_device_with_prefix
                          (SamplePositionRequest.prefix x))), self).
Proof.
  intros Hbefore Hpop. revert acc.
  induction before as [|y before IH]; intros acc; simpl; unfold bind, query.
  - now rewrite (get_available_unmatched task_id _ self Hpop).
  - destruct (Hbefore y (or_introl eq_refl)) as [l [-> [Hne Hlen]]].
    apply Nat.ltb_ge in Hlen. rewrite Hlen.
    destruct l; [congruence|]. simpl.
    apply IH. intros z Hz. apply Hbefore. now right.
Qed.

Lemma with_lock_run {A} (body : M SampleView A) self r :
  body (log_lock LockEnter self) = (r, log_lock LockEnter self) ->
  with_lock body self = (r, after_lock (is_raise r) self).
Proof. intros H. unfold with_lock. now rewrite H. Qed.

Lemma population_log_lock prefix e self :
  population prefix (log_lock e self) = population prefix self.
Proof. reflexivity. Qed.

Lemma get_available_log_lock task_id prefix e self :
  get_available_sample_position task_id prefix (log_lock e self)
  = get_available_sample_position task_id prefix self.
Proof.
  unfold get_available_sample_position. simpl.
  destruct (find_one _ _); [|reflexivity].
  generalize (find (free_or_mine task_id prefix)
                   (_sample_positions_collection self)).
  intros docs. induction docs as [|d docs IH]; [reflexivity|].
  cbn [collect_available]. rewrite IH. reflexivity.
Qed.

(** C9. For a prefix that no stored position name starts with,
    [get_available_sample_position] raises "Cannot find device with
    prefix" instead of returning an empty list.  Hence a request for 0
    positions of such a prefix raises that error inside the locked section
    (the lock is entered, then left with the exception); it returns
    neither an empty grant nor [None].  The same holds when the item
    stands in a longer request that passes the checks before the lock,
    once the items before it have been served. *)
Theorem unmatched_prefix_raises
  (task_id : ObjectId) (prefix : string) (self : SampleView) :
  (forall d, In d (_sample_positions_collection self) ->
             String.prefix prefix (PositionDoc.name d) = false) ->
  get_available_sample_position task_id prefix self
  = Raise (ValueError (Cannot_find_device_with_prefix prefix))
  /\ request_sample_positions task_id
       [SamplePositionRequest.Dict prefix (Some 0)] self
     = (Raise (ValueError (Cannot_find_device_with_prefix prefix)),
        after_lock true self)
  /\ forall before after,
       NoDup (prefixes (before ++ SamplePositionRequest.Dict prefix (Some 0)
                               :: after)) ->
       (forall x, In x (List.map SamplePositionRequest.from_py_type
                                 (before ++ after)) ->
          SamplePositionRequest.number x
          <= population (SamplePositionRequest.prefix x) self) ->
       (forall y, In y (List.map SamplePositionRequest.from_py_type before) ->
          exists l,
            get_available_sample_position task_id
              (SamplePositionRequest.prefix y) self = Ok l
            /\ l <> [] /\ SamplePositionRequest.number y <= List.length l) ->
       request_sample_positions task_id
         (before ++ SamplePositionRequest.Dict prefix (Some 0) :: after) self
       = (Raise (ValueError (Cannot_find_device_with_prefix prefix)),
          after_lock true self).
Proof.
  intros Hnone.
  assert (Hzero : population prefix self = 0).
  { destruct (population prefix self) eqn:E; [reflexivity|].
    assert (0 < population prefix self) as Hp by lia.
    apply population_positive in Hp. destruct Hp as [d [Hin Hd]].
    unfold name_matches in Hd. rewrite (Hnone d Hin) in Hd. discriminate. }
  assert (Hgen : forall before after,
            NoDup (prefixes (before
                             ++ SamplePositionRequest.Dict prefix (Some 0)
                                :: after)) ->
            (forall x, In x (List.map SamplePositionRequest.from_py_type
                                      (before ++ after)) ->
               SamplePositionRequest.number x
               <= population (SamplePositionRequest.prefix x) self) ->
            (forall y, In y (List.map SamplePositionRequest.from_py_type
                                      before) ->
               exists l,
                 get_available_sample_position task_id
                   (SamplePositionRequest.prefix y) self = Ok l
                 /\ l <> []
                 /\ SamplePositionRequest.number y <= List.length l) ->
            request_sample_positions task_id
              (before ++ SamplePositionRequest.Dict prefix (Some 0) :: after)
              self
            = (Raise (ValueError (Cannot_find_device_with_prefix prefix)),
               after_lock true self)).
  { intros before after Hdistinct Hpop Hbefore.
    rewrite request_sample_positions_run.
    apply distinct_count_NoDup in Hdistinct. rewrite Hdistinct. cbv zeta.
    rewrite check_enough_positions_pass.
    - rewrite map_app. cbn [List.map SamplePositionRequest.from_py_type].
      apply (with_lock_run
               (choose_positions task_id
                  (List.map SamplePositionRequest.from_py_type before
                   ++ SamplePositionRequest.mk prefix 0
                      :: List.map SamplePositionRequest.from_py_type after)
                  [])
               self
               (Raise (ValueError (Cannot_find_device_with_prefix prefix)))).
      apply (choose_positions_unmatched task_id _
               (SamplePositionRequest.mk prefix 0)).
      + intros y Hy. destruct (Hbefore y Hy) as [l [Hl Hrest]].
        exists l. rewrite get_available_log_lock. split; assumption.
      + exact Hzero.
    - intros x Hx. rewrite map_app in Hx. cbn [List.map] in Hx.
      apply in_app_or in Hx. destruct Hx as [Hx|[<-|Hx]].
      + apply Hpop. rewrite map_app. apply in_or_app. now left.
      + simpl. lia.
      + apply Hpop. rewrite map_app. apply in_or_app. now right. }
  split; [exact (get_available_unmatched task_id prefix self Hzero)|].
  split; [|exact Hgen].
  apply (Hgen [] []).
  - repeat constructor. intros [].
  - intros x [].
  - intros y [].
Qed.

Lemma unmatched_prefix_raises_witness :
  request_sample_positions 1%N
    [SamplePositionRequest.Str "A"; SamplePositionRequest.Dict "Z" (Some 0)]
    Ex.one_free
  = (Raise (ValueError (Cannot_find_device_with_prefix "Z")),
     after_lock true Ex.one_free).
Proof.
  apply (proj2 (proj2 (unmatched_prefix_raises 1%N "Z" Ex.one_free
                         ltac:(intros d [<-|[]]; reflexivity)))
           [SamplePositionRequest.Str "A"] []).
  - repeat constructor; simpl; intuition discriminate.
  - intros x [<-|[]]. simpl. vm_compute. lia.
  - intros y [<-|[]]. eexists. split; [reflexivity|].
    split; [discriminate|]. simpl. lia.
Defined.

(** C4, as the code has it.  A request with two items of the same prefix
    raises "Duplicated sample_positions".  With distinct prefixes, a
    request some item of which asks more positions than carry its prefix
    raises "can only have ... matches" with the lock never entered.  With
    distinct prefixes and enough positions for every item, an item with
    fewer candidates than its count makes the call return [None] when every
    item before it has a prefix that matches some position; the lock is
    entered and left, and no document is written. *)
Theorem reserve_failures
  (task_id : ObjectId) (sample_positions : list SamplePositionRequest.py_type)
  (self : SampleView) :
  let req := List.map SamplePositionRequest.from_py_type sample_positions in
  (~ NoDup (prefixes sample_positions) ->
   request_sample_positions task_id sample_positions self
   = (Raise (ValueError Duplicated_sample_positions), self))
  /\ (NoDup (prefixes sample_positions) ->
      (exists x, In x req /\
         population (SamplePositionRequest.prefix x) self
         < SamplePositionRequest.number x) ->
      exists x,
        In x req
        /\ population (SamplePositionRequest.prefix x) self
           < SamplePositionRequest.number x
        /\ request_sample_positions task_id sample_positions self
           = (Raise (ValueError
                       (Not_enough_matches (SamplePositionRequest.prefix x)
                          (population (SamplePositionRequest.prefix x) self)
                          (SamplePositionRequest.number x))), self))
  /\ (NoDup (prefixes sample_positions) ->
      (forall x, In x req ->
         SamplePositionRequest.number x
         <= population (SamplePositionRequest.prefix x) self) ->
      forall before x after l,
        req = (before ++ x :: after)%list ->
        (forall y, In y before ->
           0 < population (SamplePositionRequest.prefix y) self) ->
        get_available_sample_position task_id
          (SamplePositionRequest.prefix x) self = Ok l ->
        List.length l < SamplePositionRequest.number x ->
        request_sample_positions task_id sample_positions self
        = (Ok None, after_lock false self)).
Proof.
  intros req. rewrite request_sample_positions_run. fold req. cbv zeta.
  split; [|split].
  - intros Hdup.
    destruct (_ =? _)%nat eqn:E; [|reflexivity].
    apply distinct_count_NoDup in E. contradiction.
  - intros Hdistinct Hfew. apply distinct_count_NoDup in Hdistinct.
    rewrite Hdistinct.
    destruct (check_enough_positions_fail req self Hfew) as [x [Hx [Hlt Hrun]]].
    exists x. rewrite Hrun. repeat split; assumption.
  - intros Hdistinct Hpop before x after l Hsplit Hbefore Hl Hlt.
    apply distinct_count_NoDup in Hdistinct. rewrite Hdistinct.
    rewrite (check_enough_positions_pass req self Hpop).
    apply (with_lock_run (choose_positions task_id req []) self (Ok None)).
    rewrite Hsplit.
    apply (choose_positions_unsatisfiable task_id before x after [] _ l).
    + exact Hbefore.
    + now rewrite get_available_log_lock.
    + exact Hlt.
Qed.

Lemma reserve_failures_witness :
  request_sample_positions 1%N [SamplePositionRequest.Str "A"] Ex.held_by_2
  = (Ok None, after_lock false Ex.held_by_2).
Proof.
  apply (proj2 (proj2 (reserve_failures 1%N [SamplePositionRequest.Str "A"]
                         Ex.held_by_2)))
    with (before := []) (x := SamplePositionRequest.mk "A" 1) (after := [])
         (l := []).
  - repeat constructor. intros [].
  - intros x [<-|[]]. vm_compute. lia.
  - reflexivity.
  - intros y [].
  - reflexivity.
  - simpl. lia.
Defined.

(** C4 as stated fails: enough positions exist for every item and the
    prefix "A" has no candidate for task 1, yet the call raises instead of
    returning [None], because the item before it names a prefix that
    matches no position. *)
Lemma reserve_raises_instead_of_unsatisfiable :
  let request := [SamplePositionRequest.Dict "Z" (Some 0);
                  SamplePositionRequest.Str "A"] in
  NoDup (prefixes request)
  /\ (forall x, In x (List.map SamplePositionRequest.from_py_type request) ->
        SamplePositionRequest.number x
        <= population (SamplePositionRequest.prefix x) Ex.held_by_2)
  /\ get_available_sample_position 1%N "A" Ex.held_by_2 = Ok []
  /\ fst (request_sample_positions 1%N request Ex.held_by_2)
     = Raise (ValueError (Cannot_find_device_with_prefix "Z"))
  /\ fst (request_sample_positions 1%N request Ex.held_by_2) <> Ok None.
Proof.
  cbv zeta. split; [|split; [|split; [|split]]].
  - repeat constructor; simpl; intuition discriminate.
  - intros x [<-|[<-|[]]]; vm_compute; lia.
  - reflexivity.
  - reflexivity.
  - discriminate.
Qed.

(** ** Reservation: the grant *)

Lemma insert_by_key_In {A} (key : A -> nat) a l x :
  In x (insert_by_key key a l) <-> x = a \/ In x l.
Proof.
  induction l as [|y l IH]; simpl.
  - intuition.
  - destruct (key a <=? key y)%nat; simpl; [intuition|].
    rewrite IH. intuition.
Qed.

Lemma sorted_In {A} (key : A -> nat) l x :
  In x (sorted key l) <-> In x l.
Proof.
  induction l as [|a l IH]; simpl; [reflexivity|].
  rewrite insert_by_key_In, IH. intuition.
Qed.

Lemma firstn_subset {A} n (l : list A) x : In x (firstn n l) -> In x l.
Proof.
  intros H. rewrite <- (firstn_skipn n l). apply in_or_app. now left.
Qed.

Lemma dict_set_In {V} k (v : V) d p l :
  In (p, l) (dict_set k v d) -> (p = k /\ l = v) \/ In (p, l) d.
Proof.
  induction d as [|[k' v'] d IH]; simpl.
  - intros [H|[]]. injection H as <- <-. now left.
  - destruct (String.eqb_spec k' k) as [->|Hne]; simpl.
    + intros [H|H]; [injection H as <- <-; now left|right; now right].
    + intros [H|H]; [right; now left|].
      destruct (IH H) as [Hk|Hd]; [now left|right; now right].
Qed.

Lemma choose_positions_grant task_id req acc self g :
  fst (choose_positions task_id req acc self) = Ok (Some g) ->
  forall p l, In (p, l) g ->
    In (p, l) acc
    \/ exists x result,
         In x req /\ p = SamplePositionRequest.prefix x
         /\ get_available_sample_position task_id p self = Ok result
         /\ l = firstn (SamplePositionRequest.number x)
                  (sorted need_release_key result).
Proof.
  revert acc. induction req as [|x req IH]; intros acc;
    cbn [choose_positions]; unfold bind, query, ret.
  - simpl. intros H. injection H as <-. intros p l Hin. now left.
  - destruct (get_available_sample_position _ _ self) as [result|e] eqn:Eres;
      [|discriminate].
    destruct (_ || _); [discriminate|].
    intros H p l Hin. destruct (IH _ H p l Hin) as [Hacc|Hreq].
    + apply dict_set_In in Hacc. destruct Hacc as [[-> ->]|Hacc]; [|now left].
      right. exists x, result. repeat split; [now left|exact Eres].
    + right. destruct Hreq as [y [res [Hy Hrest]]].
      exists y, res. split; [now right|exact Hrest].
Qed.

Lemma lock_sample_position_available task_id position self st c :
  get_sample_position_status position self = Ok (st, c) ->
  st = EMPTY \/ c = Some task_id ->
  lock_sample_position task_id position self
  = (Ok tt, locked_for task_id position self)
  /\ stored_owner position (locked_for task_id position self)
     = Some (Some task_id).
Proof.
  intros Hst Hav. split.
  - rewrite lock_sample_position_run, Hst.
    destruct Hav as [-> | ->]; [reflexivity|].
    rewrite eqb_oid_refl. now destruct st.
  - destruct (status_known _ _ _ Hst) as [d Hd].
    exact (stored_owner_locked_for _ _ _ _ Hd).
Qed.

Lemma lock_candidate task_id self a :
  candidate_for task_id self a ->
  lock_sample_position task_id (Available.name a) self
  = (Ok tt, locked_for task_id (Available.name a) self)
  /\ stored_owner (Available.name a)
       (locked_for task_id (Available.name a) self)
     = Some (Some task_id).
Proof.
  intros [d [st [c [Hd [_ [Hst Hav]]]]]].
  exact (lock_sample_position_available _ _ _ st c Hst Hav).
Qed.

Lemma request_sample_positions_granted task_id sample_positions self g self' :
  request_sample_positions task_id sample_positions self = (Ok (Some g), self')
  ->
  self' = after_lock false self
  /\ choose_positions task_id
       (List.map SamplePositionRequest.from_py_type sample_positions) []
       (log_lock LockEnter self)
     = (Ok (Some g), log_lock LockEnter self)
  /\ NoDup (prefixes sample_positions)
  /\ forall x,
       In x (List.map SamplePositionRequest.from_py_type sample_positions) ->
       SamplePositionRequest.number x
       <= population (SamplePositionRequest.prefix x) self.
Proof.
  rewrite request_sample_positions_run. cbv zeta.
  destruct (_ =? _)%nat eqn:Edistinct; [|discriminate].
  apply distinct_count_NoDup in Edistinct.
  set (req := List.map SamplePositionRequest.from_py_type sample_positions).
  destruct (check_enough_positions req self) as [[[]|e] s1] eqn:Echeck;
    [|discriminate].
  assert (Hpop : forall x, In x req ->
            SamplePositionRequest.number x
            <= population (SamplePositionRequest.prefix x) self).
  { intros x Hx.
    destruct (Nat.le_gt_cases (SamplePositionRequest.number x)
                (population (SamplePositionRequest.prefix x) self))
      as [Hle|Hgt]; [exact Hle|].
    destruct (check_enough_positions_fail req self) as [y [_ [_ Hrun]]];
      [eauto|]. congruence. }
  rewrite (check_enough_positions_pass req self Hpop) in Echeck.
  injection Echeck as <-.
  unfold with_lock.
  pose proof (choose_positions_reads_only task_id req []
                (log_lock LockEnter self)) as Hsnd.
  destruct (choose_positions task_id req [] (log_lock LockEnter self))
    as [r s2]. simpl in Hsnd. subst s2.
  intros H. injection H as -> <-. simpl. repeat split; assumption.
Qed.

(** C2, as the code has it.  A successful [request_sample_positions]
    returns its grant without writing any document: the state at return is
    the one at the call with the lock entered and left.  Every position
    listed in the grant has a name starting with the prefix it is listed
    under and is a candidate for the requesting task (EMPTY, or attributed
    to that task by the occupancy resolver), [need_release] being true
    exactly when its stored owner is not the requesting task.  The owner is
    written by [lock_sample_position], which for each listed position
    succeeds and stores the requesting task id. *)
Theorem request_selects_without_writing
  (task_id : ObjectId) (sample_positions : list SamplePositionRequest.py_type)
  (self self' : SampleView) (g : grant) :
  request_sample_positions task_id sample_positions self = (Ok (Some g), self')
  ->
  self' = after_lock false self
  /\ _sample_positions_collection self' = _sample_positions_collection self
  /\ _sample_collection self' = _sample_collection self
  /\ forall prefix l a, In (prefix, l) g -> In a l ->
       String.prefix prefix (Available.name a) = true
       /\ candidate_for task_id self' a
       /\ lock_sample_position task_id (Available.name a) self'
          = (Ok tt, locked_for task_id (Available.name a) self')
       /\ stored_owner (Available.name a)
            (locked_for task_id (Available.name a) self')
          = Some (Some task_id).
Proof.
  intros Hrun.
  destruct (request_sample_positions_granted _ _ _ _ _ Hrun)
    as [-> [Hchoose _]].
  split; [reflexivity|]. split; [reflexivity|]. split; [reflexivity|].
  intros prefix l a Hl Ha.
  assert (Hg : fst (choose_positions task_id
                      (List.map SamplePositionRequest.from_py_type
                                sample_positions) []
                      (log_lock LockEnter self)) = Ok (Some g))
    by now rewrite Hchoose.
  destruct (choose_positions_grant _ _ _ _ _ Hg prefix l Hl)
    as [[]|[x [result [_ [_ [Hres ->]]]]]].
  apply firstn_subset, sorted_In in Ha.
  rewrite get_available_log_lock in Hres.
  destruct (get_available_candidates _ _ _ _ Hres a Ha) as [Hc Hp].
  split; [exact Hp|].
  assert (Hc' : candidate_for task_id (after_lock false self) a) by exact Hc.
  split; [exact Hc'|]. exact (lock_candidate _ _ _ Hc').
Qed.

Lemma request_selects_without_writing_witness :
  lock_sample_position 1%N "A1" (after_lock false Ex.one_free)
  = (Ok tt, locked_for 1%N "A1" (after_lock false Ex.one_free)).
Proof.
  destruct (request_selects_without_writing 1%N [SamplePositionRequest.Str "A"]
              Ex.one_free (after_lock false Ex.one_free)
              [("A", [Available.mk "A1" true])] eq_refl)
    as [_ [_ [_ H]]].
  destruct (H "A" [Available.mk "A1" true] (Available.mk "A1" true))
    as [_ [_ [Hlock _]]].
  - now left.
  - now left.
  - exact Hlock.
Defined.

(** C2 as stated fails: task 1 is granted "A1" and at return the stored
    owner of "A1" is still unset. *)
Lemma request_leaves_owner_unset :
  request_sample_positions 1%N [SamplePositionRequest.Str "A"] Ex.one_free
  = (Ok (Some [("A", [Available.mk "A1" true])]),
     after_lock false Ex.one_free)
  /\ stored_owner "A1" (after_lock false Ex.one_free) = Some None
  /\ stored_owner "A1" (after_lock false Ex.one_free) <> Some (Some 1%N).
Proof. repeat split. discriminate. Qed.

(** ** Moving a sample *)

Lemma LabView_move_sample_run self sample_id position now v :
  LabView.move_sample self sample_id position now v
  = match
      match position with
      | Some p =>
          match get_sample_position_status p v with
          | Ok (_, c) =>
              if eqb_oid c (Some (LabView._task_id self)) then None
              else Some (ValueError (Cannot_move_without_locking p))
          | Raise e => Some e
          end
      | None => None
      end
    with
    | Some e => (Raise e, v)
    | None =>
        match get_sample sample_id v with
        | Raise e => (Raise e, v)
        | Ok sample =>
            if eqb_oid (Sample.task_id sample) (Some (LabView._task_id self))
            then move_sample sample_id position now v
            else (Raise (ValueError Sample_not_belong_to_task), v)
        end
    end.
Proof.
  unfold LabView.move_sample, LabView.get_sample, bind, query, ret, raise.
  destruct position as [p|]; simpl.
  - destruct (get_sample_position_status p v) as [[st c]|e]; simpl;
      [|reflexivity].
    destruct (eqb_oid c (Some (LabView._task_id self))); simpl; [|reflexivity].
    destruct (get_sample sample_id v) as [sample|e]; [|reflexivity].
    now destruct (eqb_oid (Sample.task_id sample) _).
  - destruct (get_sample sample_id v) as [sample|e]; [|reflexivity].
    now destruct (eqb_oid (Sample.task_id sample) _).
Qed.

Lemma get_sample_found sample_id v sample :
  get_sample sample_id v = Ok sample ->
  exists doc,
    find_one (id_is sample_id) (_sample_collection v) = Some doc
    /\ SampleDoc.position doc = Sample.position sample
    /\ SampleDoc.task_id doc = Sample.task_id sample.
Proof.
  unfold get_sample.
  destruct (find_one (id_is sample_id) (_sample_collection v)) as [doc|];
    [|discriminate].
  intros H. injection H as <-. exists doc. simpl. auto.
Qed.

Lemma move_sample_to_occupied sample_id p now v c sample :
  get_sample_position_status p v = Ok (OCCUPIED, c) ->
  get_sample sample_id v = Ok sample ->
  Sample.position sample <> Some p ->
  move_sample sample_id (Some p) now v
  = (Raise (ValueError (Requested_position_not_EMPTY_or_LOCKED p)), v).
Proof.
  intros Hst Hget Hpos.
  destruct (get_sample_found _ _ _ Hget) as [doc [Hdoc [Hp _]]].
  unfold move_sample, bind, query, ret, raise. rewrite Hdoc.
  destruct (eqb_ostr_spec (SampleDoc.position doc) (Some p)) as [E|_];
    [congruence|].
  unfold is_unoccupied_position. rewrite Hst. reflexivity.
Qed.

Lemma move_sample_in_place sample_id position now v sample :
  get_sample sample_id v = Ok sample ->
  Sample.position sample = position ->
  move_sample sample_id position now v = (Ok tt, v).
Proof.
  intros Hget Hpos.
  destruct (get_sample_found _ _ _ Hget) as [doc [Hdoc [Hp _]]].
  unfold move_sample, bind, query, ret. rewrite Hdoc.
  destruct (eqb_ostr_spec (SampleDoc.position doc) position) as [_|E];
    [reflexivity|congruence].
Qed.

(** C7, as the code has it.  [LabView.move_sample] raises "Cannot move
    sample ... without locking it" whenever a destination is given that the
    occupancy resolver does not attribute to the caller's task: an EMPTY
    destination, one LOCKED by another task, one OCCUPIED by a sample of
    another task.  Past that check it raises "not belong to this task"
    when the sample's owning task is not the caller's, and otherwise
    delegates to [SampleView.move_sample].  A sample whose owning task is
    not the caller's is never moved, and neither is any sample to an
    OCCUPIED destination at which it does not already sit; a sample that
    already sits at the destination is left there without error. *)
Theorem move_sample_checks
  (self : LabView.t) (sample_id : ObjectId) (position : option string)
  (now : datetime) (v : SampleView) :
  let task_id := LabView._task_id self in
  (forall p st c,
     position = Some p -> get_sample_position_status p v = Ok (st, c) ->
     c <> Some task_id ->
     LabView.move_sample self sample_id position now v
     = (Raise (ValueError (Cannot_move_without_locking p)), v))
  /\ (forall sample,
        destination_held task_id position v ->
        get_sample sample_id v = Ok sample ->
        Sample.task_id sample <> Some task_id ->
        LabView.move_sample self sample_id position now v
        = (Raise (ValueError Sample_not_belong_to_task), v))
  /\ (forall sample,
        destination_held task_id position v ->
        get_sample sample_id v = Ok sample ->
        Sample.task_id sample = Some task_id ->
        LabView.move_sample self sample_id position now v
        = move_sample sample_id position now v)
  /\ (forall sample,
        get_sample sample_id v = Ok sample ->
        Sample.task_id sample <> Some task_id ->
        exists m,
          LabView.move_sample self sample_id position now v
          = (Raise (ValueError m), v))
  /\ (forall p c sample,
        position = Some p ->
        get_sample_position_status p v = Ok (OCCUPIED, c) ->
        get_sample sample_id v = Ok sample ->
        Sample.position sample <> Some p ->
        exists m,
          LabView.move_sample self sample_id position now v
          = (Raise (ValueError m), v))
  /\ (forall sample,
        destination_held task_id position v ->
        get_sample sample_id v = Ok sample ->
        Sample.task_id sample = Some task_id ->
        Sample.position sample = position ->
        LabView.move_sample self sample_id position now v = (Ok tt, v)).
Proof.
  intros task_id. rewrite LabView_move_sample_run. fold task_id.
  assert (Hheld : forall sample,
            destination_held task_id position v ->
            get_sample sample_id v = Ok sample ->
            match
              match position with
              | Some p =>
                  match get_sample_position_status p v with
                  | Ok (_, c) =>
                      if eqb_oid c (Some task_id) then None
                      else Some (ValueError (Cannot_move_without_locking p))
                  | Raise e => Some e
                  end
              | None => None
              end
            with
            | Some e => (Raise e, v)
            | None =>
                match get_sample sample_id v with
                | Raise e => (Raise e, v)
                | Ok sample =>
                    if eqb_oid (Sample.task_id sample) (Some task_id)
                    then move_sample sample_id position now v
                    else (Raise (ValueError Sample_not_belong_to_task), v)
                end
            end
            = if eqb_oid (Sample.task_id sample) (Some task_id)
              then move_sample sample_id position now v
              else (Raise (ValueError Sample_not_belong_to_task), v)).
  { intros sample [->|[p [st [-> Hst]]]] Hget.
    - now rewrite Hget.
    - now rewrite Hst, eqb_oid_refl, Hget. }
  split; [|split; [|split; [|split; [|split]]]].
  - intros p st c -> Hst Hc. rewrite Hst.
    apply eqb_oid_false in Hc. now rewrite Hc.
  - intros sample Hd Hget Ht. rewrite (Hheld sample Hd Hget).
    apply eqb_oid_false in Ht. now rewrite Ht.
  - intros sample Hd Hget Ht. rewrite (Hheld sample Hd Hget).
    apply eqb_oid_true in Ht. now rewrite Ht.
  - intros sample Hget Ht. apply eqb_oid_false in Ht.
    destruct position as [p|].
    + destruct (get_sample_position_status p v) as [[st c]|e] eqn:Est.
      * destruct (eqb_oid c (Some task_id)); [|eauto].
        rewrite Hget, Ht. eauto.
      * apply status_raises_only_invalid in Est. subst e. eauto.
    + rewrite Hget, Ht. eauto.
  - intros p c sample -> Hst Hget Hpos. rewrite Hst.
    destruct (eqb_oid c (Some task_id)); [|eauto].
    rewrite Hget. destruct (eqb_oid (Sample.task_id sample) (Some task_id));
      [|eauto].
    rewrite (move_sample_to_occupied _ _ _ _ _ _ Hst Hget Hpos). eauto.
  - intros sample Hd Hget Ht Hpos. rewrite (Hheld sample Hd Hget).
    apply eqb_oid_true in Ht. rewrite Ht.
    exact (move_sample_in_place _ _ _ _ _ Hget Hpos).
Qed.

Lemma move_sample_checks_witness :
  LabView.move_sample (LabView.mk 1%N) 7%N (Some "A1") 5%Z
    (mkSampleView [Ex.smp 7%N None (Some 1%N)] [Ex.pos "A1" (Some 2%N)] [])
  = (Raise (ValueError (Cannot_move_without_locking "A1")),
     mkSampleView [Ex.smp 7%N None (Some 1%N)] [Ex.pos "A1" (Some 2%N)] []).
Proof.
  apply (proj1 (move_sample_checks (LabView.mk 1%N) 7%N (Some "A1") 5%Z
                  (mkSampleView [Ex.smp 7%N None (Some 1%N)]
                                [Ex.pos "A1" (Some 2%N)] [])))
    with (st := LOCKED) (c := Some 2%N).
  - reflexivity.
  - reflexivity.
  - discriminate.
Defined.

(** C7 as stated fails: the destination "P1" is OCCUPIED, and moving to it
    the sample that already sits there, owned by the caller's task, ends
    without error. *)
Lemma move_to_own_occupied_position :
  get_sample_position_status "P1" Ex.own_sample_on_P1
  = Ok (OCCUPIED, Some 1%N)
  /\ LabView.move_sample (LabView.mk 1%N) 7%N (Some "P1") 5%Z
       Ex.own_sample_on_P1
     = (Ok tt, Ex.own_sample_on_P1).
Proof. split; reflexivity. Qed.

(** ** The selection policy *)

Lemma insert_by_key_low {A} (key : A -> nat) a l :
  key a = 0 -> insert_by_key key a l = a :: l.
Proof. intros H. destruct l as [|y l]; simpl; [reflexivity|]. now rewrite H. Qed.

Lemma insert_by_key_high {A} (key : A -> nat) a low high :
  key a = 1 ->
  (forall y, In y low -> key y = 0) ->
  (forall y, In y high -> key y = 1) ->
  insert_by_key key a (low ++ high) = (low ++ a :: high)%list.
Proof.
  intros Ha Hlow Hhigh. induction low as [|y low IH]; simpl.
  - destruct high as [|z high]; simpl; [reflexivity|].
    now rewrite Ha, (Hhigh z (or_introl eq_refl)).
  - rewrite Ha, (Hlow y (or_introl eq_refl)). simpl. f_equal.
    apply IH. intros z Hz. apply Hlow. now right.
Qed.

(** Sorting on [int(need_release)] puts the entries that need no release
    first and keeps the order inside each group. *)
Lemma sorted_need_release l :
  sorted need_release_key l
  = (filter (fun a => negb (Available.need_release a)) l
     ++ filter Available.need_release l)%list.
Proof.
  induction l as [|a l IH]; simpl; [reflexivity|]. rewrite IH.
  destruct (Available.need_release a) eqn:Ea; simpl.
  - apply insert_by_key_high.
    + unfold need_release_key. now rewrite Ea.
    + intros y Hy. apply filter_In in Hy. unfold need_release_key.
      destruct (Available.need_release y); [now destruct Hy|reflexivity].
    + intros y Hy. apply filter_In in Hy. unfold need_release_key.
      destruct Hy as [_ ->]. reflexivity.
  - apply insert_by_key_low. unfold need_release_key. now rewrite Ea.
Qed.

Lemma sorted_flagged_blocks (own fresh : list PositionDoc.t) :
  sorted need_release_key
    (List.map (flagged false) own ++ List.map (flagged true) fresh)
  = (List.map (flagged false) own ++ List.map (flagged true) fresh)%list.
Proof.
  rewrite sorted_need_release, !filter_app.
  assert (H1 : forall l, filter (fun a => negb (Available.need_release a))
                           (List.map (flagged false) l)
                         = List.map (flagged false) l).
  { induction l as [|d l IH]; simpl; [reflexivity|]. now rewrite IH. }
  assert (H2 : forall l, filter (fun a => negb (Available.need_release a))
                           (List.map (flagged true) l) = []).
  { induction l as [|d l IH]; simpl; [reflexivity|]. exact IH. }
  assert (H3 : forall l, filter Available.need_release
                           (List.map (flagged false) l) = []).
  { induction l as [|d l IH]; simpl; [reflexivity|]. exact IH. }
  assert (H4 : forall l, filter Available.need_release
                           (List.map (flagged true) l)
                         = List.map (flagged true) l).
  { induction l as [|d l IH]; simpl; [reflexivity|]. now rewrite IH. }
  now rewrite H1, H2, H3, H4, app_nil_r.
Qed.

(** ** Unique names *)

Lemma find_one_unique_name ps d :
  NoDup (List.map PositionDoc.name ps) -> In d ps ->
  find_one (name_is (PositionDoc.name d)) ps = Some d.
Proof.
  unfold find_one. induction ps as [|x ps IH]; simpl; intros Hnd Hin;
    [destruct Hin|].
  inversion Hnd as [|? ? Hx Hps]; subst.
  destruct (name_is (PositionDoc.name d) x) eqn:E.
  - destruct Hin as [->|Hin]; [reflexivity|].
    apply name_is_true in E. elim Hx. rewrite E. now apply in_map.
  - destruct Hin as [->|Hin].
    + unfold name_is in E. now rewrite String.eqb_refl in E.
    + now apply IH.
Qed.

Lemma update_one_unique_name ps position upd :
  NoDup (List.map PositionDoc.name ps) ->
  update_one (name_is position) upd ps
  = List.map (fun d => if name_is position d then upd d else d) ps.
Proof.
  induction ps as [|x ps IH]; simpl; intros Hnd; [reflexivity|].
  inversion Hnd as [|? ? Hx Hps]; subst.
  destruct (name_is position x) eqn:E.
  - f_equal. symmetry. rewrite <- (map_id ps) at 2. apply map_ext_in.
    intros d Hd. destruct (name_is position d) eqn:Ed; [|reflexivity].
    apply name_is_true in E, Ed. elim Hx. rewrite E, <- Ed. now apply in_map.
  - f_equal. now apply IH.
Qed.

Lemma mark_name task_id names d :
  PositionDoc.name (mark task_id names d) = PositionDoc.name d.
Proof. unfold mark. destruct (existsb _ _); [now destruct d|reflexivity]. Qed.

Lemma map_mark_names task_id names ps :
  List.map PositionDoc.name (List.map (mark task_id names) ps)
  = List.map PositionDoc.name ps.
Proof.
  rewrite map_map. apply map_ext. intros d. apply mark_name.
Qed.

Lemma mark_cons task_id position names d :
  mark task_id names
    (if name_is position d then PositionDoc.set_task_id (Some task_id) d else d)
  = mark task_id (position :: names) d.
Proof.
  unfold mark, name_is. simpl.
  destruct (String.eqb (PositionDoc.name d) position) eqn:E; simpl.
  - destruct d; simpl. now destruct (existsb _ names).
  - reflexivity.
Qed.

Lemma mark_nil task_id ps : List.map (mark task_id []) ps = ps.
Proof. rewrite <- (map_id ps) at 2. now apply map_ext. Qed.

Lemma status_without_sample position self d :
  get_sample_position position self = Some d ->
  (forall s, In s (_sample_collection self) ->
             SampleDoc.position s <> Some position) ->
  get_sample_position_status position self
  = Ok (match PositionDoc.task_id d with
        | Some t => (LOCKED, Some t)
        | None => (EMPTY, None)
        end).
Proof.
  intros Hd Hnone. unfold get_sample_position_status. rewrite Hd.
  replace (find_one (sample_at position) (_sample_collection self))
    with (@None SampleDoc.t).
  - now destruct (PositionDoc.task_id d).
  - symmetry. apply find_one_none_iff. intros s Hs.
    destruct (sample_at position s) eqn:E; [|reflexivity].
    apply sample_at_true in E. now apply Hnone in Hs.
Qed.

Lemma get_sample_position_unique self d :
  NoDup (List.map PositionDoc.name (_sample_positions_collection self)) ->
  In d (_sample_positions_collection self) ->
  get_sample_position (PositionDoc.name d) self = Some d.
Proof. intros Hnd Hin. now apply find_one_unique_name. Qed.

Lemma collect_available_unique task_id self docs :
  NoDup (List.map PositionDoc.name (_sample_positions_collection self)) ->
  (forall d, In d docs -> In d (_sample_positions_collection self)) ->
  collect_available task_id self docs
  = Ok (List.map (entry_for task_id) (filter (available_for task_id self) docs)).
Proof.
  intros Hnd. induction docs as [|d docs IH]; intros Hsub;
    cbn [collect_available filter List.map]; [reflexivity|].
  pose proof (Hsub d (or_introl eq_refl)) as Hd.
  rewrite (get_sample_position_unique self d Hnd Hd).
  rewrite IH by (intros x Hx; apply Hsub; now right).
  destruct (status_of_stored d self Hd) as [d' [[st c] [_ Hst]]].
  assert (Hav : available_for task_id self d
                = status_eqb st EMPTY || eqb_oid (Some task_id) c)
    by (unfold available_for; now rewrite Hst).
  rewrite Hst, Hav.
  destruct (status_eqb st EMPTY || eqb_oid (Some task_id) c); reflexivity.
Qed.

Lemma filter_all {A} (f : A -> bool) l :
  (forall x, In x l -> f x = true) -> filter f l = l.
Proof.
  induction l as [|x l IH]; simpl; intros H; [reflexivity|].
  rewrite (H x (or_introl eq_refl)). f_equal. apply IH.
  intros y Hy. apply H. now right.
Qed.

(** With unique names, and no sample and no foreign owner on the positions
    of the prefix, the candidates are all the positions of the prefix. *)
Lemma get_available_free task_id prefix self :
  NoDup (List.map PositionDoc.name (_sample_positions_collection self)) ->
  free_for task_id prefix self ->
  0 < population prefix self ->
  get_available_sample_position task_id prefix self
  = Ok (List.map (entry_for task_id) (matching prefix self)).
Proof.
  intros Hnd Hfree Hpop. unfold get_available_sample_position.
  apply population_positive in Hpop. destruct Hpop as [d0 [Hin0 Hd0]].
  destruct (find_one_exists (name_matches prefix) _ d0 Hin0 Hd0) as [d1 ->].
  rewrite collect_available_unique; [|exact Hnd|].
  - f_equal. f_equal. unfold matching, find.
    replace (filter (free_or_mine task_id prefix)
                    (_sample_positions_collection self))
      with (filter (name_matches prefix) (_sample_positions_collection self)).
    + apply filter_all. intros d Hd. apply filter_In in Hd.
      destruct Hd as [Hin Hm]. destruct (Hfree d Hin Hm) as [Hown Hnone].
      unfold available_for.
      rewrite (status_without_sample _ self d
                 (get_sample_position_unique self d Hnd Hin) Hnone).
      destruct Hown as [-> | ->]; [reflexivity|]. simpl.
      now rewrite N.eqb_refl.
    + apply filter_ext_in. intros d Hin. unfold free_or_mine.
      destruct (name_matches prefix d) eqn:Hm; [|reflexivity].
      destruct (Hfree d Hin Hm) as [[-> | ->] _]; simpl;
        [reflexivity|now rewrite N.eqb_refl].
  - intros d Hd. unfold find in Hd. now apply filter_In in Hd.
Qed.

Lemma set_positions_twice a b self :
  set_positions a (set_positions b self) = set_positions a self.
Proof. reflexivity. Qed.

(** Locking one after the other a list of positions that hold no sample
    and have no foreign owner marks exactly those positions. *)
Lemma lock_all task_id names self :
  NoDup (List.map PositionDoc.name (_sample_positions_collection self)) ->
  (forall position, In position names ->
     exists d,
       In d (_sample_positions_collection self)
       /\ PositionDoc.name d = position
       /\ (PositionDoc.task_id d = None \/ PositionDoc.task_id d = Some task_id)
       /\ forall s, In s (_sample_collection self) ->
                    SampleDoc.position s <> Some position) ->
  for_each names (lock_sample_position task_id) self
  = (Ok tt,
     set_positions
       (List.map (mark task_id names) (_sample_positions_collection self))
       self).
Proof.
  revert self. induction names as [|position names IH]; intros self Hnd Hfree.
  - simpl. unfold ret. now rewrite mark_nil, set_positions_same.
  - cbn [for_each]. unfold bind.
    destruct (Hfree position (or_introl eq_refl)) as [d [Hin [Hname [Hown Hnone]]]].
    assert (Hd : get_sample_position position self = Some d).
    { rewrite <- Hname. now apply get_sample_position_unique. }
    pose proof (status_without_sample position self d Hd Hnone) as Hst.
    assert (Hlock : lock_sample_position task_id position self
                    = (Ok tt, locked_for task_id position self)).
    { destruct Hown as [Ho|Ho]; rewrite Ho in Hst.
      - apply (lock_sample_position_available _ _ _ EMPTY None Hst). now left.
      - apply (lock_sample_position_available _ _ _ LOCKED (Some task_id) Hst).
        now right. }
    rewrite Hlock. unfold locked_for.
    rewrite (update_one_unique_name _ position _ Hnd).
    set (step := fun d0 => if name_is position d0
                           then PositionDoc.set_task_id (Some task_id) d0
                           else d0).
    assert (Hstep_name : forall x, PositionDoc.name (step x) = PositionDoc.name x).
    { intros x. unfold step. destruct (name_is position x); [now destruct x|reflexivity]. }
    rewrite IH.
    + simpl. rewrite set_positions_twice, map_map. f_equal. f_equal.
      apply map_ext. intros x. apply mark_cons.
    + simpl. rewrite map_map.
      erewrite map_ext; [exact Hnd|]. intros x. apply Hstep_name.
    + intros p Hp. destruct (Hfree p (or_intror Hp)) as [x [Hx [Hxn [Hxo Hxs]]]].
      exists (step x). simpl. split; [now apply in_map|].
      split; [now rewrite Hstep_name|]. split; [|exact Hxs].
      unfold step. destruct (name_is position x); [right; now destruct x|exact Hxo].
Qed.

Lemma filter_map_commute {A B} (f : B -> bool) (g : A -> B) l :
  filter f (List.map g l) = List.map g (filter (fun x => f (g x)) l).
Proof.
  induction l as [|x l IH]; simpl; [reflexivity|].
  destruct (f (g x)); simpl; now rewrite IH.
Qed.

Lemma NoDup_map_filter {A B} (g : A -> B) (f : A -> bool) l :
  NoDup (List.map g l) -> NoDup (List.map g (filter f l)).
Proof.
  induction l as [|x l IH]; simpl; intros H; [constructor|].
  inversion H as [|? ? Hx Hl]; subst.
  destruct (f x); simpl; [|now apply IH].
  constructor; [|now apply IH].
  intros Hin. apply Hx. apply in_map_iff in Hin.
  destruct Hin as [y [Hy Hin]]. apply filter_In in Hin.
  rewrite <- Hy. apply in_map. apply Hin.
Qed.

Lemma matching_marked task_id names prefix self :
  matching prefix
    (set_positions
       (List.map (mark task_id names) (_sample_positions_collection self)) self)
  = List.map (mark task_id names) (matching prefix self).
Proof.
  unfold matching, find. simpl. rewrite filter_map_commute. f_equal.
  apply filter_ext. intros d. unfold name_matches. now rewrite mark_name.
Qed.

Lemma population_matching prefix self :
  population prefix self = List.length (matching prefix self).
Proof. reflexivity. Qed.

Lemma existsb_name_in (d : PositionDoc.t) l :
  In d l ->
  existsb (String.eqb (PositionDoc.name d)) (List.map PositionDoc.name l) = true.
Proof.
  intros H. apply existsb_exists. exists (PositionDoc.name d).
  split; [now apply in_map|apply String.eqb_refl].
Qed.

Lemma existsb_name_out (d : PositionDoc.t) l :
  ~ In (PositionDoc.name d) (List.map PositionDoc.name l) ->
  existsb (String.eqb (PositionDoc.name d)) (List.map PositionDoc.name l)
  = false.
Proof.
  intros H. destruct (existsb _ _) eqn:E; [|reflexivity].
  apply existsb_exists in E. destruct E as [n [Hn He]].
  apply String.eqb_eq in He. subst n. contradiction.
Qed.

Lemma NoDup_app_disjoint {A} (l1 l2 : list A) a :
  NoDup (l1 ++ l2) -> In a l1 -> ~ In a l2.
Proof.
  induction l1 as [|x l1 IH]; simpl; intros Hnd Hin; [destruct Hin|].
  inversion Hnd as [|? ? Hx Hrest]; subst.
  destruct Hin as [->|Hin].
  - intros H2. apply Hx. apply in_or_app. now right.
  - now apply IH.
Qed.

(** The entries of the positions of a prefix once the first of them have
    been locked for the task. *)
Lemma entries_after_locking task_id chosen rest :
  NoDup (List.map PositionDoc.name (chosen ++ rest)) ->
  (forall d, In d (chosen ++ rest) -> PositionDoc.task_id d = None) ->
  List.map (entry_for task_id)
    (List.map (mark task_id (List.map PositionDoc.name chosen))
              (chosen ++ rest))
  = (List.map (flagged false) chosen ++ List.map (flagged true) rest)%list.
Proof.
  intros Hnd Hnone. rewrite !map_app. f_equal.
  - rewrite map_map. apply map_ext_in. intros d Hd.
    unfold entry_for, mark, flagged. rewrite (existsb_name_in d chosen Hd).
    destruct d; simpl. now rewrite N.eqb_refl.
  - rewrite map_map. apply map_ext_in. intros d Hd.
    unfold entry_for, mark, flagged. rewrite existsb_name_out.
    + rewrite (Hnone d) by (apply in_or_app; now right). reflexivity.
    + rewrite map_app in Hnd. intros Hin.
      apply (NoDup_app_disjoint _ _ _ Hnd Hin). now apply in_map.
Qed.

Lemma choose_single task_id x self g :
  choose_positions task_id [x] [] self = (Ok (Some g), self) ->
  exists result,
    get_available_sample_position task_id (SamplePositionRequest.prefix x) self
    = Ok result
    /\ result <> []
    /\ SamplePositionRequest.number x <= List.length result
    /\ g = [(SamplePositionRequest.prefix x,
             firstn (SamplePositionRequest.number x)
                    (sorted need_release_key result))].
Proof.
  cbn [choose_positions]. unfold bind, query, ret.
  destruct (get_available_sample_position _ _ self) as [result|e];
    [|discriminate].
  destruct result as [|a result]; [discriminate|].
  cbn [orb]. destruct (_ <? _)%nat eqn:E; [discriminate|].
  apply Nat.ltb_ge in E. intros H. injection H as <-.
  exists (a :: result). repeat split; [discriminate|exact E].
Qed.

Lemma request_single task_id prefix n self result :
  get_available_sample_position task_id prefix self = Ok result ->
  result <> [] ->
  n <= List.length result ->
  n <= population prefix self ->
  request_sample_positions task_id
    [SamplePositionRequest.Obj (SamplePositionRequest.mk prefix n)] self
  = (Ok (Some [(prefix, firstn n (sorted need_release_key result))]),
     after_lock false self).
Proof.
  intros Hres Hne Hlen Hpop. rewrite request_sample_positions_run. cbv zeta.
  replace (_ =? _)%nat with true
    by (symmetry; apply distinct_count_NoDup; repeat constructor; intros []).
  rewrite check_enough_positions_pass
    by (intros x [<-|[]]; exact Hpop).
  apply (with_lock_run
           (choose_positions task_id
              (List.map SamplePositionRequest.from_py_type
                 [SamplePositionRequest.Obj (SamplePositionRequest.mk prefix n)])
              [])
           self
           (Ok (Some [(prefix, firstn n (sorted need_release_key result))]))).
  cbn [List.map SamplePositionRequest.from_py_type choose_positions
       SamplePositionRequest.prefix SamplePositionRequest.number].
  unfold bind, query, ret. rewrite get_available_log_lock, Hres.
  destruct result as [|a result]; [congruence|]. cbn [orb].
  apply Nat.ltb_ge in Hlen. rewrite Hlen. reflexivity.
Qed.

Lemma entries_of_empty task_id l :
  (forall d, In d l -> PositionDoc.task_id d = None) ->
  List.map (entry_for task_id) l = List.map (flagged true) l.
Proof.
  intros H. apply map_ext_in. intros d Hd. unfold entry_for, flagged.
  now rewrite (H d Hd).
Qed.

Lemma sorted_all_fresh l :
  sorted need_release_key (List.map (flagged true) l)
  = List.map (flagged true) l.
Proof. exact (sorted_flagged_blocks [] l). Qed.

Lemma check_enough_positions_log_lock req e self :
  check_enough_positions req (log_lock e self)
  = (fst (check_enough_positions req self), log_lock e self).
Proof.
  induction req as [|x req IH]; simpl; [reflexivity|].
  unfold bind, query. simpl.
  destruct (_ <? _)%nat; [reflexivity|exact IH].
Qed.

Lemma choose_positions_log_lock task_id req acc e self :
  choose_positions task_id req acc (log_lock e self)
  = (fst (choose_positions task_id req acc self), log_lock e self).
Proof.
  revert acc. induction req as [|x req IH]; intros acc;
    cbn [choose_positions]; unfold bind, query, ret; [reflexivity|].
  rewrite get_available_log_lock.
  destruct (get_available_sample_position _ _ self) as [result|e0];
    [|reflexivity].
  destruct (_ || _); [reflexivity|apply IH].
Qed.

(** A granted request granted again: the state a request leaves differs
    from the one it found by the lock log only, so the same request
    re-issued at once is granted the very same grant. *)
Lemma request_again task_id sample_positions self self1 g :
  request_sample_positions task_id sample_positions self = (Ok (Some g), self1)
  ->
  request_sample_positions task_id sample_positions self1
  = (Ok (Some g), after_lock false self1).
Proof.
  intros Hrun.
  destruct (request_sample_positions_granted _ _ _ _ _ Hrun)
    as [-> [Hchoose [Hnd Hpop]]].
  rewrite request_sample_positions_run. cbv zeta.
  apply distinct_count_NoDup in Hnd. rewrite Hnd.
  rewrite check_enough_positions_pass by exact Hpop.
  apply (with_lock_run
           (choose_positions task_id
              (List.map SamplePositionRequest.from_py_type sample_positions)
              [])
           (after_lock false self) (Ok (Some g))).
  rewrite choose_positions_log_lock. f_equal.
  unfold after_lock. rewrite choose_positions_log_lock. simpl.
  now rewrite Hchoose.
Qed.

(** C6, as the code has it.  In every grant the list under a prefix is the
    first [number] entries of the candidates with those that need no
    release (stored owner already the requesting task) put first, each
    group in stored order.  A request does not write the owner: the same
    request re-issued at once is granted exactly the same grant, with the
    same [need_release] flags.  So, with unique position names and every
    position of the prefix EMPTY, if the request [{prefix, n}] of a task is
    granted, re-issuing it at once yields the same [n] positions with
    [need_release = true] again; and once [lock_sample_position] has been
    applied for that task to each granted position (the locks all
    succeed), the same request re-issued is granted exactly the same [n]
    positions, all with [need_release = false]. *)
Theorem reacquisition_after_locking (task_id : ObjectId) :
  (forall sample_positions self self' g,
     request_sample_positions task_id sample_positions self
     = (Ok (Some g), self') ->
     forall prefix l, In (prefix, l) g ->
       exists x result,
         In x (List.map SamplePositionRequest.from_py_type sample_positions)
         /\ prefix = SamplePositionRequest.prefix x
         /\ get_available_sample_position task_id prefix self = Ok result
         /\ l = firstn (SamplePositionRequest.number x)
                  (filter (fun a => negb (Available.need_release a)) result
                   ++ filter Available.need_release result))
  /\
  (forall sample_positions self self1 g,
     request_sample_positions task_id sample_positions self
     = (Ok (Some g), self1) ->
     request_sample_positions task_id sample_positions self1
     = (Ok (Some g), after_lock false self1))
  /\
  (forall prefix n self self1 g,
     let request :=
       [SamplePositionRequest.Obj (SamplePositionRequest.mk prefix n)] in
     NoDup (List.map PositionDoc.name (_sample_positions_collection self)) ->
     all_empty prefix self ->
     request_sample_positions task_id request self = (Ok (Some g), self1) ->
     exists chosen self2,
       chosen = firstn n (matching prefix self)
       /\ List.length chosen = n
       /\ g = [(prefix, List.map (flagged true) chosen)]
       /\ request_sample_positions task_id request self1
          = (Ok (Some [(prefix, List.map (flagged true) chosen)]),
             after_lock false self1)
       /\ for_each (granted_names g) (lock_sample_position task_id) self1
          = (Ok tt, self2)
       /\ (forall d, In d chosen ->
             stored_owner (PositionDoc.name d) self2 = Some (Some task_id))
       /\ request_sample_positions task_id request self2
          = (Ok (Some [(prefix, List.map (flagged false) chosen)]),
             after_lock false self2)).
Proof.
  split; [|split].
  - intros sample_positions self self' g Hrun prefix l Hl.
    destruct (request_sample_positions_granted _ _ _ _ _ Hrun)
      as [_ [Hchoose _]].
    assert (Hg : fst (choose_positions task_id
                        (List.map SamplePositionRequest.from_py_type
                                  sample_positions) []
                        (log_lock LockEnter self)) = Ok (Some g))
      by now rewrite Hchoose.
    destruct (choose_positions_grant _ _ _ _ _ Hg prefix l Hl)
      as [[]|[x [result [Hx [Hp [Hres ->]]]]]].
    exists x, result. rewrite get_available_log_lock in Hres.
    rewrite sorted_need_release. auto.
  - intros sample_positions self self1 g Hrun.
    exact (request_again _ _ _ _ _ Hrun).
  - intros prefix n self self1 g request Hnd Hempty Hrun.
    pose proof (request_again _ _ _ _ _ Hrun) as Hagain.
    destruct (request_sample_positions_granted _ _ _ _ _ Hrun)
      as [-> [Hchoose _]].
    destruct (choose_single _ _ _ _ Hchoose)
      as [result [Hres [Hne [Hlen Hg]]]].
    change (get_available_sample_position task_id prefix
              (log_lock LockEnter self) = Ok result) in Hres.
    change (n <= List.length result) in Hlen.
    change (g = [(prefix, firstn n (sorted need_release_key result))]) in Hg.
    subst g. rewrite get_available_log_lock in Hres.
    assert (Hpop : 0 < population prefix self).
    { destruct (population prefix self) eqn:E; [|lia].
      rewrite (get_available_unmatched task_id prefix self E) in Hres.
      discriminate. }
    assert (Hfree : free_for task_id prefix self).
    { intros d Hin Hm. destruct (Hempty d Hin Hm) as [Ho Hs]. auto. }
    assert (Hnone : forall d, In d (matching prefix self) ->
                              PositionDoc.task_id d = None).
    { intros d Hd. unfold matching, find in Hd. apply filter_In in Hd.
      now apply (Hempty d). }
    rewrite (get_available_free task_id prefix self Hnd Hfree Hpop) in Hres.
    injection Hres as <-.
    rewrite (entries_of_empty task_id _ Hnone) in *.
    rewrite length_map in Hlen.
    set (P := matching prefix self) in *.
    set (chosen := firstn n P).
    set (names := List.map PositionDoc.name chosen).
    set (self1 := after_lock false self).
    set (self2 := set_positions
                    (List.map (mark task_id names)
                              (_sample_positions_collection self1)) self1).
    assert (Hchosen_len : List.length chosen = n).
    { unfold chosen. rewrite length_firstn. lia. }
    assert (Hchosen_in : forall d, In d chosen ->
              In d (_sample_positions_collection self)
              /\ name_matches prefix d = true).
    { intros d Hd. apply firstn_subset in Hd. unfold P, matching, find in Hd.
      now apply filter_In in Hd. }
    exists chosen, self2.
    split; [reflexivity|]. split; [exact Hchosen_len|].
    rewrite sorted_all_fresh, firstn_map. fold chosen.
    split; [reflexivity|].
    split.
    { unfold request in Hagain.
      rewrite sorted_all_fresh, firstn_map in Hagain. exact Hagain. }
    assert (Hnames : granted_names [(prefix, List.map (flagged true) chosen)]
                     = names).
    { unfold granted_names, names. simpl. rewrite app_nil_r, map_map.
      reflexivity. }
    rewrite Hnames.
    split.
    { apply (lock_all task_id names self1 Hnd).
      intros position Hp. unfold names in Hp. apply in_map_iff in Hp.
      destruct Hp as [d [Hname Hd]]. destruct (Hchosen_in d Hd) as [Hin Hm].
      destruct (Hempty d Hin Hm) as [Ho Hs].
      exists d. rewrite <- Hname. repeat split; auto. }
    assert (Hnd2 : NoDup (List.map PositionDoc.name
                            (_sample_positions_collection self2))).
    { unfold self2. simpl. now rewrite map_mark_names. }
    split.
    { intros d Hd. destruct (Hchosen_in d Hd) as [Hin Hm].
      unfold stored_owner.
      assert (Hin2 : In (mark task_id names d)
                        (_sample_positions_collection self2))
        by (unfold self2; simpl; now apply in_map).
      pose proof (get_sample_position_unique self2 _ Hnd2 Hin2) as Hget.
      rewrite mark_name in Hget. rewrite Hget. simpl.
      unfold mark, names. rewrite (existsb_name_in d chosen Hd).
      now destruct d. }
    assert (Hmatch2 : matching prefix self2 = List.map (mark task_id names) P).
    { unfold self2. apply (matching_marked task_id names prefix self1). }
    assert (Hfree2 : free_for task_id prefix self2).
    { intros d2 Hin2 Hm2. unfold self2 in Hin2. simpl in Hin2.
      apply in_map_iff in Hin2. destruct Hin2 as [d [<- Hin]].
      unfold name_matches in Hm2. rewrite mark_name in Hm2.
      destruct (Hempty d Hin Hm2) as [Ho Hs]. rewrite mark_name.
      split; [|exact Hs]. unfold mark.
      destruct (existsb _ _); [right; now destruct d|now left]. }
    assert (Hpop2 : population prefix self2 = List.length P).
    { rewrite population_matching, Hmatch2. apply length_map. }
    assert (Hsplit : P = (chosen ++ skipn n P)%list)
      by (symmetry; apply firstn_skipn).
    assert (Hres2 : get_available_sample_position task_id prefix self2
                    = Ok (List.map (flagged false) chosen
                          ++ List.map (flagged true) (skipn n P))%list).
    { rewrite (get_available_free task_id prefix self2 Hnd2 Hfree2)
        by (rewrite Hpop2; unfold population, count_documents in Hpop;
            exact Hpop).
      rewrite Hmatch2. f_equal. unfold names. rewrite Hsplit at 1.
      apply entries_after_locking.
      - rewrite <- Hsplit. unfold P, matching, find.
        now apply NoDup_map_filter.
      - rewrite <- Hsplit. exact Hnone. }
    unfold request. rewrite (request_single task_id prefix n self2 _ Hres2).
    + rewrite sorted_flagged_blocks, firstn_app, length_map, Hchosen_len.
      rewrite Nat.sub_diag, firstn_0, app_nil_r.
      rewrite firstn_all2 by (rewrite length_map; lia). reflexivity.
    + intros Hnil. apply (f_equal (@List.length _)) in Hnil.
      rewrite length_app, !length_map in Hnil. simpl in Hnil.
      assert (List.length P = List.length chosen + List.length (skipn n P))
        by (rewrite Hsplit at 1; apply length_app).
      unfold population, count_documents in Hpop. fold (find (name_matches prefix) (_sample_positions_collection self)) in Hpop.
      fold (matching prefix self) in Hpop. fold P in Hpop. lia.
    + rewrite length_app, !length_map. lia.
    + rewrite Hpop2. exact Hlen.
Qed.

Lemma reacquisition_after_locking_witness :
  exists self2,
    for_each ["oven/tray/1"; "oven/tray/2"; "oven/tray/3"; "oven/tray/4"]
      (lock_sample_position 1%N) (after_lock false Ex.oven)
    = (Ok tt, self2)
    /\ request_sample_positions 1%N
         [SamplePositionRequest.Obj (SamplePositionRequest.mk "oven/tray" 4)]
         self2
       = (Ok (Some [("oven/tray",
                     [Available.mk "oven/tray/1" false;
                      Available.mk "oven/tray/2" false;
                      Available.mk "oven/tray/3" false;
                      Available.mk "oven/tray/4" false])]),
          after_lock false self2).
Proof.
  destruct (proj2 (proj2 (reacquisition_after_locking 1%N)) "oven/tray" 4
              Ex.oven (after_lock false Ex.oven)
              [("oven/tray",
                [Available.mk "oven/tray/1" true;
                 Available.mk "oven/tray/2" true;
                 Available.mk "oven/tray/3" true;
                 Available.mk "oven/tray/4" true])])
    as [chosen [self2 [Hchosen [_ [_ [_ [Hlock [_ Hagain]]]]]]]].
  - repeat constructor; simpl; intuition discriminate.
  - intros d Hd _. split; [|intros s []].
    destruct Hd as [<-|[<-|[<-|[<-|[]]]]]; reflexivity.
  - reflexivity.
  - exists self2. subst chosen. split; [exact Hlock|exact Hagain].
Defined.

(** C6 as stated fails: the four trays are EMPTY, task 1 is granted all
    four, and the same request re-issued at once is granted the same four
    with [need_release = true], the first request having written no owner. *)
Lemma reissued_request_still_needs_release :
  let request :=
    [SamplePositionRequest.Obj (SamplePositionRequest.mk "oven/tray" 4)] in
  let fresh :=
    [("oven/tray",
      [Available.mk "oven/tray/1" true; Available.mk "oven/tray/2" true;
       Available.mk "oven/tray/3" true; Available.mk "oven/tray/4" true])] in
  all_empty "oven/tray" Ex.oven
  /\ fst (request_sample_positions 1%N request Ex.oven) = Ok (Some fresh)
  /\ fst (request_sample_positions 1%N request
            (snd (request_sample_positions 1%N request Ex.oven)))
     = Ok (Some fresh).
Proof.
  cbv zeta. split; [|split; reflexivity].
  intros d Hd _. split; [|intros s []].
  destruct Hd as [<-|[<-|[<-|[<-|[]]]]]; reflexivity.
Qed.

(** * Further properties of the sample view *)

(** ** Releasing and locking *)

Lemma release_sample_position_run position self :
  release_sample_position position self
  = match get_sample_position position self with
    | None => (Raise (ValueError (Invalid_sample_position position)), self)
    | Some _ =>
        (Ok tt,
         set_positions
           (update_one (name_is position) (PositionDoc.set_task_id None)
                       (_sample_positions_collection self)) self)
    end.
Proof.
  unfold release_sample_position, bind, query, modify, raise.
  now destruct (get_sample_position position self).
Qed.

Lemma name_is_set_task_id position v x :
  name_is position x = true ->
  name_is position (PositionDoc.set_task_id v x) = true.
Proof. now destruct x. Qed.

Lemma get_sample_position_after_write position v self d :
  get_sample_position position self = Some d ->
  get_sample_position position
    (set_positions
       (update_one (name_is position) (PositionDoc.set_task_id v)
                   (_sample_positions_collection self)) self)
  = Some (PositionDoc.set_task_id v d).
Proof.
  intros Hd. unfold get_sample_position. simpl.
  apply find_one_update_one; [|exact Hd].
  intros x. apply name_is_set_task_id.
Qed.

Lemma update_one_twice {D} (q : D -> bool) (f g : D -> D) c :
  (forall x, q x = true -> q (f x) = true) ->
  update_one q g (update_one q f c)
  = update_one q (fun x => g (f x)) c.
Proof.
  intros Hq. induction c as [|x c IH]; simpl; [reflexivity|].
  destruct (q x) eqn:E; simpl.
  - now rewrite (Hq x E).
  - now rewrite E, IH.
Qed.

(** X1. [release_sample_position] raises "Invalid sample position" for a
    name no stored position carries and then writes nothing; for a known
    name it succeeds whoever owns the position, leaves the samples alone,
    and the stored owner of the position is none afterwards. *)
Theorem release_clears_owner (position : string) (self : SampleView) :
  ((forall d, In d (_sample_positions_collection self) ->
              PositionDoc.name d <> position) ->
   release_sample_position position self
   = (Raise (ValueError (Invalid_sample_position position)), self))
  /\ ((exists d, In d (_sample_positions_collection self)
                 /\ PositionDoc.name d = position) ->
      fst (release_sample_position position self) = Ok tt
      /\ stored_owner position (snd (release_sample_position position self))
         = Some None
      /\ _sample_collection (snd (release_sample_position position self))
         = _sample_collection self).
Proof.
  rewrite release_sample_position_run. split.
  - intros Hunknown.
    replace (get_sample_position position self) with (@None PositionDoc.t);
      [reflexivity|].
    symmetry. apply find_one_none_iff. intros d Hd.
    destruct (name_is position d) eqn:E; [|reflexivity].
    apply name_is_true in E. now apply Hunknown in Hd.
  - intros [d0 [Hin Hname]].
    destruct (get_sample_position_known position self d0 Hin Hname) as [d Hd].
    rewrite Hd. simpl. split; [reflexivity|]. split; [|reflexivity].
    unfold stored_owner.
    now rewrite (get_sample_position_after_write position None self d Hd).
Qed.

Lemma release_clears_owner_witness :
  stored_owner "A1" (snd (release_sample_position "A1" Ex.held_by_2))
  = Some None.
Proof.
  apply (proj2 (release_clears_owner "A1" Ex.held_by_2)).
  exists (Ex.pos "A1" (Some 2%N)). split; [now left|reflexivity].
Defined.

(** X2. Releasing is idempotent: after a release that succeeded, a second
    release of the same position succeeds and changes nothing. *)
Theorem release_twice (position : string) (self self' : SampleView) :
  release_sample_position position self = (Ok tt, self') ->
  release_sample_position position self' = (Ok tt, self').
Proof.
  rewrite release_sample_position_run.
  destruct (get_sample_position position self) as [d|] eqn:Hd; [|discriminate].
  intros H. injection H as <-.
  rewrite release_sample_position_run.
  rewrite (get_sample_position_after_write position None self d Hd).
  f_equal. simpl. rewrite set_positions_twice. f_equal.
  rewrite update_one_twice by (intros x; apply name_is_set_task_id).
  clear Hd. induction (_sample_positions_collection self) as [|x c IH];
    simpl; [reflexivity|].
  destruct (name_is position x); [now destruct x|now rewrite IH].
Qed.

Lemma release_twice_witness :
  release_sample_position "A1" Ex.one_free = (Ok tt, Ex.one_free).
Proof. apply (release_twice "A1" Ex.held_by_2). reflexivity. Defined.

(** X3. Lock and release undo each other on a free position: when the
    stored owner is none and [lock_sample_position] succeeds, the release
    that follows succeeds and gives back the ledger as it was before the
    lock. *)
Theorem lock_then_release (task_id : ObjectId) (position : string)
  (self self' : SampleView) (d : PositionDoc.t) :
  get_sample_position position self = Some d ->
  PositionDoc.task_id d = None ->
  lock_sample_position task_id position self = (Ok tt, self') ->
  release_sample_position position self' = (Ok tt, self).
Proof.
  intros Hd Hfree Hlock.
  assert (Hs : self' = locked_for task_id position self).
  { rewrite lock_sample_position_run in Hlock.
    destruct (get_sample_position_status position self) as [[[| |] c]|e];
      try destruct (eqb_oid c (Some task_id));
      try discriminate; now injection Hlock as <-. }
  subst self'. rewrite release_sample_position_run. unfold locked_for.
  rewrite (get_sample_position_after_write position (Some task_id) self d Hd).
  f_equal. simpl. rewrite set_positions_twice.
  rewrite update_one_twice by (intros x; apply name_is_set_task_id).
  rewrite (update_one_first _ _ _ d Hd);
    [apply set_positions_same|].
  destruct d; simpl in *. now subst.
Qed.

Lemma lock_then_release_witness :
  release_sample_position "A1" (locked_for 1%N "A1" Ex.one_free)
  = (Ok tt, Ex.one_free).
Proof.
  apply (lock_then_release 1%N "A1" Ex.one_free _ (Ex.pos "A1" None));
    reflexivity.
Defined.

Lemma lock_sample_position_result task_id position self self' :
  lock_sample_position task_id position self = (Ok tt, self') ->
  self' = locked_for task_id position self
  /\ exists st c,
       get_sample_position_status position self = Ok (st, c)
       /\ (st = EMPTY \/ c = Some task_id).
Proof.
  rewrite lock_sample_position_run.
  destruct (get_sample_position_status position self) as [[st c]|e];
    [|discriminate].
  destruct st.
  - intros H. injection H as <-. split; [reflexivity|].
    exists EMPTY, c. split; [reflexivity|now left].
  - destruct (eqb_oid_spec c (Some task_id)) as [->|Hne]; [|discriminate].
    intros H. injection H as <-. split; [reflexivity|].
    exists OCCUPIED, (Some task_id). split; [reflexivity|now right].
  - destruct (eqb_oid_spec c (Some task_id)) as [->|Hne]; [|discriminate].
    intros H. injection H as <-. split; [reflexivity|].
    exists LOCKED, (Some task_id). split; [reflexivity|now right].
Qed.

Lemma status_after_lock task_id position self st c :
  get_sample_position_status position self = Ok (st, c) ->
  get_sample_position_status position (locked_for task_id position self)
  = Ok (match st with
        | OCCUPIED => (OCCUPIED, c)
        | _ => (LOCKED, Some task_id)
        end).
Proof.
  intros Hst. destruct (status_known _ _ _ Hst) as [d Hd].
  unfold get_sample_position_status in *. unfold locked_for.
  rewrite (get_sample_position_after_write position (Some task_id) self d Hd).
  rewrite Hd in Hst. simpl.
  destruct (find_one (sample_at position) (_sample_collection self)).
  - now injection Hst as <- <-.
  - destruct (PositionDoc.task_id d); now injection Hst as <- _.
Qed.

Lemma locked_for_twice task_id position self :
  locked_for task_id position (locked_for task_id position self)
  = locked_for task_id position self.
Proof.
  unfold locked_for. simpl. rewrite set_positions_twice. f_equal.
  rewrite update_one_twice by (intros x; apply name_is_set_task_id).
  induction (_sample_positions_collection self) as [|x c IH]; simpl;
    [reflexivity|].
  destruct (name_is position x); [now destruct x|now rewrite IH].
Qed.

(** X4. Locking is idempotent: after [lock_sample_position] succeeded for a
    task, the same call again succeeds and changes nothing. *)
Theorem lock_twice (task_id : ObjectId) (position : string)
  (self self' : SampleView) :
  lock_sample_position task_id position self = (Ok tt, self') ->
  lock_sample_position task_id position self' = (Ok tt, self').
Proof.
  intros Hlock.
  destruct (lock_sample_position_result _ _ _ _ Hlock)
    as [-> [st [c [Hst Hav]]]].
  pose proof (status_after_lock task_id position self st c Hst) as Hst'.
  rewrite <- (locked_for_twice task_id position self) at 2.
  destruct st.
  - apply (lock_sample_position_available task_id position _ _ _ Hst').
    now right.
  - destruct Hav as [Hav|Hav]; [discriminate|].
    apply (lock_sample_position_available task_id position _ _ _ Hst').
    now right.
  - apply (lock_sample_position_available task_id position _ _ _ Hst').
    now right.
Qed.

Lemma lock_twice_witness :
  lock_sample_position 1%N "A1" (locked_for 1%N "A1" Ex.one_free)
  = (Ok tt, locked_for 1%N "A1" Ex.one_free).
Proof. apply (lock_twice 1%N "A1" Ex.one_free). reflexivity. Defined.

(** X5. A locked position is out of reach of every other task: once
    [lock_sample_position] has succeeded for a task on a position that no
    sample references, the same call for a different task raises
    "currently locked by" the holder and writes nothing, and the position
    is in no list [get_available_sample_position] returns to that other
    task. *)
Theorem locked_position_excludes_others
  (task_id other : ObjectId) (position : string) (self self' : SampleView) :
  lock_sample_position task_id position self = (Ok tt, self') ->
  (forall s, In s (_sample_collection self) ->
             SampleDoc.position s <> Some position) ->
  other <> task_id ->
  lock_sample_position other position self'
  = (Raise (ValueError (Position_currently_locked (Some task_id))), self')
  /\ forall prefix l a,
       get_available_sample_position other prefix self' = Ok l ->
       In a l -> Available.name a <> position.
Proof.
  intros Hlock Hnone Hother.
  destruct (lock_sample_position_result _ _ _ _ Hlock)
    as [-> [st [c [Hst _]]]].
  pose proof (status_after_lock task_id position self st c Hst) as Hst'.
  assert (Hfree : st <> OCCUPIED).
  { destruct (status_known _ _ _ Hst) as [d Hd].
    rewrite (status_without_sample position self d Hd Hnone) in Hst.
    destruct (PositionDoc.task_id d); injection Hst as <- _; discriminate. }
  assert (Hlocked : get_sample_position_status position
                      (locked_for task_id position self)
                    = Ok (LOCKED, Some task_id)).
  { rewrite Hst'. now destruct st. }
  split.
  - rewrite lock_sample_position_run, Hlocked.
    destruct (eqb_oid_spec (Some task_id) (Some other)) as [E|_];
      [congruence|reflexivity].
  - intros prefix l a Hl Ha Hname.
    destruct (get_available_candidates _ _ _ _ Hl a Ha)
      as [[d [st' [c' [_ [_ [Hsta Hav]]]]]] _].
    rewrite Hname, Hlocked in Hsta. injection Hsta as <- <-.
    destruct Hav as [Hav|Hav]; congruence.
Qed.

Lemma locked_position_excludes_others_witness :
  lock_sample_position 2%N "A1" (locked_for 1%N "A1" Ex.one_free)
  = (Raise (ValueError (Position_currently_locked (Some 1%N))),
     locked_for 1%N "A1" Ex.one_free).
Proof.
  apply (locked_position_excludes_others 1%N 2%N "A1" Ex.one_free).
  - reflexivity.
  - intros s [].
  - discriminate.
Defined.

Lemma positions_by_task_In position o self :
  In position (get_sample_positions_by_task o self) <->
  exists d, In d (_sample_positions_collection self)
            /\ PositionDoc.name d = position /\ PositionDoc.task_id d = o.
Proof.
  unfold get_sample_positions_by_task, find. rewrite in_map_iff. split.
  - intros [d [Hn Hd]]. apply filter_In in Hd. destruct Hd as [Hin He].
    apply eqb_oid_true in He. eauto.
  - intros [d [Hin [Hn Ho]]]. exists d. split; [exact Hn|].
    apply filter_In. split; [exact Hin|]. now apply eqb_oid_true.
Qed.

(** X6. The positions a task is listed with follow its locks: after a
    successful [lock_sample_position] the position is in
    [get_sample_positions_by_task] of the task (and in
    [LabView.get_locked_sample_positions] of its lab view); with unique
    position names, after a successful [release_sample_position] it is
    listed for no task. *)
Theorem listed_positions_follow_locks
  (task_id : ObjectId) (position : string) (self self' : SampleView) :
  (lock_sample_position task_id position self = (Ok tt, self') ->
   In position (get_sample_positions_by_task (Some task_id) self')
   /\ In position
        (LabView.get_locked_sample_positions (LabView.mk task_id) self'))
  /\ (NoDup (List.map PositionDoc.name (_sample_positions_collection self)) ->
      release_sample_position position self = (Ok tt, self') ->
      forall t, ~ In position (get_sample_positions_by_task (Some t) self')).
Proof.
  split.
  - intros Hlock.
    destruct (lock_sample_position_result _ _ _ _ Hlock)
      as [-> [st [c [Hst _]]]].
    destruct (status_known _ _ _ Hst) as [d Hd].
    assert (In position
              (get_sample_positions_by_task (Some task_id)
                 (locked_for task_id position self))) as Hin.
    { apply positions_by_task_In.
      pose proof (get_sample_position_after_write position (Some task_id)
                    self d Hd) as Hafter.
      apply get_sample_position_some in Hafter. destruct Hafter as [Hin Hn].
      exists (PositionDoc.set_task_id (Some task_id) d).
      split; [exact Hin|]. split; [exact Hn|reflexivity]. }
    split; exact Hin.
  - intros Hnd Hrel t Hin.
    rewrite release_sample_position_run in Hrel.
    destruct (get_sample_position position self); [|discriminate].
    injection Hrel as <-. apply positions_by_task_In in Hin.
    destruct Hin as [d [Hd [Hn Ho]]]. simpl in Hd.
    rewrite (update_one_unique_name _ position _ Hnd) in Hd.
    apply in_map_iff in Hd. destruct Hd as [x [Hx _]].
    destruct (name_is position x) eqn:E.
    + subst d. discriminate.
    + subst d. apply name_is_true in Hn. congruence.
Qed.

Lemma listed_positions_follow_locks_witness :
  In "A1" (get_sample_positions_by_task (Some 1%N)
             (locked_for 1%N "A1" Ex.one_free)).
Proof.
  apply (proj1 (listed_positions_follow_locks 1%N "A1" Ex.one_free
                  (locked_for 1%N "A1" Ex.one_free))).
  reflexivity.
Defined.

(** ** Failing operations *)

Lemma create_sample_run name position sample_id tags metadata now self :
  create_sample name position sample_id tags metadata now self
  = match
      match position with
      | Some p =>
          match is_unoccupied_position p self with
          | Ok true => None
          | Ok false => Some (ValueError (Requested_position_not_EMPTY p))
          | Raise e => Some e
          end
      | None => None
      end
    with
    | Some e => (Raise e, self)
    | None =>
        if has_reserved_char name
        then (Raise (ValueError (Unsupported_sample_name name)), self)
        else
          insert_sample
            (fun i => new_sample i name position tags metadata now)
            sample_id self
    end.
Proof.
  unfold create_sample, bind, query, ret, raise.
  destruct position as [p|]; simpl.
  - destruct (is_unoccupied_position p self) as [[|]|e]; simpl;
      try reflexivity.
    now destruct (has_reserved_char name).
  - now destruct (has_reserved_char name).
Qed.

Lemma move_sample_run sample_id position now self :
  move_sample sample_id position now self
  = match find_one (id_is sample_id) (_sample_collection self) with
    | None => (Raise (ValueError (Cannot_find_sample sample_id)), self)
    | Some result =>
        if eqb_ostr (SampleDoc.position result) position
        then (Ok tt, self)
        else
          match
            match position with
            | Some p =>
                match is_unoccupied_position p self with
                | Ok true => None
                | Ok false =>
                    Some (ValueError (Requested_position_not_EMPTY_or_LOCKED p))
                | Raise e => Some e
                end
            | None => None
            end
          with
          | Some e => (Raise e, self)
          | None =>
              (Ok tt,
               set_samples
                 (update_one (id_is sample_id)
                    (SampleDoc.set_position position now)
                    (_sample_collection self)) self)
          end
    end.
Proof.
  unfold move_sample, bind, query, ret, raise, modify.
  destruct (find_one (id_is sample_id) (_sample_collection self)) as [r|];
    [|reflexivity].
  destruct (eqb_ostr (SampleDoc.position r) position); [reflexivity|].
  destruct position as [p|]; simpl; [|reflexivity].
  now destruct (is_unoccupied_position p self) as [[|]|e].
Qed.

Lemma update_sample_task_id_run sample_id task_id now self :
  update_sample_task_id sample_id task_id now self
  = match find_one (id_is sample_id) (_sample_collection self) with
    | None => (Raise (ValueError (Cannot_find_sample sample_id)), self)
    | Some _ =>
        (Ok tt,
         set_samples
           (update_one (id_is sample_id) (SampleDoc.set_task_id task_id now)
                       (_sample_collection self)) self)
    end.
Proof.
  unfold update_sample_task_id, bind, query, raise, modify.
  now destruct (find_one (id_is sample_id) (_sample_collection self)).
Qed.

(** X7. The single-document operations fail cleanly: whenever
    [lock_sample_position], [release_sample_position], [create_sample],
    [update_sample_task_id], [SampleView.move_sample] or
    [LabView.move_sample] raises, it has written nothing. *)
Theorem failed_operations_write_nothing (self : SampleView) (e : exn) :
  (forall task_id position,
     fst (lock_sample_position task_id position self) = Raise e ->
     snd (lock_sample_position task_id position self) = self)
  /\ (forall position,
        fst (release_sample_position position self) = Raise e ->
        snd (release_sample_position position self) = self)
  /\ (forall name position sample_id tags metadata now,
        fst (create_sample name position sample_id tags metadata now self)
        = Raise e ->
        snd (create_sample name position sample_id tags metadata now self)
        = self)
  /\ (forall sample_id task_id now,
        fst (update_sample_task_id sample_id task_id now self) = Raise e ->
        snd (update_sample_task_id sample_id task_id now self) = self)
  /\ (forall sample_id position now,
        fst (move_sample sample_id position now self) = Raise e ->
        snd (move_sample sample_id position now self) = self)
  /\ (forall lab_view sample_id position now,
        fst (LabView.move_sample lab_view sample_id position now self)
        = Raise e ->
        snd (LabView.move_sample lab_view sample_id position now self) = self).
Proof.
  assert (Hmove : forall sample_id position now,
            fst (move_sample sample_id position now self) = Raise e ->
            snd (move_sample sample_id position now self) = self).
  { intros sample_id position now. rewrite move_sample_run.
    destruct (find_one _ _); [|reflexivity].
    destruct (eqb_ostr _ _); [reflexivity|].
    destruct position as [p|]; [|discriminate].
    destruct (is_unoccupied_position p self) as [[|]|e']; simpl;
      [discriminate|reflexivity|reflexivity]. }
  split; [|split; [|split; [|split; [|split]]]].
  - intros task_id position. rewrite lock_sample_position_run.
    destruct (get_sample_position_status position self) as [[[| |] c]|e'];
      try destruct (eqb_oid c (Some task_id)); simpl;
      try discriminate; reflexivity.
  - intros position. rewrite release_sample_position_run.
    destruct (get_sample_position position self); [discriminate|reflexivity].
  - intros name position sample_id tags metadata now.
    rewrite create_sample_run.
    destruct position as [p|];
      [destruct (is_unoccupied_position p self) as [[|]|e']|];
      try reflexivity;
      (destruct (has_reserved_char name); [reflexivity|];
       unfold insert_sample; destruct (existsb _ _);
       [reflexivity|discriminate]).
  - intros sample_id task_id now. rewrite update_sample_task_id_run.
    destruct (find_one _ _); [discriminate|reflexivity].
  - exact Hmove.
  - intros lab_view sample_id position now. rewrite LabView_move_sample_run.
    destruct position as [p|].
    + destruct (get_sample_position_status p self) as [[st c]|e'];
        [|reflexivity].
      destruct (eqb_oid c _); [|reflexivity].
      destruct (get_sample sample_id self); [|reflexivity].
      destruct (eqb_oid _ _); [apply Hmove|reflexivity].
    + destruct (get_sample sample_id self); [|reflexivity].
      destruct (eqb_oid _ _); [apply Hmove|reflexivity].
Qed.

Lemma failed_operations_write_nothing_witness :
  snd (lock_sample_position 1%N "A1" Ex.held_by_2) = Ex.held_by_2.
Proof.
  apply (proj1 (failed_operations_write_nothing Ex.held_by_2
                  (ValueError (Position_currently_locked (Some 2%N))))).
  reflexivity.
Defined.

(** ** Samples *)

Lemma find_one_update_one_other {D} (q r : D -> bool) (upd : D -> D) c :
  (forall x, r (upd x) = r x) ->
  (forall x, q x = true -> r x = false) ->
  find_one r (update_one q upd c) = find_one r c.
Proof.
  intros Hr Hqr. unfold find_one.
  induction c as [|x c IH]; simpl; [reflexivity|].
  destruct (q x) eqn:E; simpl.
  - now rewrite Hr, (Hqr x E).
  - now rewrite IH.
Qed.

Lemma get_sample_of_doc sample_id self doc :
  find_one (id_is sample_id) (_sample_collection self) = Some doc ->
  get_sample sample_id self
  = Ok (Sample.mk (SampleDoc._id doc) (SampleDoc.name doc)
          (SampleDoc.position doc) (SampleDoc.task_id doc)
          (SampleDoc.metadata doc) (SampleDoc.tags doc)).
Proof. intros H. unfold get_sample. now rewrite H. Qed.

Lemma get_sample_unknown sample_id self :
  find_one (id_is sample_id) (_sample_collection self) = None ->
  get_sample sample_id self = Raise (ValueError (No_sample_found sample_id)).
Proof. intros H. unfold get_sample. now rewrite H. Qed.

Lemma get_sample_other_update sample_id other upd self :
  (forall x, SampleDoc._id (upd x) = SampleDoc._id x) ->
  other <> sample_id ->
  get_sample other
    (set_samples (update_one (id_is sample_id) upd (_sample_collection self))
                 self)
  = get_sample other self.
Proof.
  intros Hid Hne. unfold get_sample. simpl.
  rewrite find_one_update_one_other; [reflexivity| |].
  - intros x. unfold id_is. now rewrite Hid.
  - intros x Hx. apply id_is_true in Hx. unfold id_is.
    apply N.eqb_neq. congruence.
Qed.

(** X8. [update_sample_task_id] raises "Cannot find sample" for an id not
    in the collection.  For a sample that is there it succeeds, and
    afterwards [get_sample] returns the same sample with the new owning
    task; every other sample and every position is as before. *)
Theorem update_sample_task_id_sets_owner
  (sample_id : ObjectId) (task_id : option ObjectId) (now : datetime)
  (self : SampleView) :
  ((forall s, In s (_sample_collection self) -> SampleDoc._id s <> sample_id)
   -> update_sample_task_id sample_id task_id now self
      = (Raise (ValueError (Cannot_find_sample sample_id)), self))
  /\ (forall sample,
        get_sample sample_id self = Ok sample ->
        exists self',
          update_sample_task_id sample_id task_id now self = (Ok tt, self')
          /\ get_sample sample_id self'
             = Ok (Sample.mk (Sample.sample_id sample) (Sample.name sample)
                     (Sample.position sample) task_id
                     (Sample.metadata sample) (Sample.tags sample))
          /\ (forall other, other <> sample_id ->
                get_sample other self' = get_sample other self)
          /\ _sample_positions_collection self'
             = _sample_positions_collection self).
Proof.
  rewrite update_sample_task_id_run. split.
  - intros Hunknown.
    replace (find_one (id_is sample_id) (_sample_collection self))
      with (@None SampleDoc.t); [reflexivity|].
    symmetry. apply find_one_none_iff. intros s Hs.
    destruct (id_is sample_id s) eqn:E; [|reflexivity].
    apply id_is_true in E. now apply Hunknown in Hs.
  - intros sample Hget. unfold get_sample in Hget.
    destruct (find_one (id_is sample_id) (_sample_collection self))
      as [doc|] eqn:Hdoc; [|discriminate].
    injection Hget as <-. eexists. split; [reflexivity|]. split; [|split].
    + unfold get_sample. simpl.
      rewrite (find_one_update_one (id_is sample_id) _ _ doc);
        [reflexivity| |exact Hdoc].
      intros x Hx. exact Hx.
    + intros other Hne. apply get_sample_other_update; [|exact Hne].
      intros x. reflexivity.
    + reflexivity.
Qed.

Lemma update_sample_task_id_sets_owner_witness :
  exists self',
    update_sample_task_id 7%N (Some 3%N) 9%Z Ex.own_sample_on_P1
    = (Ok tt, self')
    /\ get_sample 7%N self'
       = Ok (Sample.mk 7%N "sample" (Some "P1") (Some 3%N) [] []).
Proof.
  destruct (proj2 (update_sample_task_id_sets_owner 7%N (Some 3%N) 9%Z
                     Ex.own_sample_on_P1)
              (Sample.mk 7%N "sample" (Some "P1") (Some 1%N) [] []) eq_refl)
    as [self' [Hrun [Hget _]]].
  exists self'. split; [exact Hrun|exact Hget].
Defined.

Lemma count_positive_iff_found sample_id self :
  (0 <? count_documents (id_is sample_id) (_sample_collection self))%nat = true
  <-> exists sample, get_sample sample_id self = Ok sample.
Proof.
  unfold count_documents, get_sample, find_one.
  induction (_sample_collection self) as [|x c IH]; simpl.
  - split; [discriminate|]. intros [s H]. discriminate.
  - destruct (id_is sample_id x); simpl; [|exact IH].
    split; [eauto|reflexivity].
Qed.

Lemma count_zero_iff_missing sample_id self :
  (0 <? count_documents (id_is sample_id) (_sample_collection self))%nat = false
  <-> get_sample sample_id self = Raise (ValueError (No_sample_found sample_id)).
Proof.
  unfold count_documents, get_sample, find_one.
  induction (_sample_collection self) as [|x c IH]; simpl.
  - split; reflexivity.
  - destruct (id_is sample_id x); simpl; [|exact IH].
    split; discriminate.
Qed.

(** X9. [exists] converts what it is given with [ObjectId(...)] and then
    agrees with [get_sample]: for an [ObjectId], or a string that writes
    one, it is true exactly when [get_sample] of that id returns a sample
    and false exactly when [get_sample] raises "No sample found"; for a
    string that writes no id it raises [InvalidId]. *)
Theorem exists_iff_get_sample
  (ObjectId_of_str : string -> option ObjectId)
  (sample_id : ObjectId_or_str) (self : SampleView) :
  (forall i,
     sample_id = Oid i
     \/ (exists s, sample_id = OidStr s /\ ObjectId_of_str s = Some i) ->
     (exists_ ObjectId_of_str sample_id self = inr true <->
      exists sample, get_sample i self = Ok sample)
     /\ (exists_ ObjectId_of_str sample_id self = inr false <->
         get_sample i self = Raise (ValueError (No_sample_found i))))
  /\ (forall s,
        sample_id = OidStr s -> ObjectId_of_str s = None ->
        exists_ ObjectId_of_str sample_id self = inl (Invalid_id s)).
Proof.
  split.
  - intros i Hid.
    assert (Hrun : exists_ ObjectId_of_str sample_id self
                   = inr (0 <? count_documents (id_is i)
                                 (_sample_collection self))%nat).
    { unfold exists_, to_ObjectId.
      destruct Hid as [->|[s [-> Hs]]]; [reflexivity|now rewrite Hs]. }
    rewrite Hrun. split.
    + rewrite <- count_positive_iff_found. split; congruence.
    + rewrite <- count_zero_iff_missing. split; congruence.
  - intros s -> Hs. unfold exists_, to_ObjectId. now rewrite Hs.
Qed.

Lemma exists_iff_get_sample_witness :
  exists_ (fun s => if String.eqb s "000000000000000000000007"
                    then Some 7%N else None)
    (OidStr "000000000000000000000007") Ex.own_sample_on_P1
  = inr true.
Proof.
  apply (proj1 (exists_iff_get_sample
                  (fun s => if String.eqb s "000000000000000000000007"
                            then Some 7%N else None)
                  (OidStr "000000000000000000000007") Ex.own_sample_on_P1)
           7%N).
  - right. exists "000000000000000000000007". split; reflexivity.
  - eexists. reflexivity.
Defined.

Lemma is_unoccupied_true p self :
  is_unoccupied_position p self = Ok true ->
  (exists d, get_sample_position p self = Some d)
  /\ find_one (sample_at p) (_sample_collection self) = None.
Proof.
  unfold is_unoccupied_position, get_sample_position_status.
  destruct (get_sample_position p self) as [d|]; [|discriminate].
  destruct (find_one (sample_at p) (_sample_collection self));
    [discriminate|]. eauto.
Qed.

Lemma create_sample_success name position sample_id tags metadata now self
  i self' :
  create_sample name position sample_id tags metadata now self = (Ok i, self')
  ->
  has_reserved_char name = false
  /\ (forall p, position = Some p -> is_unoccupied_position p self = Ok true)
  /\ existsb (id_is i) (_sample_collection self) = false
  /\ (forall j, sample_id = Some j -> i = j)
  /\ self'
     = set_samples
         (_sample_collection self
          ++ [new_sample i name position tags metadata now]) self.
Proof.
  rewrite create_sample_run.
  assert (Hins : has_reserved_char name = false ->
            insert_sample
              (fun i0 => new_sample i0 name position tags metadata now)
              sample_id self = (Ok i, self') ->
            existsb (id_is i) (_sample_collection self) = false
            /\ (forall j, sample_id = Some j -> i = j)
            /\ self'
               = set_samples
                   (_sample_collection self
                    ++ [new_sample i name position tags metadata now]) self).
  { intros _. unfold insert_sample.
    destruct (existsb _ _) eqn:E; [discriminate|].
    intros H. injection H as <- <-. split; [exact E|].
    split; [|reflexivity]. intros j ->. reflexivity. }
  destruct position as [p|].
  - destruct (is_unoccupied_position p self) as [[|]|e] eqn:Eu;
      try discriminate.
    destruct (has_reserved_char name) eqn:En; [discriminate|].
    intros H. destruct (Hins eq_refl H) as [H1 [H2 H3]].
    repeat split; try assumption. intros p' Hp. now injection Hp as <-.
  - destruct (has_reserved_char name) eqn:En; [discriminate|].
    intros H. destruct (Hins eq_refl H) as [H1 [H2 H3]].
    repeat split; try assumption. discriminate.
Qed.

Lemma existsb_false_find_one {D} (q : D -> bool) c :
  existsb q c = false -> forall x, In x c -> q x = false.
Proof.
  intros H x Hx. destruct (q x) eqn:E; [|reflexivity].
  assert (existsb q c = true) by (apply existsb_exists; eauto). congruence.
Qed.

Lemma find_one_app_first {D} (q : D -> bool) c c' d :
  find_one q c = Some d -> find_one q (c ++ c') = Some d.
Proof.
  unfold find_one. induction c as [|x c IH]; simpl; [discriminate|].
  destruct (q x); [trivial|exact IH].
Qed.

Lemma find_one_app_none {D} (q : D -> bool) c c' :
  find_one q c = None -> find_one q (c ++ c') = find_one q c'.
Proof.
  unfold find_one. induction c as [|x c IH]; simpl; [reflexivity|].
  destruct (q x); [discriminate|exact IH].
Qed.

Lemma exists_when_found ObjectId_of_str sample_id self sample :
  get_sample sample_id self = Ok sample ->
  exists_ ObjectId_of_str (Oid sample_id) self = inr true.
Proof.
  intros H. unfold exists_, to_ObjectId. f_equal.
  apply count_positive_iff_found. eauto.
Qed.

(** X10. Round trip of [create_sample] and [get_sample]: when
    [create_sample] returns an id, [get_sample] of that id returns the
    sample with the given name and position, the given tags and metadata
    (empty when omitted) and no owning task; [exists] is true for it; the
    samples that were there are read as before and no position document is
    touched. *)
Theorem create_then_get
  (name : string) (position : option string) (sample_id : option ObjectId)
  (tags : option (list string)) (metadata : option (list (string * string)))
  (now : datetime) (self self' : SampleView) (i : ObjectId) :
  create_sample name position sample_id tags metadata now self = (Ok i, self')
  ->
  get_sample i self'
  = Ok (Sample.mk i name position None (or_default metadata [])
          (or_default tags []))
  /\ (forall ObjectId_of_str,
        exists_ ObjectId_of_str (Oid i) self' = inr true)
  /\ (forall j sample, get_sample j self = Ok sample ->
        get_sample j self' = Ok sample)
  /\ _sample_positions_collection self' = _sample_positions_collection self.
Proof.
  intros Hrun.
  destruct (create_sample_success _ _ _ _ _ _ _ _ _ Hrun)
    as [_ [_ [Hfresh [_ ->]]]].
  assert (Hget : get_sample i
                   (set_samples
                      (_sample_collection self
                       ++ [new_sample i name position tags metadata now]) self)
                 = Ok (Sample.mk i name position None (or_default metadata [])
                         (or_default tags []))).
  { unfold get_sample. simpl. rewrite find_one_app_last; [reflexivity| |].
    - apply existsb_false_find_one. exact Hfresh.
    - apply id_is_true. reflexivity. }
  split; [exact Hget|]. split; [|split; [|reflexivity]].
  - intros of_str. exact (exists_when_found of_str _ _ _ Hget).
  - intros j sample Hj. unfold get_sample in *. simpl.
    destruct (find_one (id_is j) (_sample_collection self)) as [doc|] eqn:E;
      [|discriminate].
    now rewrite (find_one_app_first _ _ _ _ E).
Qed.

Lemma create_then_get_witness :
  get_sample 1%N
    (snd (create_sample "pellet" (Some "A1") None (Some ["ore"]) None 5%Z
            Ex.held_by_2))
  = Ok (Sample.mk 1%N "pellet" (Some "A1") None [] ["ore"]).
Proof.
  apply (create_then_get "pellet" (Some "A1") None (Some ["ore"]) None 5%Z
           Ex.held_by_2).
  reflexivity.
Defined.

Lemma status_occupied_by p self s :
  (exists d, get_sample_position p self = Some d) ->
  find_one (sample_at p) (_sample_collection self) = Some s ->
  get_sample_position_status p self = Ok (OCCUPIED, SampleDoc.task_id s).
Proof.
  intros [d Hd] Hs. unfold get_sample_position_status. now rewrite Hd, Hs.
Qed.

(** X11. A position takes one sample: once [create_sample] has put a
    sample on a position, the occupancy resolver reports the position
    OCCUPIED with no task (the new sample has none), and every further
    [create_sample] on that position raises "is not EMPTY" and writes
    nothing. *)
Theorem create_sample_occupies_position
  (name p : string) (sample_id : option ObjectId) (tags : option (list string))
  (metadata : option (list (string * string))) (now : datetime)
  (self self' : SampleView) (i : ObjectId) :
  create_sample name (Some p) sample_id tags metadata now self = (Ok i, self')
  ->
  get_sample_position_status p self' = Ok (OCCUPIED, None)
  /\ forall name' sample_id' tags' metadata' now',
       create_sample name' (Some p) sample_id' tags' metadata' now' self'
       = (Raise (ValueError (Requested_position_not_EMPTY p)), self').
Proof.
  intros Hrun.
  destruct (create_sample_success _ _ _ _ _ _ _ _ _ Hrun)
    as [_ [Hfree [_ [_ ->]]]].
  destruct (is_unoccupied_true p self (Hfree p eq_refl)) as [Hknown Hnone].
  assert (Hst : get_sample_position_status p
                  (set_samples
                     (_sample_collection self
                      ++ [new_sample i name (Some p) tags metadata now]) self)
                = Ok (OCCUPIED, None)).
  { apply (status_occupied_by p _
             (new_sample i name (Some p) tags metadata now)).
    - exact Hknown.
    - simpl. rewrite (find_one_app_none _ _ _ Hnone). simpl.
      unfold sample_at. simpl. now rewrite String.eqb_refl. }
  split; [exact Hst|].
  intros name' sample_id' tags' metadata' now'.
  rewrite create_sample_run. unfold is_unoccupied_position. now rewrite Hst.
Qed.

Lemma create_sample_occupies_position_witness :
  create_sample "second" (Some "A1") None None None 6%Z
    (snd (create_sample "first" (Some "A1") None None None 5%Z Ex.one_free))
  = (Raise (ValueError (Requested_position_not_EMPTY "A1")),
     snd (create_sample "first" (Some "A1") None None None 5%Z Ex.one_free)).
Proof.
  apply (create_sample_occupies_position "first" "A1" None None None 5%Z
           Ex.one_free _ 1%N).
  reflexivity.
Defined.

Lemma find_one_moved sample_id p now c doc :
  find_one (sample_at p) c = None ->
  find_one (id_is sample_id) c = Some doc ->
  find_one (sample_at p)
    (update_one (id_is sample_id) (SampleDoc.set_position (Some p) now) c)
  = Some (SampleDoc.set_position (Some p) now doc).
Proof.
  unfold find_one. induction c as [|x c IH]; simpl; [discriminate|].
  destruct (sample_at p x) eqn:Ex; [discriminate|].
  destruct (id_is sample_id x) eqn:Ei; simpl.
  - intros _ H. injection H as <-. unfold sample_at. simpl.
    now rewrite String.eqb_refl.
  - rewrite Ex. exact IH.
Qed.

(** What a move that goes through does. *)
Lemma move_sample_effect sample_id position now self sample :
  get_sample sample_id self = Ok sample ->
  Sample.position sample <> position ->
  (forall p, position = Some p -> is_unoccupied_position p self = Ok true) ->
  let self' :=
    set_samples
      (update_one (id_is sample_id) (SampleDoc.set_position position now)
                  (_sample_collection self)) self in
  move_sample sample_id position now self = (Ok tt, self')
  /\ get_sample sample_id self'
     = Ok (Sample.mk (Sample.sample_id sample) (Sample.name sample) position
             (Sample.task_id sample) (Sample.metadata sample)
             (Sample.tags sample))
  /\ (forall p, position = Some p ->
        get_sample_position_status p self'
        = Ok (OCCUPIED, Sample.task_id sample)).
Proof.
  intros Hget Hpos Hfree self'.
  unfold get_sample in Hget.
  destruct (find_one (id_is sample_id) (_sample_collection self))
    as [doc|] eqn:Hdoc; [|discriminate].
  injection Hget as <-. simpl in Hpos. split; [|split].
  - rewrite move_sample_run, Hdoc.
    destruct (eqb_ostr_spec (SampleDoc.position doc) position) as [E|_];
      [contradiction|].
    destruct position as [p|]; [|reflexivity].
    now rewrite (Hfree p eq_refl).
  - unfold get_sample, self'. simpl.
    rewrite (find_one_update_one (id_is sample_id) _ _ doc);
      [reflexivity| |exact Hdoc].
    intros x Hx. exact Hx.
  - intros p ->. destruct (is_unoccupied_true p self (Hfree p eq_refl))
      as [Hknown Hnone].
    apply (status_occupied_by p self'
             (SampleDoc.set_position (Some p) now doc)).
    + exact Hknown.
    + unfold self'. simpl. now apply find_one_moved.
Qed.

(** X12. Round trip of [move_sample] and [get_sample]: a sample that exists
    can always be moved to no position, and to any position the occupancy
    resolver does not report OCCUPIED.  Afterwards [get_sample] returns
    the sample at the destination, otherwise unchanged; a destination
    position is then OCCUPIED with the task of the sample; the other samples
    and all position documents (so every lock) are as before. *)
Theorem move_then_get
  (sample_id : ObjectId) (position : option string) (now : datetime)
  (self : SampleView) (sample : Sample.t) :
  get_sample sample_id self = Ok sample ->
  (forall p, position = Some p -> is_unoccupied_position p self = Ok true) ->
  exists self',
    move_sample sample_id position now self = (Ok tt, self')
    /\ get_sample sample_id self'
       = Ok (Sample.mk (Sample.sample_id sample) (Sample.name sample) position
               (Sample.task_id sample) (Sample.metadata sample)
               (Sample.tags sample))
    /\ (forall p, position = Some p ->
          get_sample_position_status p self'
          = Ok (OCCUPIED, Sample.task_id sample))
    /\ (forall other, other <> sample_id ->
          get_sample other self' = get_sample other self)
    /\ _sample_positions_collection self' = _sample_positions_collection self.
Proof.
  intros Hget Hfree.
  destruct (eqb_ostr_spec (Sample.position sample) position) as [Heq|Hne].
  - assert (Hnone : position = None).
    { destruct position as [p|]; [|reflexivity].
      destruct (is_unoccupied_true p self (Hfree p eq_refl)) as [_ Hnone].
      destruct (get_sample_found _ _ _ Hget) as [doc [Hdoc [Hp _]]].
      apply find_one_some in Hdoc. destruct Hdoc as [Hin _].
      rewrite find_one_none_iff in Hnone. specialize (Hnone doc Hin).
      unfold sample_at in Hnone. rewrite Hp, Heq in Hnone. simpl in Hnone.
      now rewrite String.eqb_refl in Hnone. }
    exists self. rewrite (move_sample_in_place _ _ _ _ _ Hget Heq).
    split; [reflexivity|]. split.
    + rewrite Hget. f_equal. destruct sample; simpl in *. now subst.
    + split; [intros p Hp; congruence|]. split; reflexivity.
  - destruct (move_sample_effect sample_id position now self sample
                Hget Hne Hfree) as [Hrun [Hafter Hst]].
    eexists. split; [exact Hrun|]. split; [exact Hafter|].
    split; [exact Hst|]. split; [|reflexivity].
    intros other Hother. apply get_sample_other_update; [|exact Hother].
    intros x. reflexivity.
Qed.

Lemma move_then_get_witness :
  exists self',
    move_sample 7%N None 8%Z Ex.own_sample_on_P1 = (Ok tt, self')
    /\ get_sample 7%N self' = Ok (Sample.mk 7%N "sample" None (Some 1%N) [] []).
Proof.
  destruct (move_then_get 7%N None 8%Z Ex.own_sample_on_P1
              (Sample.mk 7%N "sample" (Some "P1") (Some 1%N) [] []))
    as [self' [Hrun [Hget _]]].
  - reflexivity.
  - discriminate.
  - exists self'. split; [exact Hrun|exact Hget].
Defined.

(** X13. Lock, then move: when a position is LOCKED by the task of a lab
    view and the sample belongs to that task, [LabView.move_sample] puts
    the sample there.  The position is then OCCUPIED with that task, and
    its owner field still holds the task: moving does not release the
    lock. *)
Theorem move_into_locked_position
  (lab_view : LabView.t) (sample_id : ObjectId) (p : string) (now : datetime)
  (self : SampleView) (sample : Sample.t) :
  get_sample_position_status p self
  = Ok (LOCKED, Some (LabView._task_id lab_view)) ->
  get_sample sample_id self = Ok sample ->
  Sample.task_id sample = Some (LabView._task_id lab_view) ->
  exists self',
    LabView.move_sample lab_view sample_id (Some p) now self = (Ok tt, self')
    /\ get_sample sample_id self'
       = Ok (Sample.mk (Sample.sample_id sample) (Sample.name sample) (Some p)
               (Sample.task_id sample) (Sample.metadata sample)
               (Sample.tags sample))
    /\ get_sample_position_status p self'
       = Ok (OCCUPIED, Some (LabView._task_id lab_view))
    /\ stored_owner p self' = Some (Some (LabView._task_id lab_view)).
Proof.
  intros Hst Hget Htask.
  assert (Hfree : forall q, Some p = Some q ->
                            is_unoccupied_position q self = Ok true).
  { intros q Hq. injection Hq as <-. unfold is_unoccupied_position.
    now rewrite Hst. }
  assert (Hne : Sample.position sample <> Some p).
  { intros Hat. destruct (is_unoccupied_true p self (Hfree p eq_refl))
      as [_ Hnone].
    destruct (get_sample_found _ _ _ Hget) as [doc [Hdoc [Hp _]]].
    apply find_one_some in Hdoc. destruct Hdoc as [Hin _].
    rewrite find_one_none_iff in Hnone. specialize (Hnone doc Hin).
    unfold sample_at in Hnone. rewrite Hp, Hat in Hnone. simpl in Hnone.
    now rewrite String.eqb_refl in Hnone. }
  destruct (move_sample_effect sample_id (Some p) now self sample
              Hget Hne Hfree) as [Hrun [Hafter Hocc]].
  eexists. split; [|split; [exact Hafter|split]].
  - rewrite LabView_move_sample_run, Hst, eqb_oid_refl, Hget, Htask,
      eqb_oid_refl. exact Hrun.
  - rewrite (Hocc p eq_refl). now rewrite Htask.
  - unfold stored_owner. simpl.
    unfold get_sample_position_status in Hst. unfold get_sample_position in *.
    simpl.
    destruct (find_one (name_is p) (_sample_positions_collection self))
      as [d|]; [|discriminate].
    destruct (find_one (sample_at p) (_sample_collection self));
      [discriminate|].
    destruct (PositionDoc.task_id d) as [t|] eqn:Et; [|discriminate].
    injection Hst as <-. simpl. now rewrite Et.
Qed.

Lemma move_into_locked_position_witness :
  exists self',
    LabView.move_sample (LabView.mk 2%N) 7%N (Some "A1") 8%Z
      (mkSampleView [Ex.smp 7%N None (Some 2%N)] [Ex.pos "A1" (Some 2%N)] [])
    = (Ok tt, self')
    /\ get_sample_position_status "A1" self' = Ok (OCCUPIED, Some 2%N).
Proof.
  destruct (move_into_locked_position (LabView.mk 2%N) 7%N "A1" 8%Z
              (mkSampleView [Ex.smp 7%N None (Some 2%N)]
                            [Ex.pos "A1" (Some 2%N)] [])
              (Sample.mk 7%N "sample" None (Some 2%N) [] []))
    as [self' [Hrun [_ [Hst _]]]]; try reflexivity.
  exists self'. split; [exact Hrun|exact Hst].
Defined.

(** ** One sample per position *)

Lemma count_documents_none {D} (q : D -> bool) c :
  find_one q c = None -> count_documents q c = 0.
Proof.
  unfold find_one, count_documents.
  induction c as [|x c IH]; simpl; [reflexivity|].
  destruct (q x); [discriminate|exact IH].
Qed.

Lemma count_documents_app {D} (q : D -> bool) c c' :
  count_documents q (c ++ c') = count_documents q c + count_documents q c'.
Proof. unfold count_documents. now rewrite filter_app, length_app. Qed.

Lemma count_documents_update_same {D} (q r : D -> bool) (upd : D -> D) c :
  (forall x, q (upd x) = q x) ->
  count_documents q (update_one r upd c) = count_documents q c.
Proof.
  intros Hq. unfold count_documents.
  induction c as [|x c IH]; simpl; [reflexivity|].
  destruct (r x); simpl.
  - rewrite Hq. now destruct (q x).
  - destruct (q x); simpl; now rewrite IH.
Qed.

Lemma count_documents_moved sample_id position now q c :
  count_documents (sample_at q)
    (update_one (id_is sample_id) (SampleDoc.set_position position now) c)
  <= count_documents (sample_at q) c
     + (if eqb_ostr position (Some q) then 1 else 0).
Proof.
  unfold count_documents. induction c as [|x c IH]; simpl; [lia|].
  destruct (id_is sample_id x); simpl.
  - unfold sample_at at 1. simpl.
    destruct (eqb_ostr position (Some q)); destruct (sample_at q x);
      simpl; lia.
  - destruct (sample_at q x); simpl; lia.
Qed.

Lemma move_sample_keeps_one_per_position sample_id position now self :
  one_sample_per_position self ->
  one_sample_per_position (snd (move_sample sample_id position now self)).
Proof.
  intros Hinv. rewrite move_sample_run.
  destruct (find_one (id_is sample_id) (_sample_collection self));
    [|exact Hinv].
  destruct (eqb_ostr _ position); [exact Hinv|].
  destruct position as [p|].
  - destruct (is_unoccupied_position p self) as [[|]|e] eqn:Eu;
      [|exact Hinv|exact Hinv].
    destruct (is_unoccupied_true p self Eu) as [_ Hnone].
    intros q. simpl.
    pose proof (count_documents_moved sample_id (Some p) now q
                  (_sample_collection self)) as Hle.
    destruct (eqb_ostr_spec (Some p) (Some q)) as [E|_].
    + injection E as <-. rewrite (count_documents_none _ _ Hnone) in Hle. lia.
    + specialize (Hinv q). lia.
  - intros q. simpl.
    pose proof (count_documents_moved sample_id None now q
                  (_sample_collection self)) as Hle.
    simpl in Hle. specialize (Hinv q). lia.
Qed.

(** X14. No position comes to hold two samples: if no position is
    referenced by more than one sample, this is still so after
    [create_sample], [update_sample_task_id], [SampleView.move_sample] and
    [LabView.move_sample], whatever their arguments and whether they
    return or raise. *)
Theorem one_sample_per_position_kept (self : SampleView) :
  one_sample_per_position self ->
  (forall name position sample_id tags metadata now,
     one_sample_per_position
       (snd (create_sample name position sample_id tags metadata now self)))
  /\ (forall sample_id task_id now,
        one_sample_per_position
          (snd (update_sample_task_id sample_id task_id now self)))
  /\ (forall sample_id position now,
        one_sample_per_position (snd (move_sample sample_id position now self)))
  /\ (forall lab_view sample_id position now,
        one_sample_per_position
          (snd (LabView.move_sample lab_view sample_id position now self))).
Proof.
  intros Hinv. split; [|split; [|split]].
  - intros name position sample_id tags metadata now.
    destruct (create_sample name position sample_id tags metadata now self)
      as [[i|e] self'] eqn:Hrun.
    + destruct (create_sample_success _ _ _ _ _ _ _ _ _ Hrun)
        as [_ [Hfree [_ [_ ->]]]].
      intros q. simpl. rewrite count_documents_app.
      unfold count_documents at 2. simpl. unfold sample_at at 2. simpl.
      destruct (eqb_ostr_spec position (Some q)) as [->|_]; simpl.
      * destruct (is_unoccupied_true q self (Hfree q eq_refl)) as [_ Hnone].
        rewrite (count_documents_none _ _ Hnone). lia.
      * specialize (Hinv q). lia.
    + assert (Hsame : snd (create_sample name position sample_id tags
                             metadata now self) = self).
      { rewrite create_sample_run in *.
        destruct position as [p|];
          [destruct (is_unoccupied_position p self) as [[|]|e']|];
          try reflexivity;
          (destruct (has_reserved_char name); [reflexivity|];
           unfold insert_sample in *; destruct (existsb _ _);
           [reflexivity|discriminate]). }
      rewrite Hrun in Hsame. simpl in Hsame. simpl. now rewrite Hsame.
  - intros sample_id task_id now. rewrite update_sample_task_id_run.
    destruct (find_one _ _); [|exact Hinv].
    intros q. simpl. rewrite count_documents_update_same; [apply Hinv|].
    intros x. reflexivity.
  - intros sample_id position now.
    now apply move_sample_keeps_one_per_position.
  - intros lab_view sample_id position now. rewrite LabView_move_sample_run.
    destruct position as [p|].
    + destruct (get_sample_position_status p self) as [[st c]|e'];
        [|exact Hinv].
      destruct (eqb_oid c _); [|exact Hinv].
      destruct (get_sample sample_id self); [|exact Hinv].
      destruct (eqb_oid _ _); [|exact Hinv].
      now apply move_sample_keeps_one_per_position.
    + destruct (get_sample sample_id self); [|exact Hinv].
      destruct (eqb_oid _ _); [|exact Hinv].
      now apply move_sample_keeps_one_per_position.
Qed.

Lemma one_sample_per_position_kept_witness :
  one_sample_per_position
    (snd (move_sample 7%N None 8%Z Ex.own_sample_on_P1)).
Proof.
  apply (one_sample_per_position_kept Ex.own_sample_on_P1).
  intros p. unfold count_documents. simpl.
  destruct (sample_at p (Ex.smp 7%N (Some "P1") (Some 1%N))); simpl; lia.
Defined.

(** ** Registering positions *)

Section AddSamplePositionsInvariants.
Variable SEPARATOR : string.
Variable parent_device_name : option string.

Let name_of (it : SamplePosition.t * nat) : string :=
  position_name SEPARATOR (fst it) parent_device_name (snd it).

Let step (now : datetime) (it : SamplePosition.t * nat) : M SampleView unit :=
  add_one_position SEPARATOR (fst it) parent_device_name now (snd it).

Lemma add_flat now sample_positions self :
  add_sample_positions_to_db SEPARATOR sample_positions parent_device_name
    now self
  = for_each (iterations sample_positions) (step now) self.
Proof. apply add_sample_positions_to_db_flat. Qed.

Lemma step_cases now it self :
  (has_reserved_char (name_of it) = true
   /\ step now it self
      = (Raise (ValueError (Unsupported_sample_position_name (name_of it))),
         self))
  \/ (has_reserved_char (name_of it) = false
      /\ (exists d, get_sample_position (name_of it) self = Some d)
      /\ step now it self = (Ok tt, self))
  \/ (has_reserved_char (name_of it) = false
      /\ get_sample_position (name_of it) self = None
      /\ exists d,
           PositionDoc.name d = name_of it
           /\ PositionDoc.task_id d = None
           /\ step now it self
              = (Ok tt,
                 set_positions (_sample_positions_collection self ++ [d])
                               self)).
Proof.
  unfold step, add_one_position. fold (name_of it).
  destruct (has_reserved_char (name_of it)); [left; split; reflexivity|].
  right. unfold bind, query, modify, ret.
  destruct (get_sample_position (name_of it) self) as [d|] eqn:E.
  - left. split; [reflexivity|]. split; [eauto|reflexivity].
  - right. split; [reflexivity|]. split; [reflexivity|].
    eexists. split; [|split; [|reflexivity]]; reflexivity.
Qed.

Lemma known_after_growth position self added d :
  get_sample_position position self = Some d ->
  get_sample_position position
    (set_positions (_sample_positions_collection self ++ added) self)
  = Some d.
Proof. intros H. unfold get_sample_position. simpl. now apply find_one_app_first. Qed.

(** A run only appends, whatever its outcome. *)
Lemma run_appends now its self :
  exists added,
    snd (for_each its (step now) self)
    = set_positions (_sample_positions_collection self ++ added) self.
Proof.
  revert self. induction its as [|x its IH]; intros self; simpl.
  - exists []. now rewrite app_nil_r, set_positions_same.
  - unfold bind.
    destruct (step_cases now x self)
      as [[_ ->]|[[_ [_ ->]]|[_ [_ [d [_ [_ ->]]]]]]].
    + exists []. now rewrite app_nil_r, set_positions_same.
    + apply IH.
    + destruct (IH (set_positions (_sample_positions_collection self ++ [d])
                      self)) as [added Hadded].
      exists (d :: added). rewrite Hadded. simpl.
      now rewrite set_positions_twice, <- app_assoc.
Qed.

Lemma run_keeps_unique_names now its self :
  NoDup (List.map PositionDoc.name (_sample_positions_collection self)) ->
  NoDup (List.map PositionDoc.name
           (_sample_positions_collection (snd (for_each its (step now) self)))).
Proof.
  revert self. induction its as [|x its IH]; intros self Hnd; simpl;
    [exact Hnd|].
  unfold bind.
  destruct (step_cases now x self)
    as [[_ ->]|[[_ [_ ->]]|[_ [Hnew [d [Hname [_ ->]]]]]]].
  - exact Hnd.
  - now apply IH.
  - apply IH. simpl. rewrite map_app. simpl.
    apply NoDup_app; [exact Hnd|repeat constructor; intros []|].
    intros n Hn [<-|[]]. apply in_map_iff in Hn.
    destruct Hn as [y [Hy Hin]].
    unfold get_sample_position in Hnew. rewrite find_one_none_iff in Hnew.
    specialize (Hnew y Hin). unfold name_is in Hnew.
    rewrite Hy, Hname, String.eqb_refl in Hnew. discriminate.
Qed.

Lemma run_success now its self self' :
  for_each its (step now) self = (Ok tt, self') ->
  forall it, In it its ->
    has_reserved_char (name_of it) = false
    /\ exists d, get_sample_position (name_of it) self' = Some d.
Proof.
  revert self. induction its as [|x its IH]; intros self Hrun it Hin;
    [destruct Hin|].
  simpl in Hrun. unfold bind in Hrun.
  assert (Hgrow : forall s1 d1,
            for_each its (step now) s1 = (Ok tt, self') ->
            get_sample_position (name_of x) s1 = Some d1 ->
            exists d, get_sample_position (name_of x) self' = Some d).
  { intros s1 d1 Hr Hd1. destruct (run_appends now its s1) as [added Ha].
    rewrite Hr in Ha. simpl in Ha. rewrite Ha. exists d1.
    now apply known_after_growth. }
  destruct (step_cases now x self)
    as [[_ Hs]|[[Hc [[d0 Hk] Hs]]|[Hc [Hnew [d [Hname [_ Hs]]]]]]];
    rewrite Hs in Hrun; [discriminate| |].
  - destruct Hin as [<-|Hin]; [|exact (IH _ Hrun it Hin)].
    split; [exact Hc|]. exact (Hgrow _ _ Hrun Hk).
  - destruct Hin as [<-|Hin]; [|exact (IH _ Hrun it Hin)].
    split; [exact Hc|]. apply (Hgrow _ d Hrun).
    unfold get_sample_position in *. simpl.
    rewrite (find_one_app_none _ _ _ Hnew). simpl.
    unfold name_is. now rewrite Hname, String.eqb_refl.
Qed.

Lemma run_all_known now its self :
  (forall it, In it its ->
     has_reserved_char (name_of it) = false
     /\ exists d, get_sample_position (name_of it) self = Some d) ->
  for_each its (step now) self = (Ok tt, self).
Proof.
  induction its as [|x its IH]; intros Hall; simpl; [reflexivity|].
  unfold bind. destruct (Hall x (or_introl eq_refl)) as [Hc [d Hd]].
  destruct (step_cases now x self)
    as [[Hb _]|[[_ [_ ->]]|[_ [Hnew _]]]]; [congruence| |congruence].
  apply IH. intros it Hit. apply Hall. now right.
Qed.
End AddSamplePositionsInvariants.

(** X15. [add_sample_positions_to_db] keeps position names unique: if no two
    stored positions share a name before the call, none do after it,
    whether it returns or raises. *)
Theorem add_sample_positions_keeps_names_unique
  (SEPARATOR : string) (sample_positions : list SamplePosition.t)
  (parent_device_name : option string) (now : datetime) (self : SampleView) :
  NoDup (List.map PositionDoc.name (_sample_positions_collection self)) ->
  NoDup (List.map PositionDoc.name
           (_sample_positions_collection
              (snd (add_sample_positions_to_db SEPARATOR sample_positions
                      parent_device_name now self)))).
Proof.
  intros Hnd. rewrite add_flat. now apply run_keeps_unique_names.
Qed.

Lemma add_sample_positions_keeps_names_unique_witness :
  NoDup (List.map PositionDoc.name
           (_sample_positions_collection
              (snd (add_sample_positions_to_db "/"
                      [SamplePosition.mk "A1" 1 ""; SamplePosition.mk "tray" 2 ""]
                      None 3%Z Ex.one_free)))).
Proof.
  apply add_sample_positions_keeps_names_unique.
  repeat constructor. intros [].
Defined.

(** X16. Registering positions is idempotent: after a call of
    [add_sample_positions_to_db] that returned, the same call again (at any
    later time) returns and changes nothing. *)
Theorem add_sample_positions_twice
  (SEPARATOR : string) (sample_positions : list SamplePosition.t)
  (parent_device_name : option string) (now later : datetime)
  (self self' : SampleView) :
  add_sample_positions_to_db SEPARATOR sample_positions parent_device_name
    now self = (Ok tt, self') ->
  add_sample_positions_to_db SEPARATOR sample_positions parent_device_name
    later self' = (Ok tt, self').
Proof.
  rewrite !add_flat. intros Hrun. apply run_all_known.
  exact (run_success _ _ _ _ _ _ Hrun).
Qed.

Lemma add_sample_positions_twice_witness :
  add_sample_positions_to_db "/" [SamplePosition.mk "tray" 2 ""] (Some "oven")
    9%Z
    (snd (add_sample_positions_to_db "/" [SamplePosition.mk "tray" 2 ""]
            (Some "oven") 3%Z Ex.one_free))
  = (Ok tt,
     snd (add_sample_positions_to_db "/" [SamplePosition.mk "tray" 2 ""]
            (Some "oven") 3%Z Ex.one_free)).
Proof.
  apply (add_sample_positions_twice "/" [SamplePosition.mk "tray" 2 ""]
           (Some "oven") 3%Z 9%Z Ex.one_free).
  reflexivity.
Defined.

(** X17. Positions already in the database are skipped, not rewritten:
    whatever the call does, a name that was known before it is still looked
    up to the same document afterwards (same owner, same description), and
    after a call that returned every generated name is a known position. *)
Theorem add_sample_positions_skips_existing
  (SEPARATOR : string) (sample_positions : list SamplePosition.t)
  (parent_device_name : option string) (now : datetime) (self : SampleView) :
  let r := add_sample_positions_to_db SEPARATOR sample_positions
             parent_device_name now self in
  (forall position d,
     get_sample_position position self = Some d ->
     get_sample_position position (snd r) = Some d)
  /\ (fst r = Ok tt ->
      forall name,
        In name (generated_names SEPARATOR sample_positions
                                 parent_device_name) ->
        exists d, get_sample_position name (snd r) = Some d).
Proof.
  cbv zeta. rewrite add_flat. split.
  - intros position d Hd.
    destruct (run_appends SEPARATOR parent_device_name now
                (iterations sample_positions) self) as [added ->].
    now apply known_after_growth.
  - intros Hok name Hname. unfold generated_names in Hname.
    apply in_map_iff in Hname. destruct Hname as [it [<- Hit]].
    destruct (for_each (iterations sample_positions) _ self)
      as [[[]|e] self'] eqn:Hrun; [|discriminate].
    exact (proj2 (run_success _ _ _ _ _ _ Hrun it Hit)).
Qed.

Lemma add_sample_positions_skips_existing_witness :
  stored_owner "A1"
    (snd (add_sample_positions_to_db "/" [SamplePosition.mk "A1" 1 "again"]
            None 3%Z Ex.held_by_2))
  = Some (Some 2%N).
Proof.
  unfold stored_owner.
  rewrite (proj1 (add_sample_positions_skips_existing "/"
                    [SamplePosition.mk "A1" 1 "again"] None 3%Z Ex.held_by_2)
             "A1" (Ex.pos "A1" (Some 2%N)) eq_refl).
  reflexivity.
Defined.

(** ** Reserved characters in names *)

Section AddSamplePositionsWrites.
Variable SEPARATOR : string.
Variable parent_device_name : option string.

Let name_of (it : SamplePosition.t * nat) : string :=
  position_name SEPARATOR (fst it) parent_device_name (snd it).

Let step (now : datetime) (it : SamplePosition.t * nat) : M SampleView unit :=
  add_one_position SEPARATOR (fst it) parent_device_name now (snd it).

Lemma step_outcomes now it self :
  (has_reserved_char (name_of it) = true
   /\ step now it self
      = (Raise (ValueError (Unsupported_sample_position_name (name_of it))),
         self))
  \/ (has_reserved_char (name_of it) = false
      /\ (exists d, get_sample_position (name_of it) self = Some d)
      /\ step now it self = (Ok tt, self))
  \/ (has_reserved_char (name_of it) = false
      /\ get_sample_position (name_of it) self = None
      /\ exists d,
           PositionDoc.name d = name_of it
           /\ PositionDoc.task_id d = None
           /\ step now it self
              = (Ok tt,
                 set_positions (_sample_positions_collection self ++ [d])
                               self)).
Proof. exact (step_cases SEPARATOR parent_device_name now it self). Qed.

(** What a run appends: documents without owner, carrying generated names
    that have no reserved character. *)
Lemma run_appends_clean now its self :
  exists added,
    snd (for_each its (step now) self)
    = set_positions (_sample_positions_collection self ++ added) self
    /\ forall d, In d added ->
         has_reserved_char (PositionDoc.name d) = false
         /\ In (PositionDoc.name d) (List.map name_of its)
         /\ PositionDoc.task_id d = None.
Proof.
  revert self. induction its as [|x its IH]; intros self; simpl.
  - exists []. rewrite app_nil_r, set_positions_same.
    split; [reflexivity|intros d []].
  - unfold bind.
    destruct (step_outcomes now x self)
      as [[_ Hs]|[[_ [_ Hs]]|[Hc [_ [d [Hname [Hfree Hs]]]]]]];
      rewrite Hs.
    + exists []. rewrite app_nil_r, set_positions_same.
      split; [reflexivity|intros d []].
    + destruct (IH self) as [added [Hsnd Hall]]. exists added.
      split; [exact Hsnd|]. intros y Hy.
      destruct (Hall y Hy) as [H1 [H2 H3]]. repeat split; auto.
    + destruct (IH (set_positions (_sample_positions_collection self ++ [d])
                      self)) as [added [Hsnd Hall]].
      exists (d :: added). split.
      * rewrite Hsnd. simpl. now rewrite set_positions_twice, <- app_assoc.
      * intros y [<-|Hy].
        -- rewrite Hname. repeat split; auto; now left.
        -- destruct (Hall y Hy) as [H1 [H2 H3]]. repeat split; auto.
Qed.

(** A run stops at the first name with a reserved character, in the state
    the iterations before it have built, where each of their names is
    known. *)
Lemma run_stops_at_first_reserved now before it after self :
  (forall x, In x before -> has_reserved_char (name_of x) = false) ->
  has_reserved_char (name_of it) = true ->
  for_each (before ++ it :: after) (step now) self
  = (Raise (ValueError (Unsupported_sample_position_name (name_of it))),
     snd (for_each before (step now) self))
  /\ forall x, In x before ->
       exists d,
         get_sample_position (name_of x)
           (snd (for_each before (step now) self)) = Some d.
Proof.
  intros Hclean Hbad.
  assert (Hok : forall l s,
            (forall x, In x l -> has_reserved_char (name_of x) = false) ->
            fst (for_each l (step now) s) = Ok tt).
  { induction l as [|x l IH]; intros s Hl; simpl; [reflexivity|].
    unfold bind.
    destruct (step_outcomes now x s)
      as [[Hb _]|[[_ [_ Hs]]|[_ [_ [d [_ [_ Hs]]]]]]];
      [rewrite (Hl x (or_introl eq_refl)) in Hb; discriminate| |];
      rewrite Hs; apply IH; intros y Hy; apply Hl; now right. }
  destruct (for_each before (step now) self) as [r s1] eqn:Hrun.
  pose proof (Hok before self Hclean) as Hr. rewrite Hrun in Hr.
  simpl in Hr. subst r. split.
  - rewrite for_each_app, Hrun. simpl. unfold bind.
    destruct (step_outcomes now it s1)
      as [[_ Hs]|[[Hc _]|[Hc _]]]; [|congruence|congruence].
    now rewrite Hs.
  - intros x Hx. simpl.
    exact (proj2 (run_success SEPARATOR parent_device_name now before self s1
                    Hrun x Hx)).
Qed.
End AddSamplePositionsWrites.

(** C8, as the code has it.  [create_sample] with a name containing '.' or
    '$' raises a [ValueError] and leaves both collections as they were.
    [add_sample_positions_to_db] never writes a document whose name
    contains such a character and never touches the samples; what it
    appends are documents without owner for generated names.  It raises
    at the first generated name that contains such a character, after the
    documents for the names generated before it in the same call have been
    inserted: each of those names is a known position afterwards, looked
    up to one of the appended documents if it was not known before.  When
    the first generated name is the offending one nothing is written. *)
Theorem reserved_names_rejected (SEPARATOR : string) :
  (forall name position sample_id tags metadata now self,
     has_reserved_char name = true ->
     (exists m,
        fst (create_sample name position sample_id tags metadata now self)
        = Raise (ValueError m))
     /\ snd (create_sample name position sample_id tags metadata now self)
        = self)
  /\
  (forall sample_positions parent_device_name now self,
     let r := add_sample_positions_to_db SEPARATOR sample_positions
                parent_device_name now self in
     _sample_collection (snd r) = _sample_collection self
     /\ exists added,
          _sample_positions_collection (snd r)
          = (_sample_positions_collection self ++ added)%list
          /\ (forall d, In d added ->
                has_reserved_char (PositionDoc.name d) = false
                /\ In (PositionDoc.name d)
                      (generated_names SEPARATOR sample_positions
                                       parent_device_name)
                /\ PositionDoc.task_id d = None)
          /\ (forall before name after,
                generated_names SEPARATOR sample_positions parent_device_name
                = (before ++ name :: after)%list ->
                (forall n, In n before -> has_reserved_char n = false) ->
                has_reserved_char name = true ->
                fst r
                = Raise (ValueError (Unsupported_sample_position_name name))
                /\ (before = [] -> snd r = self)
                /\ forall n, In n before ->
                     exists d,
                       get_sample_position n (snd r) = Some d
                       /\ PositionDoc.name d = n
                       /\ (get_sample_position n self = None ->
                           In d added))).
Proof.
  split.
  - intros name position sample_id tags metadata now self Hname.
    destruct (create_sample_rejects_reserved_name name position sample_id tags
                metadata now self Hname) as [H1 [H2 _]].
    split; assumption.
  - intros sample_positions parent_device_name now self r. subst r.
    rewrite add_flat.
    destruct (run_appends_clean SEPARATOR parent_device_name now
                (iterations sample_positions) self) as [added [Hsnd Hadded]].
    split; [now rewrite Hsnd|].
    exists added. split; [now rewrite Hsnd|]. split; [exact Hadded|].
    intros before name after Hsplit Hbefore Hname.
    unfold generated_names in Hsplit.
    apply map_eq_app in Hsplit. destruct Hsplit as [its1 [its2 [Hits [H1 H2]]]].
    apply map_eq_cons in H2. destruct H2 as [it [its3 [Hits2 [Hit H3]]]].
    subst its2.
    destruct (run_stops_at_first_reserved SEPARATOR parent_device_name now
                its1 it its3 self) as [Hrun Hknown].
    + intros x Hx. apply Hbefore. rewrite <- H1.
      apply (in_map (fun it0 => position_name SEPARATOR (fst it0)
                                  parent_device_name (snd it0)) _ _ Hx).
    + now rewrite Hit.
    + rewrite Hits, Hrun in *. simpl in *. rewrite Hit. split; [reflexivity|].
      split.
      * intros ->. destruct its1; [reflexivity|discriminate].
      * intros n Hn. rewrite <- H1 in Hn. apply in_map_iff in Hn.
        destruct Hn as [x [<- Hx]]. destruct (Hknown x Hx) as [d Hd].
        exists d. split; [exact Hd|].
        split; [apply (get_sample_position_some _ _ _ Hd)|].
        intros Hnew. rewrite Hsnd in Hd.
        unfold get_sample_position in Hd, Hnew. simpl in Hd.
        rewrite (find_one_app_none _ _ _ Hnew) in Hd.
        now apply find_one_some in Hd.
Qed.

Lemma reserved_names_rejected_witness :
  exists d,
    get_sample_position "oven/tray"
      (snd (add_sample_positions_to_db "/"
              [SamplePosition.mk "tray" 1 "trays";
               SamplePosition.mk "rack.a" 2 "racks"]
              (Some "oven") 3%Z Ex.one_free))
    = Some d
    /\ PositionDoc.name d = "oven/tray".
Proof.
  destruct (proj2 (reserved_names_rejected "/")
              [SamplePosition.mk "tray" 1 "trays";
               SamplePosition.mk "rack.a" 2 "racks"] (Some "oven") 3%Z
              Ex.one_free) as [_ [added [_ [_ H]]]].
  destruct (H ["oven/tray"] "oven/rack.a/1" ["oven/rack.a/2"])
    as [_ [_ Hbefore]].
  - reflexivity.
  - intros n [<-|[]]. reflexivity.
  - reflexivity.
  - destruct (Hbefore "oven/tray" (or_introl eq_refl)) as [d [Hd [Hn _]]].
    exists d. split; [exact Hd|exact Hn].
Defined.

(** C8 as stated fails for [add_sample_positions_to_db]: a call that raises
    on its second declaration has already inserted the first. *)
Lemma add_sample_positions_partial_write :
  let r := add_sample_positions_to_db "/"
             [SamplePosition.mk "good" 1 ""; SamplePosition.mk "bad.name" 1 ""]
             None 3%Z Ex.empty_view in
  has_reserved_char "bad.name" = true
  /\ fst r = Raise (ValueError (Unsupported_sample_position_name "bad.name"))
  /\ _sample_positions_collection Ex.empty_view = []
  /\ List.map PositionDoc.name (_sample_positions_collection (snd r))
     = ["good"].
Proof. repeat split. Qed.

(** ** The shape of a grant *)

Lemma dict_set_fresh {V} k (v : V) d :
  ~ In k (List.map fst d) -> dict_set k v d = (d ++ [(k, v)])%list.
Proof.
  induction d as [|[k' v'] d IH]; simpl; intros Hk; [reflexivity|].
  destruct (String.eqb_spec k' k) as [E|_]; [elim Hk; now left|].
  f_equal. apply IH. intros H. apply Hk. now right.
Qed.

Lemma insert_by_key_length {A} (key : A -> nat) a l :
  List.length (insert_by_key key a l) = S (List.length l).
Proof.
  induction l as [|y l IH]; simpl; [reflexivity|].
  destruct (key a <=? key y)%nat; simpl; [reflexivity|now rewrite IH].
Qed.

Lemma sorted_length {A} (key : A -> nat) l :
  List.length (sorted key l) = List.length l.
Proof.
  induction l as [|a l IH]; simpl; [reflexivity|].
  now rewrite insert_by_key_length, IH.
Qed.

Lemma choose_positions_result task_id req acc self g :
  choose_positions task_id req acc self = (Ok (Some g), self) ->
  NoDup (List.map SamplePositionRequest.prefix req) ->
  (forall x, In x req ->
     ~ In (SamplePositionRequest.prefix x) (List.map fst acc)) ->
  List.map fst g
  = (List.map fst acc ++ List.map SamplePositionRequest.prefix req)%list
  /\ List.map (fun kv => List.length (snd kv)) g
     = (List.map (fun kv => List.length (snd kv)) acc
        ++ List.map SamplePositionRequest.number req)%list
  /\ forall x, In x req ->
       exists result,
         get_available_sample_position task_id
           (SamplePositionRequest.prefix x) self = Ok result
         /\ result <> []
         /\ SamplePositionRequest.number x <= List.length result.
Proof.
  revert acc. induction req as [|x req IH]; intros acc;
    cbn [choose_positions]; unfold bind, query, ret.
  - intros H _ _. injection H as <-. simpl. rewrite !app_nil_r.
    repeat split. intros x [].
  - destruct (get_available_sample_position _ _ self) as [result|e] eqn:Eres;
      [|discriminate].
    destruct result as [|a result]; [discriminate|]. cbn [orb].
    destruct (_ <? _)%nat eqn:Elen; [discriminate|].
    apply Nat.ltb_ge in Elen.
    intros Hrun Hnd Hfresh. simpl in Hnd.
    inversion Hnd as [|? ? Hx Hreq]; subst.
    rewrite (dict_set_fresh _ _ acc (Hfresh x (or_introl eq_refl))) in Hrun.
    destruct (IH _ Hrun Hreq) as [Hkeys [Hlens Hall]].
    + intros y Hy. rewrite map_app. simpl. intros Hin.
      apply in_app_or in Hin. destruct Hin as [Hin|[Hin|[]]].
      * exact (Hfresh y (or_intror Hy) Hin).
      * apply Hx. rewrite Hin. now apply in_map.
    + split; [|split].
      * rewrite Hkeys, map_app. simpl. now rewrite <- app_assoc.
      * rewrite Hlens, map_app, <- app_assoc. cbn [List.map app snd].
        do 2 f_equal. rewrite length_firstn, sorted_length. lia.
      * intros y [<-|Hy]; [|exact (Hall y Hy)].
        exists (a :: result). split; [exact Eres|].
        split; [discriminate|exact Elen].
Qed.

Lemma collect_available_length task_id self docs l :
  collect_available task_id self docs = Ok l ->
  List.length l <= List.length docs.
Proof.
  revert l. induction docs as [|d docs IH]; intros l; cbn [collect_available].
  - intros H. injection H as <-. simpl. lia.
  - destruct (get_sample_position_status _ self) as [[st c]|e]; [|discriminate].
    destruct (_ || _).
    + destruct (get_sample_position _ self); [|discriminate].
      destruct (collect_available task_id self docs) as [l'|e]; [|discriminate].
      intros H. injection H as <-. specialize (IH l' eq_refl). simpl. lia.
    + intros H. specialize (IH l H). simpl. lia.
Qed.

Lemma free_or_mine_fewer task_id prefix (c : list PositionDoc.t) :
  List.length (filter (free_or_mine task_id prefix) c)
  <= List.length (filter (name_matches prefix) c).
Proof.
  induction c as [|d c IH]; simpl; [lia|].
  unfold free_or_mine at 1.
  destruct (name_matches prefix d); simpl; [|exact IH].
  destruct (_ || _); simpl; lia.
Qed.

Lemma candidates_bounded task_id prefix self l :
  get_available_sample_position task_id prefix self = Ok l ->
  List.length l <= population prefix self.
Proof.
  unfold get_available_sample_position.
  destruct (find_one _ _); [|discriminate]. intros H.
  apply collect_available_length in H.
  pose proof (free_or_mine_fewer task_id prefix
                (_sample_positions_collection self)).
  unfold population, count_documents, find in *. lia.
Qed.

Lemma choose_positions_served task_id req acc self :
  (forall x, In x req ->
     exists result,
       get_available_sample_position task_id
         (SamplePositionRequest.prefix x) self = Ok result
       /\ result <> []
       /\ SamplePositionRequest.number x <= List.length result) ->
  exists g, choose_positions task_id req acc self = (Ok (Some g), self).
Proof.
  revert acc. induction req as [|x req IH]; intros acc Hall;
    cbn [choose_positions]; unfold bind, query, ret; [eauto|].
  destruct (Hall x (or_introl eq_refl)) as [result [-> [Hne Hlen]]].
  destruct result as [|a result]; [congruence|]. cbn [orb].
  apply Nat.ltb_ge in Hlen. rewrite Hlen.
  apply IH. intros y Hy. apply Hall. now right.
Qed.

(** X18. When a request is granted: [request_sample_positions] returns a
    grant exactly when the prefixes of the request are pairwise distinct
    and every item has at least one candidate and at least as many
    candidates as it asks for. *)
Theorem request_granted_iff
  (task_id : ObjectId) (sample_positions : list SamplePositionRequest.py_type)
  (self : SampleView) :
  (exists g self',
     request_sample_positions task_id sample_positions self
     = (Ok (Some g), self'))
  <->
  NoDup (prefixes sample_positions)
  /\ forall x,
       In x (List.map SamplePositionRequest.from_py_type sample_positions) ->
       exists result,
         get_available_sample_position task_id
           (SamplePositionRequest.prefix x) self = Ok result
         /\ result <> []
         /\ SamplePositionRequest.number x <= List.length result.
Proof.
  split.
  - intros [g [self' Hrun]].
    destruct (request_sample_positions_granted _ _ _ _ _ Hrun)
      as [_ [Hchoose [Hnd _]]].
    split; [exact Hnd|].
    destruct (choose_positions_result _ _ _ _ _ Hchoose Hnd) as [_ [_ Hall]].
    + intros x _ [].
    + intros x Hx. destruct (Hall x Hx) as [result [Hres Hrest]].
      exists result. rewrite get_available_log_lock in Hres. now split.
  - intros [Hnd Hall].
    destruct (choose_positions_served task_id
                (List.map SamplePositionRequest.from_py_type sample_positions)
                [] (log_lock LockEnter self)) as [g Hg].
    { intros x Hx. destruct (Hall x Hx) as [result [Hres Hrest]].
      exists result. rewrite get_available_log_lock. now split. }
    exists g, (after_lock false self).
    rewrite request_sample_positions_run. cbv zeta.
    apply distinct_count_NoDup in Hnd. rewrite Hnd.
    rewrite check_enough_positions_pass.
    + exact (with_lock_run _ self (Ok (Some g)) Hg).
    + intros x Hx. destruct (Hall x Hx) as [result [Hres [_ Hlen]]].
      pose proof (candidates_bounded _ _ _ _ Hres). lia.
Qed.

(** X19. The shape of a grant: it has one entry for each item of the
    request, in the order of the request, keyed by the item's prefix and
    holding exactly the number of positions the item asks for. *)
Theorem grant_matches_request
  (task_id : ObjectId) (sample_positions : list SamplePositionRequest.py_type)
  (self self' : SampleView) (g : grant) :
  request_sample_positions task_id sample_positions self = (Ok (Some g), self')
  ->
  List.map fst g = prefixes sample_positions
  /\ List.map (fun kv => List.length (snd kv)) g
     = List.map SamplePositionRequest.number
         (List.map SamplePositionRequest.from_py_type sample_positions).
Proof.
  intros Hrun.
  destruct (request_sample_positions_granted _ _ _ _ _ Hrun)
    as [_ [Hchoose [Hnd _]]].
  destruct (choose_positions_result _ _ _ _ _ Hchoose Hnd) as [Hk [Hl _]].
  - intros x _ [].
  - split; assumption.
Qed.

Lemma grant_matches_request_witness :
  List.map (fun kv => List.length (snd kv))
    [("oven/tray",
      [Available.mk "oven/tray/1" true; Available.mk "oven/tray/2" true])]
  = [2].
Proof.
  apply (grant_matches_request 1%N
           [SamplePositionRequest.Dict "oven/tray" (Some 2)] Ex.oven
           (after_lock false Ex.oven)).
  reflexivity.
Defined.

(** X20. Positions already held come first: in a grant, a position that
    needs release (one the task did not own) is only chosen when every
    candidate the task owns already has been chosen too. *)
Theorem own_positions_chosen_first
  (task_id : ObjectId) (sample_positions : list SamplePositionRequest.py_type)
  (self self' : SampleView) (g : grant) (prefix : string)
  (l : list Available.t) :
  request_sample_positions task_id sample_positions self = (Ok (Some g), self')
  ->
  In (prefix, l) g ->
  exists result,
    get_available_sample_position task_id prefix self = Ok result
    /\ ((exists a, In a l /\ Available.need_release a = true) ->
        forall b, In b result -> Available.need_release b = false -> In b l).
Proof.
  intros Hrun Hl.
  destruct (request_sample_positions_granted _ _ _ _ _ Hrun)
    as [_ [Hchoose _]].
  assert (Hg : fst (choose_positions task_id
                      (List.map SamplePositionRequest.from_py_type
                                sample_positions) []
                      (log_lock LockEnter self)) = Ok (Some g))
    by now rewrite Hchoose.
  destruct (choose_positions_grant _ _ _ _ _ Hg prefix l Hl)
    as [[]|[x [result [_ [_ [Hres ->]]]]]].
  rewrite get_available_log_lock in Hres.
  exists result. split; [exact Hres|].
  rewrite sorted_need_release, firstn_app.
  set (own := filter (fun a => negb (Available.need_release a)) result).
  set (n := SamplePositionRequest.number x).
  intros [a [Ha Hfresh]] b Hb Hown.
  assert (Hb_own : In b own).
  { apply filter_In. split; [exact Hb|now rewrite Hown]. }
  apply in_app_or in Ha. destruct Ha as [Ha|Ha].
  - apply firstn_subset in Ha. apply filter_In in Ha.
    rewrite Hfresh in Ha. now destruct Ha.
  - assert (Hlen : List.length own < n).
    { destruct (n - List.length own) eqn:E; [destruct Ha|lia]. }
    apply in_or_app. left. rewrite firstn_all2 by lia. exact Hb_own.
Qed.

Lemma own_positions_chosen_first_witness :
  exists result,
    get_available_sample_position 1%N "A"
      (mkSampleView [] [Ex.pos "A1" None; Ex.pos "A2" (Some 1%N)] [])
    = Ok result
    /\ ((exists a, In a [Available.mk "A2" false; Available.mk "A1" true]
                   /\ Available.need_release a = true) ->
        forall b, In b result -> Available.need_release b = false ->
                  In b [Available.mk "A2" false; Available.mk "A1" true]).
Proof.
  apply (own_positions_chosen_first 1%N
           [SamplePositionRequest.Dict "A" (Some 2)]
           (mkSampleView [] [Ex.pos "A1" None; Ex.pos "A2" (Some 1%N)] [])
           (after_lock false
              (mkSampleView [] [Ex.pos "A1" None; Ex.pos "A2" (Some 1%N)] []))
           [("A", [Available.mk "A2" false; Available.mk "A1" true])]).
  - reflexivity.
  - now left.
Defined.

(** X21. No free position is withheld: with unique position names, every
    stored position whose name starts with the prefix and which the
    occupancy resolver reports EMPTY, or LOCKED by the requesting task, is
    among the candidates, with [need_release] true in the first case and
    false in the second. *)
Theorem free_positions_are_candidates
  (task_id : ObjectId) (prefix : string) (self : SampleView)
  (d : PositionDoc.t) (st : SamplePositionStatus) (c : option ObjectId) :
  NoDup (List.map PositionDoc.name (_sample_positions_collection self)) ->
  In d (_sample_positions_collection self) ->
  String.prefix prefix (PositionDoc.name d) = true ->
  get_sample_position_status (PositionDoc.name d) self = Ok (st, c) ->
  (st = EMPTY \/ (st = LOCKED /\ c = Some task_id)) ->
  exists l,
    get_available_sample_position task_id prefix self = Ok l
    /\ In (Available.mk (PositionDoc.name d)
             (match st with EMPTY => true | _ => false end)) l.
Proof.
  intros Hnd Hin Hm Hst Hfree.
  pose proof (get_sample_position_unique self d Hnd Hin) as Hd.
  assert (Hown : PositionDoc.task_id d = c /\ (c = None \/ c = Some task_id)
                 /\ (st = EMPTY -> c = None)).
  { unfold get_sample_position_status in Hst. rewrite Hd in Hst.
    destruct (find_one _ _).
    - injection Hst as <- _. destruct Hfree as [?|[? _]]; discriminate.
    - destruct (PositionDoc.task_id d) as [t|]; injection Hst as <- <-.
      + destruct Hfree as [?|[_ Hc]]; [discriminate|].
        split; [reflexivity|]. split; [now right|discriminate].
      + split; [reflexivity|]. split; [now left|reflexivity]. }
  destruct Hown as [Ho [Hc Hempty]].
  unfold get_available_sample_position.
  destruct (find_one_exists (name_matches prefix) _ d Hin Hm) as [d' ->].
  rewrite collect_available_unique;
    [|exact Hnd|intros x Hx; unfold find in Hx; now apply filter_In in Hx].
  eexists. split; [reflexivity|].
  apply in_map_iff. exists d. split.
  - unfold entry_for. rewrite Ho. f_equal.
    destruct Hfree as [->|[-> ->]].
    + now rewrite (Hempty eq_refl).
    + now rewrite eqb_oid_refl.
  - apply filter_In. split.
    + unfold find. apply filter_In. split; [exact Hin|].
      unfold free_or_mine, name_matches. rewrite Hm, Ho.
      destruct Hc as [->| ->]; [reflexivity|].
      simpl. now rewrite N.eqb_refl.
    + unfold available_for. rewrite Hst.
      destruct Hfree as [->|[-> ->]]; [reflexivity|].
      simpl. now rewrite N.eqb_refl.
Qed.

Lemma free_positions_are_candidates_witness :
  exists l,
    get_available_sample_position 1%N "oven" Ex.oven = Ok l
    /\ In (Available.mk "oven/tray/3" true) l.
Proof.
  apply (free_positions_are_candidates 1%N "oven" Ex.oven
           (Ex.pos "oven/tray/3" None) EMPTY None).
  - repeat constructor; simpl; intuition discriminate.
  - simpl. tauto.
  - reflexivity.
  - reflexivity.
  - now left.
Defined.

(** ** The parent device of a prefix *)

Lemma nodup_singleton (l : list (option string)) p :
  nodup ostr_dec l = [p] <-> l <> [] /\ forall x, In x l -> x = p.
Proof.
  split.
  - intros H. split.
    + intros ->. discriminate.
    + intros x Hx. apply (nodup_In ostr_dec) in Hx. rewrite H in Hx.
      destruct Hx as [<-|[]]. reflexivity.
  - intros [Hne Hall].
    pose proof (NoDup_nodup ostr_dec l) as Hnd.
    assert (Hsub : forall x, In x (nodup ostr_dec l) -> x = p).
    { intros x Hx. apply Hall. now apply (nodup_In ostr_dec). }
    destruct (nodup ostr_dec l) as [|a [|b r]] eqn:E.
    + destruct l as [|x l]; [congruence|].
      assert (In x (nodup ostr_dec (x :: l))) as Hin
        by (apply nodup_In; now left).
      rewrite E in Hin. destruct Hin.
    + now rewrite (Hsub a (or_introl eq_refl)).
    + rewrite (Hsub a (or_introl eq_refl)) in Hnd.
      rewrite (Hsub b (or_intror (or_introl eq_refl))) in Hnd.
      inversion Hnd as [|? ? Hp _]. elim Hp. now left.
Qed.

(** X22. [get_sample_position_parent_device] returns a device (or none)
    exactly when at least one stored position matches the query and all
    the matching positions have that same parent device; it raises "No
    sample position(s) beginning with" exactly when nothing matches, and
    the multiple-devices exception as soon as two matching positions
    differ in their parent device. *)
Theorem parent_device_of_prefix
  (regex_from_start : string -> string -> bool) (position : string)
  (self : SampleView) :
  let matches d := regex_from_start position (PositionDoc.name d) = true in
  let result :=
    get_sample_position_parent_device regex_from_start position self in
  (forall p,
     result = inr p <->
     (exists d, In d (_sample_positions_collection self) /\ matches d)
     /\ forall d, In d (_sample_positions_collection self) -> matches d ->
                  PositionDoc.parent_device d = p)
  /\ (result = inl (No_sample_positions_beginning_with position) <->
      forall d, In d (_sample_positions_collection self) -> ~ matches d)
  /\ (forall d1 d2,
        In d1 (_sample_positions_collection self) -> matches d1 ->
        In d2 (_sample_positions_collection self) -> matches d2 ->
        PositionDoc.parent_device d1 <> PositionDoc.parent_device d2 ->
        exists l, result = inl (Multiple_parent_devices l)).
Proof.
  cbv zeta. unfold get_sample_position_parent_device, find.
  set (docs := filter (fun d => regex_from_start position (PositionDoc.name d))
                      (_sample_positions_collection self)).
  set (devices := List.map PositionDoc.parent_device docs).
  assert (Hdocs : forall d, In d docs <->
            In d (_sample_positions_collection self)
            /\ regex_from_start position (PositionDoc.name d) = true).
  { intros d. apply filter_In. }
  assert (Hsingle : forall p,
            nodup ostr_dec devices = [p] <->
            (exists d, In d (_sample_positions_collection self)
                       /\ regex_from_start position (PositionDoc.name d) = true)
            /\ forall d, In d (_sample_positions_collection self) ->
                 regex_from_start position (PositionDoc.name d) = true ->
                 PositionDoc.parent_device d = p).
  { intros p. rewrite nodup_singleton. split.
    - intros [Hne Hall]. split.
      + destruct docs as [|d r] eqn:E; [now elim Hne|].
        exists d. apply Hdocs. now left.
      + intros d Hin Hm. apply Hall. apply in_map. apply Hdocs. now split.
    - intros [[d Hd] Hall]. split.
      + apply Hdocs in Hd. intros Hnil.
        apply (in_map PositionDoc.parent_device) in Hd.
        fold devices in Hd. rewrite Hnil in Hd. destruct Hd.
      + intros x Hx. apply in_map_iff in Hx. destruct Hx as [y [<- Hy]].
        apply Hdocs in Hy. now apply Hall. }
  assert (Hnil : nodup ostr_dec devices = [] <->
            forall d, In d (_sample_positions_collection self) ->
                      regex_from_start position (PositionDoc.name d) <> true).
  { split.
    - intros H d Hin Hm.
      assert (In (PositionDoc.parent_device d) (nodup ostr_dec devices)) as Hd.
      { apply nodup_In. apply in_map. apply Hdocs. now split. }
      rewrite H in Hd. destruct Hd.
    - intros H. destruct (nodup ostr_dec devices) as [|a r] eqn:E;
        [reflexivity|].
      assert (In a devices) as Ha
        by (apply (nodup_In ostr_dec); rewrite E; now left).
      apply in_map_iff in Ha. destruct Ha as [d [_ Hd]].
      apply Hdocs in Hd. destruct Hd as [Hin Hm]. elim (H d Hin Hm). }
  split; [|split].
  - intros p. rewrite <- Hsingle.
    destruct (nodup ostr_dec devices) as [|a [|b r]]; split;
      intros H; try discriminate; congruence.
  - rewrite <- Hnil.
    destruct (nodup ostr_dec devices) as [|a [|b r]]; split;
      intros H; try discriminate; reflexivity.
  - intros d1 d2 H1 M1 H2 M2 Hdiff.
    destruct (nodup ostr_dec devices) as [|a [|b r]] eqn:E.
    + elim (proj1 Hnil eq_refl d1 H1). exact M1.
    + destruct (proj1 (Hsingle a) eq_refl) as [_ Hall].
      elim Hdiff. now rewrite (Hall d1 H1 M1), (Hall d2 H2 M2).
    + eauto.
Qed.

Lemma parent_device_of_prefix_witness :
  exists l,
    get_sample_position_parent_device String.prefix "furnace"
      (mkSampleView []
         [PositionDoc.mk "furnace_1/tray" "" None 0%Z (Some "furnace_1");
          PositionDoc.mk "furnace_2/tray" "" None 0%Z (Some "furnace_2")] [])
    = inl (Multiple_parent_devices l).
Proof.
  apply (proj2 (proj2 (parent_device_of_prefix String.prefix "furnace"
                         (mkSampleView []
                            [PositionDoc.mk "furnace_1/tray" "" None 0%Z
                               (Some "furnace_1");
                             PositionDoc.mk "furnace_2/tray" "" None 0%Z
                               (Some "furnace_2")] [])))
           (PositionDoc.mk "furnace_1/tray" "" None 0%Z (Some "furnace_1"))
           (PositionDoc.mk "furnace_2/tray" "" None 0%Z (Some "furnace_2"))).
  - now left.
  - reflexivity.
  - right. now left.
  - reflexivity.
  - discriminate.
Defined.

(** ** Scoped acquisition that fails *)

Section AcquisitionFails.
Variables W ResourceRequest DeviceType DeviceWrapper SamplePositions : Type.
Variable update_status : ObjectId -> TaskStatus -> M W unit.
Variable requester_request_resources :
  ObjectId -> ResourceRequest -> option Z -> option Z ->
  M W (LabView.request_result DeviceType SamplePositions).
Variable requester_release_resources : ObjectId -> M W unit.
Variable create_device_wrapper : string -> M W DeviceWrapper.

(** X23. When the resource requester raises (a timeout, a refused
    request), [with lab_view.request_resources(...)] raises the same
    exception in the state the requester left: the body is not run, no
    device wrapper is created, the status is not set to RUNNING and no
    release is issued. *)
Theorem failed_acquisition_skips_body
  (self : LabView.t) (resource_request : ResourceRequest)
  (priority timeout : option Z)
  (body : list (DeviceType * DeviceWrapper) * SamplePositions -> M W unit)
  (s s0 s1 : W) (e : exn) :
  update_status (LabView.task_id self) REQUESTING_RESOURCES s = (Ok tt, s0) ->
  requester_request_resources (LabView.task_id self) resource_request
    timeout priority s0 = (Raise e, s1) ->
  with_contextmanager
    (LabView.request_resources update_status requester_request_resources
       requester_release_resources create_device_wrapper
       self resource_request priority timeout)
    body s
  = (Raise e, s1).
Proof.
  intros Hstatus Hreq.
  unfold with_contextmanager, LabView.request_resources, bind.
  now rewrite Hstatus, Hreq.
Qed.
End AcquisitionFails.

Lemma failed_acquisition_skips_body_witness :
  with_request_resources (LabView.mk 1%N) [SamplePositionRequest.Str "A"]
    (fun _ => raise (BodyError 0)) (mkLab Ex.held_by_2 [] [])
  = (Raise TimeoutError,
     mkLab (after_lock false Ex.held_by_2) [(1%N, REQUESTING_RESOURCES)] []).
Proof.
  apply (failed_acquisition_skips_body _ _ _ _ _
           TaskView.update_status ResourceRequester.request_resources
           ResourceRequester.release_resources
           DevicesClient.create_device_wrapper
           (LabView.mk 1%N) [SamplePositionRequest.Str "A"] None None
           (fun _ => raise (BodyError 0))
           (mkLab Ex.held_by_2 [] [])
           (mkLab Ex.held_by_2 [(1%N, REQUESTING_RESOURCES)] [])).
  - reflexivity.
  - reflexivity.
Defined.

(** ** Request validation *)

(** X24. The validator of [ResourcesRequest] keeps the keys and the order
    of a request and changes no item's meaning: each item still converts
    to the same [SamplePositionRequest]; afterwards no item is a bare
    string, and validating again changes nothing. *)
Theorem preprocess_promotes_strings
  (K : Type) (values : list (K * list SamplePositionRequest.py_type)) :
  List.map fst (ResourcesRequest.preprocess values) = List.map fst values
  /\ List.map (fun kv => List.map SamplePositionRequest.from_py_type (snd kv))
       (ResourcesRequest.preprocess values)
     = List.map (fun kv => List.map SamplePositionRequest.from_py_type (snd kv))
         values
  /\ (forall k v s, In (k, v) (ResourcesRequest.preprocess values) ->
        ~ In (SamplePositionRequest.Str s) v)
  /\ ResourcesRequest.preprocess (ResourcesRequest.preprocess values)
     = ResourcesRequest.preprocess values.
Proof.
  unfold ResourcesRequest.preprocess. split; [|split; [|split]].
  - rewrite map_map. reflexivity.
  - rewrite map_map. apply map_ext. intros [k v]. simpl.
    rewrite map_map. apply map_ext. intros [r|s|p [n|]]; reflexivity.
  - intros k v s Hin Hs. apply in_map_iff in Hin.
    destruct Hin as [[k' v'] [Heq _]]. injection Heq as _ <-.
    apply in_map_iff in Hs. destruct Hs as [[r|s'|p n] [Hx _]]; discriminate.
  - rewrite map_map. apply map_ext. intros [k v]. simpl. f_equal.
    rewrite map_map. apply map_ext. intros [r|s|p n]; reflexivity.
Qed.

(** ** Freezing the configuration *)

Lemma froze_plain v : plain v = true -> deeply_frozen (_froze_collection v) = true.
Proof.
  induction v as [s|l IH|d IH|l IH|d IH] using config_value_induction;
    simpl; try discriminate; [reflexivity| |].
  - intros Hl. rewrite forallb_forall in *. intros x Hx.
    apply in_map_iff in Hx. destruct Hx as [y [<- Hy]].
    rewrite Forall_forall in IH. apply (IH y Hy). now apply Hl.
  - intros Hd. rewrite forallb_forall in *. intros [k x] Hx.
    apply in_map_iff in Hx. destruct Hx as [[k' y] [Heq Hy]].
    injection Heq as <- <-.
    rewrite Forall_forall in IH. apply (IH (k', y) Hy).
    exact (Hd (k', y) Hy).
Qed.

(** X25. [froze_config] leaves nothing mutable behind: applied to what a
    TOML file holds (scalars, lists and dicts, nested at will) it returns a
    frozen dict in which no list and no dict is left at any depth, and
    freezing a value a second time changes nothing. *)
Theorem froze_config_is_deep (config_ : list (string * config_value)) :
  (plain (PyDict config_) = true ->
   deeply_frozen (froze_config config_) = true)
  /\ (exists items, froze_config config_ = FrozenDict items)
  /\ forall v, _froze_collection (_froze_collection v) = _froze_collection v.
Proof.
  split; [|split].
  - apply froze_plain.
  - unfold froze_config. simpl. eauto.
  - intros v. now destruct v.
Qed.

Lemma froze_config_is_deep_witness :
  deeply_frozen
    (froze_config [("lab", PyDict [("ports", PyList [Scalar "8895"])])])
  = true.
Proof.
  apply (proj1 (froze_config_is_deep
                  [("lab", PyDict [("ports", PyList [Scalar "8895"])])])).
  reflexivity.
Defined.

Lemma dict_get_map_values {V W} (f : V -> W) k (d : list (string * V)) :
  dict_get k (List.map (fun kv => let '(k', v) := kv in (k', f v)) d)
  = option_map f (dict_get k d).
Proof.
  induction d as [|[k' v] d IH]; simpl; [reflexivity|].
  destruct (String.eqb k' k); [reflexivity|exact IH].
Qed.

(** X26. Reading the configuration: [config[item]] is the frozen form of
    what the file holds under [item], and there is no value (a [KeyError])
    exactly for the keys the file does not have. *)
Theorem config_getitem (loaded : list (string * config_value)) (item : string) :
  AlabConfig.getitem (AlabConfig.init loaded) item
  = option_map _froze_collection (dict_get item loaded)
  /\ (AlabConfig.getitem (AlabConfig.init loaded) item = None <->
      ~ In item (List.map fst loaded)).
Proof.
  assert (Hget : AlabConfig.getitem (AlabConfig.init loaded) item
                 = option_map _froze_collection (dict_get item loaded)).
  { unfold AlabConfig.getitem, AlabConfig.init, froze_config. simpl.
    apply dict_get_map_values. }
  split; [exact Hget|]. rewrite Hget. clear Hget.
  induction loaded as [|[k v] d IH]; simpl.
  - split; [intros _ []|reflexivity].
  - destruct (String.eqb_spec k item) as [->|Hne]; simpl.
    + split; [discriminate|]. intros H. elim H. now left.
    + rewrite IH. split.
      * intros H [E|Hin]; [contradiction|now apply H].
      * intros H Hin. apply H. now right.
Qed.

(** ** What a request leaves behind *)

Lemma check_enough_positions_reads_only req self :
  snd (check_enough_positions req self) = self.
Proof.
  induction req as [|x req IH]; simpl; [reflexivity|].
  unfold bind, query. destruct (_ <? _)%nat; [reflexivity|exact IH].
Qed.

(** X27. [request_sample_positions] never writes a document: whatever it
    returns or raises, both collections are as they were.  The lock is
    left whenever it was entered: when a check before the lock fails (two
    items with one prefix, or an item asking more positions than carry its
    prefix) the call raises with the lock log untouched; in every other
    case the log grows by exactly one entry followed by one exit, the exit
    carrying an exception exactly when the call raises. *)
Theorem request_only_reads
  (task_id : ObjectId) (sample_positions : list SamplePositionRequest.py_type)
  (self : SampleView) :
  let r := request_sample_positions task_id sample_positions self in
  let req := List.map SamplePositionRequest.from_py_type sample_positions in
  _sample_positions_collection (snd r) = _sample_positions_collection self
  /\ _sample_collection (snd r) = _sample_collection self
  /\ (~ NoDup (prefixes sample_positions)
      \/ (exists x, In x req /\
            population (SamplePositionRequest.prefix x) self
            < SamplePositionRequest.number x) ->
      is_raise (fst r) = true /\ _lock (snd r) = _lock self)
  /\ (NoDup (prefixes sample_positions) ->
      (forall x, In x req ->
         SamplePositionRequest.number x
         <= population (SamplePositionRequest.prefix x) self) ->
      _lock (snd r)
      = (_lock self ++ [LockEnter; LockExit (is_raise (fst r))])%list).
Proof.
  cbv zeta. rewrite request_sample_positions_run. cbv zeta.
  set (req := List.map SamplePositionRequest.from_py_type sample_positions).
  pose proof (check_enough_positions_reads_only req self) as Hcheck.
  pose proof (choose_positions_reads_only task_id req []
                (log_lock LockEnter self)) as Hchoose.
  destruct (_ =? _)%nat eqn:Edistinct.
  - apply distinct_count_NoDup in Edistinct.
    destruct (check_enough_positions req self) as [[[]|e] s1] eqn:Echeck;
      simpl in Hcheck; subst s1.
    + unfold with_lock.
      destruct (choose_positions task_id req [] (log_lock LockEnter self))
        as [r s2]. simpl in Hchoose. subst s2. simpl.
      split; [reflexivity|]. split; [reflexivity|]. split.
      * intros [Hdup|Hfew]; [contradiction|].
        destruct (check_enough_positions_fail req self Hfew)
          as [x [_ [_ Hrun]]]. congruence.
      * intros _ _. now rewrite <- app_assoc.
    + simpl. split; [reflexivity|]. split; [reflexivity|]. split.
      * intros _. split; reflexivity.
      * intros _ Hpop.
        rewrite (check_enough_positions_pass req self Hpop) in Echeck.
        discriminate.
  - simpl. split; [reflexivity|]. split; [reflexivity|]. split.
    + intros _. split; reflexivity.
    + intros Hnd. apply distinct_count_NoDup in Hnd. congruence.
Qed.

Lemma request_only_reads_witness :
  _lock (snd (request_sample_positions 1%N [SamplePositionRequest.Str "A"]
                Ex.held_by_2))
  = [LockEnter; LockExit false].
Proof.
  apply (proj2 (proj2 (proj2 (request_only_reads 1%N
                                [SamplePositionRequest.Str "A"]
                                Ex.held_by_2)))).
  - repeat constructor. intros [].
  - intros x [<-|[]]. vm_compute. lia.
Defined.

(** ** Scoped acquisition that succeeds *)

Section AcquisitionSucceeds.
Variables W ResourceRequest DeviceType DeviceWrapper SamplePositions : Type.
Variable update_status : ObjectId -> TaskStatus -> M W unit.
Variable requester_request_resources :
  ObjectId -> ResourceRequest -> option Z -> option Z ->
  M W (LabView.request_result DeviceType SamplePositions).
Variable requester_release_resources : ObjectId -> M W unit.
Variable create_device_wrapper : string -> M W DeviceWrapper.

(** X28. The normal path of [with lab_view.request_resources(...)]: the
    status is set to REQUESTING_RESOURCES, the request is made with the
    task id of the lab view, a wrapper is created for each granted device,
    the status is set to RUNNING, the body receives the wrappers and the
    granted sample positions, and when the body ends normally the last
    thing done is the release of the request id the requester returned. *)
Theorem scope_releases_its_request
  (self : LabView.t) (resource_request : ResourceRequest)
  (priority timeout : option Z)
  (body : list (DeviceType * DeviceWrapper) * SamplePositions -> M W unit)
  (s s0 s1 s2 s3 s4 : W)
  (result : LabView.request_result DeviceType SamplePositions)
  (wrappers : list (DeviceType * DeviceWrapper)) :
  update_status (LabView.task_id self) REQUESTING_RESOURCES s = (Ok tt, s0) ->
  requester_request_resources (LabView.task_id self) resource_request
    timeout priority s0 = (Ok result, s1) ->
  map_M (fun d => w <- create_device_wrapper (snd d) ;; ret (fst d, w))
        (LabView.devices result) s1 = (Ok wrappers, s2) ->
  update_status (LabView.task_id self) RUNNING s2 = (Ok tt, s3) ->
  body (wrappers, LabView.sample_positions result) s3 = (Ok tt, s4) ->
  with_contextmanager
    (LabView.request_resources update_status requester_request_resources
       requester_release_resources create_device_wrapper
       self resource_request priority timeout)
    body s
  = requester_release_resources (LabView.request_id result) s4.
Proof.
  intros H0 H1 H2 H3 H4.
  unfold with_contextmanager, LabView.request_resources, bind, ret in *.
  rewrite H0. cbv beta iota. rewrite H1. cbv beta iota.
  rewrite H2. cbv beta iota. rewrite H3. cbv beta iota.
  simpl. now rewrite H4.
Qed.
End AcquisitionSucceeds.

Lemma scope_releases_its_request_witness :
  with_request_resources (LabView.mk 1%N) [SamplePositionRequest.Str "A"]
    (fun _ => ret tt) Ex.lab_one_free
  = ResourceRequester.release_resources 0%N
      (mkLab (locked_for 1%N "A1" (after_lock false Ex.one_free))
             [(1%N, RUNNING); (1%N, REQUESTING_RESOURCES)]
             [(0%N, [("A", [Available.mk "A1" true])])]).
Proof.
  apply (scope_releases_its_request _ _ _ _ _
           TaskView.update_status ResourceRequester.request_resources
           ResourceRequester.release_resources
           DevicesClient.create_device_wrapper
           (LabView.mk 1%N) [SamplePositionRequest.Str "A"] None None
           (fun _ => ret tt)
           Ex.lab_one_free
           (mkLab Ex.one_free [(1%N, REQUESTING_RESOURCES)] [])
           (mkLab (locked_for 1%N "A1" (after_lock false Ex.one_free))
                  [(1%N, REQUESTING_RESOURCES)]
                  [(0%N, [("A", [Available.mk "A1" true])])])
           (mkLab (locked_for 1%N "A1" (after_lock false Ex.one_free))
                  [(1%N, REQUESTING_RESOURCES)]
                  [(0%N, [("A", [Available.mk "A1" true])])])
           (mkLab (locked_for 1%N "A1" (after_lock false Ex.one_free))
                  [(1%N, RUNNING); (1%N, REQUESTING_RESOURCES)]
                  [(0%N, [("A", [Available.mk "A1" true])])])
           (mkLab (locked_for 1%N "A1" (after_lock false Ex.one_free))
                  [(1%N, RUNNING); (1%N, REQUESTING_RESOURCES)]
                  [(0%N, [("A", [Available.mk "A1" true])])])
           (LabView.mk_result [] [("A", [Available.mk "A1" true])] 0%N)
           []); reflexivity.
Defined.
